(** * The design-generation job of the interior-design backend

    A shallow embedding of [src/services/design.service.ts] and of the
    ownership checks of the upload, room and project services, together with
    the properties of the job's state machine.

    The services are written against three collaborators that the embedding
    keeps explicit:
    - the relational store reached through the Prisma client (tables keyed by
      primary key, [findUnique], [create], [update], [delete]);
    - the wall clock ([Date.now()]) and the identifier generator of the
      client library;
    - the generation provider ([aiService.generateDesign]), which may
      resolve, reject, or never settle.

    Service methods are [async] functions; they are embedded in a monad [M]
    that threads the store and records what a promise can do: fulfil, reject
    with a thrown value, or stay pending for ever. *)

From Stdlib Require Import ZArith QArith String List.
From stdpp Require Import gmap strings list fin_maps.
Import ListNotations.

Local Open Scope string_scope.
Local Open Scope list_scope.
Local Open Scope Z_scope.
Local Set Warnings "-register-all".

(* ===================================================================== *)
(** ** JavaScript values the services manipulate                         *)
(* ===================================================================== *)

(** JSON payloads (the [metadata] columns, provider metadata).  An object
    keeps its keys in insertion order. *)
Inductive Json : Type :=
| JNull
| JBool (b : bool)
| JNum (q : Q)
| JStr (s : string)
| JArr (items : list Json)
| JObj (fields : list (string * Json)).

(** [o[k]] on an object. *)
Fixpoint obj_get (k : string) (o : list (string * Json)) : option Json :=
  match o with
  | [] => None
  | (k', v) :: rest => if String.eqb k' k then Some v else obj_get k rest
  end.

(** [{ ...o, k: v }]: the spread copies [o]; assigning an existing key
    overwrites it in place, a new key is appended. *)
Fixpoint obj_set (k : string) (v : Json) (o : list (string * Json))
  : list (string * Json) :=
  match o with
  | [] => [(k, v)]
  | (k', v') :: rest =>
      if String.eqb k' k then (k, v) :: rest else (k', v') :: obj_set k v rest
  end.

(** Truthiness, as used by [if (x)] and [x || y]. *)
Definition json_truthy (j : Json) : bool :=
  match j with
  | JNull => false
  | JBool b => b
  | JNum q => negb (Qeq_bool q 0)
  | JStr s => negb (String.eqb s "")
  | JArr _ | JObj _ => true
  end.

(** [a || b] where [a] is a string or [undefined] and [b] a string. *)
Definition js_or (a : option string) (b : string) : string :=
  match a with
  | Some s => if String.eqb s "" then b else s
  | None => b
  end.

(** Values that can be thrown.  [AppError] extends [Error]; [JsError] stands
    for every other instance of [Error] (client-library errors, [TypeError],
    provider errors); [NonError] is a thrown value that is not an [Error]
    but whose properties can be read (an object, a string, a number), with
    its [message] property when it has one; [Nullish] is [undefined] or
    [null], on which reading a property throws a [TypeError]. *)
Inductive Thrown : Type :=
| AppError (message : string) (statusCode : Z) (code : string)
| JsError (message : string)
| NonError (message : option string)
| Nullish.

Definition instanceof_Error (e : Thrown) : bool :=
  match e with
  | AppError _ _ _ | JsError _ => true
  | NonError _ | Nullish => false
  end.

Definition instanceof_AppError (e : Thrown) : bool :=
  match e with
  | AppError _ _ _ => true
  | _ => false
  end.

(** [error.message], for a value whose properties can be read. *)
Definition message_of (e : Thrown) : option string :=
  match e with
  | AppError m _ _ => Some m
  | JsError m => Some m
  | NonError m => m
  | Nullish => None
  end.

(** What [error.message] throws when [error] is [undefined] or [null]. *)
Definition cannot_read_message : Thrown :=
  JsError "Cannot read properties of undefined (reading 'message')".

(** The settlement of a promise. *)
Inductive Outcome (A : Type) : Type :=
| Fulfilled (a : A)
| Rejected (e : Thrown)
| Unsettled.
Arguments Fulfilled {A} a.
Arguments Rejected {A} e.
Arguments Unsettled {A}.

(* ===================================================================== *)
(** ** Data model (prisma schema, [src/types/index.ts])                  *)
(* ===================================================================== *)

Inductive DesignStatus : Type := PENDING | PROCESSING | COMPLETED | FAILED.

Inductive ProjectType : Type := RESIDENTIAL | PT_OFFICE.

Inductive RoomType : Type :=
| LIVING_ROOM | BEDROOM | KITCHEN | BATHROOM | OFFICE | DINING_ROOM
| BALCONY | STUDY | HALLWAY | OTHER.

Inductive InteriorStyle : Type :=
| ART_DECO | BOHEMIAN | COASTAL | RUSTIC | CONTEMPORARY | ETHNIC
| INDUSTRIAL | SCANDINAVIAN | VINTAGE | MINIMALIST.

Definition is_terminal (s : DesignStatus) : bool :=
  match s with
  | COMPLETED | FAILED => true
  | PENDING | PROCESSING => false
  end.

(** Instants are milliseconds since the epoch; [toISOString] renders one. *)
Inductive IsoString : Type := ISO (ms : Z).
Definition toISOString (t : Z) : IsoString := ISO t.

Record Project : Type := {
  p_id : string;
  p_name : string;
  p_type : ProjectType;
  p_style : InteriorStyle;
  p_userId : string
}.

Record Room : Type := {
  r_id : string;
  r_projectId : string;
  r_name : option string;
  r_type : RoomType;
  r_length : Q;
  r_width : Q;
  r_height : Q;
  r_materials : list string;
  r_ambientColor : option string;
  r_freePrompt : option string;
  r_originalImageUrl : option string
}.

Record Design : Type := {
  d_id : string;
  d_roomId : string;
  d_imageUrl : string;
  d_prompt : string;
  d_aiProvider : string;
  d_status : DesignStatus;
  d_metadata : option Json;
  d_processingTime : option Z;
  d_error : option string;
  d_createdAt : Z;
  d_updatedAt : Z
}.

Record Upload : Type := {
  u_id : string;
  u_roomId : option string;
  u_filename : string;
  u_originalName : string;
  u_mimeType : string;
  u_size : Z;
  u_url : string;
  u_cloudinaryId : option string;
  u_metadata : option Json;
  u_createdAt : Z
}.

(** [include: { project: ... }] on a room: the row with its project. *)
Record RoomWithProject : Type := {
  rp_room : Room;
  rp_project : Project
}.

(** [include: { room: { include: { project } } }] on a design. *)
Record DesignWithRoom : Type := {
  dr_design : Design;
  dr_room : RoomWithProject
}.

(** [include: { room }] on an upload; the relation is optional. *)
Record UploadWithRoom : Type := {
  ur_upload : Upload;
  ur_room : option RoomWithProject
}.

(** Request bodies. *)
Record GenerateDesignDto : Type := {
  dto_roomId : string;
  dto_customPrompt : option string;
  dto_aiProvider : option string
}.

Record RegenerateOptions : Type := {
  opt_aiProvider : option string;
  opt_customPrompt : option string
}.

(** Provider interface. *)
Record AIPromptData : Type := {
  pd_roomType : RoomType;
  pd_style : InteriorStyle;
  pd_length : Q;
  pd_width : Q;
  pd_height : Q;
  pd_materials : list string;
  pd_ambientColor : option string;
  pd_customPrompt : option string
}.

Record AIOptions : Type := {
  ao_provider : string;
  ao_inputImageUrl : option string
}.

Record AIGenerationResult : Type := {
  ai_imageUrls : list string;
  ai_prompt : string;
  ai_metadata : list (string * Json)
}.

(** The [data] argument of [prisma.design.update]: a field that is absent
    (or [undefined]) is left as it is. *)
Record DesignPatch : Type := {
  set_imageUrl : option string;
  set_prompt : option string;
  set_status : option DesignStatus;
  set_processingTime : option Z;
  set_metadata : option Json;
  set_error : option string
}.

(** The [data] argument of [prisma.design.create]; the remaining columns take
    their defaults. *)
Record DesignCreate : Type := {
  new_roomId : string;
  new_imageUrl : string;
  new_prompt : string;
  new_aiProvider : string;
  new_status : DesignStatus
}.

(** The background task once [processDesignGeneration] has been called: its
    arguments and the [startTime] it read before its first [await]. *)
Record Job : Type := {
  j_designId : string;
  j_room : RoomWithProject;
  j_customPrompt : option string;
  j_aiProvider : string;
  j_startTime : Z
}.

(* ===================================================================== *)
(** ** The world the services run in                                     *)
(* ===================================================================== *)

(** The relational store: one finite map per table, keyed by primary key. *)
Record Db : Type := {
  projects : gmap string Project;
  rooms : gmap string Room;
  designs : gmap string Design;
  uploads : gmap string Upload
}.

Inductive LogLevel : Type := Info | Warn | Error.

(** What a run does to the outside, in order. *)
Inductive Event : Type :=
| EvNow (t : Z)
| EvCreateDesign (d : Design)
| EvUpdateDesign (id : string) (p : DesignPatch)
| EvDeleteDesign (id : string)
| EvDeleteUpload (id : string)
| EvDestroyImage (cloudinaryId : string)
| EvGenerate (p : AIPromptData) (o : AIOptions)
| EvLog (l : LogLevel) (msg : string).

(** The collaborators that are not under the services' control:
    successive readings of the wall clock, the identifiers the client
    library draws for new rows, and the behaviour of the provider. *)
Record Env : Type := {
  clock : nat -> Z;
  cuid : nat -> string;
  provider : AIPromptData -> AIOptions -> Outcome AIGenerationResult;
  cloudinary_destroy : string -> Outcome unit
}.

Record World : Type := {
  db : Db;
  ticks : nat;          (* clock readings taken so far *)
  minted : nat;         (* identifiers drawn so far *)
  spawned : list Job;   (* promises left running, oldest first *)
  trace : list Event    (* events so far, oldest first *)
}.

Definition with_db (f : Db -> Db) (w : World) : World :=
  {| db := f (db w); ticks := ticks w; minted := minted w;
     spawned := spawned w; trace := trace w |}.

Definition with_designs (f : gmap string Design -> gmap string Design)
  (b : Db) : Db :=
  {| projects := projects b; rooms := rooms b; designs := f (designs b);
     uploads := uploads b |}.

Definition with_uploads (f : gmap string Upload -> gmap string Upload)
  (b : Db) : Db :=
  {| projects := projects b; rooms := rooms b; designs := designs b;
     uploads := f (uploads b) |}.

Definition emit (e : Event) (w : World) : World :=
  {| db := db w; ticks := ticks w; minted := minted w;
     spawned := spawned w; trace := trace w ++ [e] |}.

Definition tick (w : World) : World :=
  {| db := db w; ticks := S (ticks w); minted := minted w;
     spawned := spawned w; trace := trace w |}.

(** *** The monad of asynchronous computations *)

Definition M (A : Type) : Type := Env -> World -> Outcome A * World.

Definition ret {A} (a : A) : M A := fun _ w => (Fulfilled a, w).

Definition throw {A} (e : Thrown) : M A := fun _ w => (Rejected e, w).

Definition bind {A B} (m : M A) (k : A -> M B) : M B :=
  fun env w =>
    match m env w with
    | (Fulfilled a, w') => k a env w'
    | (Rejected e, w') => (Rejected e, w')
    | (Unsettled, w') => (Unsettled, w')
    end.

(** [try { m } catch (error) { h error }], and [promise.catch(h)]. *)
Definition try_catch {A} (m : M A) (h : Thrown -> M A) : M A :=
  fun env w =>
    match m env w with
    | (Rejected e, w') => h e env w'
    | r => r
    end.

Declare Scope async_scope.
Delimit Scope async_scope with async.
Notation "'let*' x ':=' m 'in' k" := (bind m (fun x => k))
  (at level 10, x name, m at level 100, k at level 200) : async_scope.
Notation "m ';;' k" := (bind m (fun _ => k))
  (at level 100, k at level 200, right associativity) : async_scope.
Local Open Scope async_scope.

(** *** Primitive effects *)

(** [Date.now()] *)
Definition Date_now : M Z :=
  fun env w =>
    let t := clock env (ticks w) in (Fulfilled t, emit (EvNow t) (tick w)).

(** The timestamp the client library puts on a row it writes. *)
Definition row_timestamp : M Z :=
  fun env w => (Fulfilled (clock env (ticks w)), tick w).

Definition draw_cuid : M string :=
  fun env w =>
    (Fulfilled (cuid env (minted w)),
     {| db := db w; ticks := ticks w; minted := S (minted w);
        spawned := spawned w; trace := trace w |}).

Definition logger (l : LogLevel) (msg : string) : M unit :=
  fun _ w => (Fulfilled tt, emit (EvLog l msg) w).

(** Leaving a promise running without awaiting it. *)
Definition spawn (j : Job) : M unit :=
  fun _ w =>
    (Fulfilled tt,
     {| db := db w; ticks := ticks w; minted := minted w;
        spawned := spawned w ++ [j]; trace := trace w |}).

Definition get_db : M Db := fun _ w => (Fulfilled (db w), w).

Definition modify_db (f : Db -> Db) : M unit :=
  fun _ w => (Fulfilled tt, with_db f w).

Definition emitM (e : Event) : M unit := fun _ w => (Fulfilled tt, emit e w).

(** [aiService.generateDesign(promptData, options)] *)
Definition aiService_generateDesign (p : AIPromptData) (o : AIOptions)
  : M AIGenerationResult :=
  fun env w => (provider env p o, emit (EvGenerate p o) w).

(** [CloudinaryUtil.deleteImage(id)] *)
Definition CloudinaryUtil_deleteImage (cid : string) : M unit :=
  fun env w => (cloudinary_destroy env cid, emit (EvDestroyImage cid) w).

(* ===================================================================== *)
(** ** The store operations the services call                            *)
(* ===================================================================== *)

(** Each operation fails only as its contract says: [update] and [delete]
    reject when no row has the id, [create] rejects on a clash of primary
    key or a dangling foreign key, [create] and [update] reject a value its
    column cannot hold, and a read rejects when a required relation of the
    row is missing. *)

(** *** What the columns of [designs] can hold
    ([prisma/migrations/.../migration.sql])

    A [TEXT] column holds any string without the character U+0000, a
    [JSONB] column any JSON value whose strings and keys are such, and the
    [INTEGER] column [processingTime] a 32-bit signed integer.  A [JSONB]
    column does not keep the order of the keys of an object; the services
    read [metadata] by key only. *)

Fixpoint text_ok (s : string) : bool :=
  match s with
  | EmptyString => true
  | String c rest => negb (Ascii.eqb c Ascii.zero) && text_ok rest
  end.

Fixpoint jsonb_ok (j : Json) : bool :=
  match j with
  | JNull | JBool _ | JNum _ => true
  | JStr s => text_ok s
  | JArr items => forallb jsonb_ok items
  | JObj fields =>
      forallb (fun kv => match kv with (k, v) => text_ok k && jsonb_ok v end)
        fields
  end.

Definition int4_ok (n : Z) : bool :=
  (-2147483648 <=? n) && (n <=? 2147483647).

Definition option_ok {A} (ok : A -> bool) (x : option A) : bool :=
  match x with
  | Some a => ok a
  | None => true
  end.

(** The error of the client library when the store refuses a value.  The
    wording of its message is the library's; what matters below is that it
    is an [Error] with a message that is not empty. *)
Definition value_refused : Thrown :=
  JsError "Invalid value: the column cannot hold it.".

Definition missing_relation : Thrown :=
  JsError "Inconsistent query result: Field is required to return data, got null instead.".

(** [include: { project }]: the relation is required. *)
Definition join_project (b : Db) (r : Room) : Outcome RoomWithProject :=
  match projects b !! r_projectId r with
  | Some p => Fulfilled {| rp_room := r; rp_project := p |}
  | None => Rejected missing_relation
  end.

(** [prisma.room.findUnique({ where: { id }, include: { project } })] *)
Definition prisma_room_findUnique (id : string) : M (option RoomWithProject) :=
  fun _ w =>
    match rooms (db w) !! id with
    | None => (Fulfilled None, w)
    | Some r =>
        match join_project (db w) r with
        | Fulfilled rp => (Fulfilled (Some rp), w)
        | Rejected e => (Rejected e, w)
        | Unsettled => (Unsettled, w)
        end
    end.

(** [prisma.design.findUnique({ where: { id },
      include: { room: { include: { project } } } })] *)
Definition prisma_design_findUnique (id : string) : M (option DesignWithRoom) :=
  fun _ w =>
    match designs (db w) !! id with
    | None => (Fulfilled None, w)
    | Some d =>
        match rooms (db w) !! d_roomId d with
        | None => (Rejected missing_relation, w)
        | Some r =>
            match join_project (db w) r with
            | Fulfilled rp =>
                (Fulfilled (Some {| dr_design := d; dr_room := rp |}), w)
            | Rejected e => (Rejected e, w)
            | Unsettled => (Unsettled, w)
            end
        end
    end.

(** [prisma.upload.findUnique({ where: { id }, include: { room } })]; an
    upload need not belong to a room. *)
Definition prisma_upload_findUnique (id : string) : M (option UploadWithRoom) :=
  fun _ w =>
    match uploads (db w) !! id with
    | None => (Fulfilled None, w)
    | Some u =>
        match u_roomId u ≫= (fun rid => rooms (db w) !! rid) with
        | None => (Fulfilled (Some {| ur_upload := u; ur_room := None |}), w)
        | Some r =>
            match join_project (db w) r with
            | Fulfilled rp =>
                (Fulfilled (Some {| ur_upload := u; ur_room := Some rp |}), w)
            | Rejected e => (Rejected e, w)
            | Unsettled => (Unsettled, w)
            end
        end
    end.

(** The row [prisma.design.create] inserts. *)
Definition created_row (data : DesignCreate) (id : string) (now : Z) : Design :=
  {| d_id := id;
     d_roomId := new_roomId data;
     d_imageUrl := new_imageUrl data;
     d_prompt := new_prompt data;
     d_aiProvider := new_aiProvider data;
     d_status := new_status data;
     d_metadata := None;
     d_processingTime := None;
     d_error := None;
     d_createdAt := now;
     d_updatedAt := now |}.

(** The text columns [create] fills from its [data]; [roomId] is checked
    against the rooms table. *)
Definition create_ok (data : DesignCreate) : bool :=
  text_ok (new_imageUrl data) && text_ok (new_prompt data)
  && text_ok (new_aiProvider data).

(** [prisma.design.create({ data })]: the identifier is drawn by the client
    library, the primary key and the foreign key are enforced by the store,
    and so is what the columns can hold. *)
Definition prisma_design_create (data : DesignCreate) : M Design :=
  let* id := draw_cuid in
  let* b := get_db in
  match designs b !! id with
  | Some _ => throw (JsError "Unique constraint failed on the fields: (id)")
  | None =>
      match rooms b !! new_roomId data with
      | None => throw (JsError "Foreign key constraint failed on the field: roomId")
      | Some _ =>
          if create_ok data then
            let* now := row_timestamp in
            let d := created_row data id now in
            modify_db (with_designs (insert id d));;
            emitM (EvCreateDesign d);;
            ret d
          else throw value_refused
      end
  end.

Definition apply_patch (p : DesignPatch) (now : Z) (d : Design) : Design :=
  {| d_id := d_id d;
     d_roomId := d_roomId d;
     d_imageUrl := default (d_imageUrl d) (set_imageUrl p);
     d_prompt := default (d_prompt d) (set_prompt p);
     d_aiProvider := d_aiProvider d;
     d_status := default (d_status d) (set_status p);
     d_metadata :=
       match set_metadata p with Some m => Some m | None => d_metadata d end;
     d_processingTime :=
       match set_processingTime p with
       | Some t => Some t
       | None => d_processingTime d
       end;
     d_error :=
       match set_error p with Some e => Some e | None => d_error d end;
     d_createdAt := d_createdAt d;
     d_updatedAt := now |}.

(** The values an update sets, each against its column. *)
Definition patch_ok (p : DesignPatch) : bool :=
  option_ok text_ok (set_imageUrl p)
  && option_ok text_ok (set_prompt p)
  && option_ok int4_ok (set_processingTime p)
  && option_ok jsonb_ok (set_metadata p)
  && option_ok text_ok (set_error p).

(** [prisma.design.update({ where: { id }, data })]: rejects when no row has
    that id, and when a column cannot hold the value given for it; a
    rejected update writes nothing. *)
Definition prisma_design_update (id : string) (data : DesignPatch) : M Design :=
  let* b := get_db in
  match designs b !! id with
  | None => throw (JsError "Record to update not found.")
  | Some d =>
      if patch_ok data then
        let* now := row_timestamp in
        let d' := apply_patch data now d in
        modify_db (with_designs (insert id d'));;
        emitM (EvUpdateDesign id data);;
        ret d'
      else throw value_refused
  end.

(** [prisma.design.delete({ where: { id } })] *)
Definition prisma_design_delete (id : string) : M unit :=
  let* b := get_db in
  match designs b !! id with
  | None => throw (JsError "Record to delete does not exist.")
  | Some _ =>
      modify_db (with_designs (delete id));;
      emitM (EvDeleteDesign id)
  end.

(** [prisma.upload.delete({ where: { id } })] *)
Definition prisma_upload_delete (id : string) : M unit :=
  let* b := get_db in
  match uploads b !! id with
  | None => throw (JsError "Record to delete does not exist.")
  | Some _ =>
      modify_db (with_uploads (delete id));;
      emitM (EvDeleteUpload id)
  end.

(* ===================================================================== *)
(** ** DesignService ([src/services/design.service.ts])                  *)
(* ===================================================================== *)

(** The project fields a response exposes (the owner id is not among them). *)
Record ProjectSummary : Type := {
  ps_id : string;
  ps_name : string;
  ps_type : ProjectType;
  ps_style : InteriorStyle
}.

Record RoomDetails : Type := {
  rd_id : string;
  rd_name : option string;
  rd_type : RoomType;
  rd_length : Q;
  rd_width : Q;
  rd_height : Q;
  rd_materials : list string;
  rd_ambientColor : option string;
  rd_freePrompt : option string;
  rd_originalImageUrl : option string;
  rd_project : ProjectSummary
}.

Record DesignResponse : Type := {
  res_id : string;
  res_roomId : string;
  res_imageUrl : string;
  res_prompt : string;
  res_aiProvider : string;
  res_status : DesignStatus;
  res_processingTime : option Z;
  res_error : option string;
  res_metadata : option Json;
  res_createdAt : IsoString;
  res_updatedAt : IsoString;
  res_room : option RoomDetails;
  res_allImageUrls : option Json
}.

(** [design.metadata?.allImageUrls], kept when truthy. *)
Definition metadata_allImageUrls (m : option Json) : option Json :=
  match m with
  | Some (JObj o) =>
      match obj_get "allImageUrls" o with
      | Some v => if json_truthy v then Some v else None
      | None => None
      end
  | _ => None
  end.

Definition room_details (rp : RoomWithProject) : RoomDetails :=
  let r := rp_room rp in
  let p := rp_project rp in
  {| rd_id := r_id r;
     rd_name := r_name r;
     rd_type := r_type r;
     rd_length := r_length r;
     rd_width := r_width r;
     rd_height := r_height r;
     rd_materials := r_materials r;
     rd_ambientColor := r_ambientColor r;
     rd_freePrompt := r_freePrompt r;
     rd_originalImageUrl := r_originalImageUrl r;
     rd_project :=
       {| ps_id := p_id p; ps_name := p_name p; ps_type := p_type p;
          ps_style := p_style p |} |}.

(** [formatDesignResponse(design, includeRoomDetails)]; [room] is
    [design.room], present only when the row was read with its room. *)
Definition formatDesignResponse (design : Design)
  (room : option RoomWithProject) (includeRoomDetails : bool)
  : DesignResponse :=
  {| res_id := d_id design;
     res_roomId := d_roomId design;
     res_imageUrl := d_imageUrl design;
     res_prompt := d_prompt design;
     res_aiProvider := d_aiProvider design;
     res_status := d_status design;
     res_processingTime := d_processingTime design;
     res_error := d_error design;
     res_metadata := d_metadata design;
     res_createdAt := toISOString (d_createdAt design);
     res_updatedAt := toISOString (d_updatedAt design);
     res_room := if includeRoomDetails then room_details <$> room else None;
     res_allImageUrls := metadata_allImageUrls (d_metadata design) |}.

Definition patch_PROCESSING : DesignPatch :=
  {| set_imageUrl := None; set_prompt := None; set_status := Some PROCESSING;
     set_processingTime := None; set_metadata := None; set_error := None |}.

(** The terminal write of the success path. [imageUrls[0]] is [undefined]
    for an empty list, which leaves the column as it is. *)
Definition patch_COMPLETED (aiResult : AIGenerationResult)
  (processingTime : Z) : DesignPatch :=
  {| set_imageUrl := head (ai_imageUrls aiResult);
     set_prompt := Some (ai_prompt aiResult);
     set_status := Some COMPLETED;
     set_processingTime := Some processingTime;
     set_metadata :=
       Some (JObj (obj_set "allImageUrls"
                     (JArr (JStr <$> ai_imageUrls aiResult))
                     (ai_metadata aiResult)));
     set_error := None |}.

(** The terminal write of the failure path. *)
Definition patch_FAILED (error : Thrown) (processingTime : Z) : DesignPatch :=
  {| set_imageUrl := None; set_prompt := None; set_status := Some FAILED;
     set_processingTime := Some processingTime;
     set_metadata := None;
     set_error :=
       Some (if instanceof_Error error
             then default "" (message_of error)
             else "Unknown error") |}.

(** [error instanceof Error ? error.message : "Unknown error"] *)
Definition recorded_message (error : Thrown) : string :=
  if instanceof_Error error then default "" (message_of error)
  else "Unknown error".

(** The write of the [.catch] handler attached in [generateDesign]. *)
Definition patch_FAILED_secondary (error : Thrown) : DesignPatch :=
  {| set_imageUrl := None; set_prompt := None; set_status := Some FAILED;
     set_processingTime := None; set_metadata := None;
     set_error := Some (js_or (message_of error) "Design generation failed") |}.

Definition promptData_of (room : RoomWithProject)
  (customPrompt : option string) : AIPromptData :=
  {| pd_roomType := r_type (rp_room room);
     pd_style := p_style (rp_project room);
     pd_length := r_length (rp_room room);
     pd_width := r_width (rp_room room);
     pd_height := r_height (rp_room room);
     pd_materials := r_materials (rp_room room);
     pd_ambientColor := r_ambientColor (rp_room room);
     pd_customPrompt := customPrompt |}.

Definition options_of (room : RoomWithProject) (aiProvider : string)
  : AIOptions :=
  {| ao_provider := aiProvider;
     ao_inputImageUrl := r_originalImageUrl (rp_room room) |}.

(** [processDesignGeneration(designId, room, customPrompt, aiProvider)], the
    part that runs at the call: an [async] function executes up to its first
    [await], so [startTime] is read before the caller goes on. *)
Definition processDesignGeneration (designId : string)
  (room : RoomWithProject) (customPrompt : option string)
  (aiProvider : string) : M Job :=
  let* startTime := Date_now in
  ret {| j_designId := designId; j_room := room;
         j_customPrompt := customPrompt; j_aiProvider := aiProvider;
         j_startTime := startTime |}.

(** The rest of [processDesignGeneration], from its first [await] on;
    [first] is the promise that [await] waits for. *)
Definition processDesignGeneration_from (first : M Design) (j : Job) : M unit :=
  let designId := j_designId j in
  let room := j_room j in
  let startTime := j_startTime j in
  try_catch
    (first;;
     let promptData := promptData_of room (j_customPrompt j) in
     let* aiResult :=
       aiService_generateDesign promptData (options_of room (j_aiProvider j)) in
     let* now := Date_now in
     let processingTime := now - startTime in
     prisma_design_update designId (patch_COMPLETED aiResult processingTime);;
     logger Info "Design generation completed successfully")
    (fun error =>
       let* now := Date_now in
       let processingTime := now - startTime in
       logger Error "Design generation processing failed:";;
       prisma_design_update designId (patch_FAILED error processingTime);;
       ret tt).

(** The first [await] of the task: the PROCESSING write. *)
Definition processing_write (j : Job) : M Design :=
  prisma_design_update (j_designId j) patch_PROCESSING.

Definition processDesignGeneration_resume (j : Job) : M unit :=
  processDesignGeneration_from (processing_write j) j.

(** The handler of [.catch((error) => ...)] in [generateDesign]: the
    secondary update carries its own [.catch], which only logs.  The
    handler reads [error.message] while it builds the update, outside that
    [.catch]: on [undefined] or [null] the handler itself throws. *)
Definition onGenerationRejected (designId : string) (error : Thrown) : M unit :=
  logger Error "Design generation processing failed:";;
  match error with
  | Nullish => throw cannot_read_message
  | _ =>
      try_catch
        (prisma_design_update designId (patch_FAILED_secondary error);;
         ret tt)
        (fun updateError =>
           logger Error "Failed to update design status to FAILED:")
  end.

(** The detached promise [processDesignGeneration(...).catch(...)], from the
    point where the call suspended. *)
Definition detached (j : Job) : M unit :=
  try_catch (processDesignGeneration_resume j)
            (onGenerationRejected (j_designId j)).

(** A promise that has settled already. *)
Definition settled_as {A} (o : Outcome A) : M A := fun _ w => (o, w).

(** The detached promise from the settlement of its PROCESSING write on.
    That write is dispatched while [generateDesign] is still running, so it
    reaches the store before any request that follows; the rest of the task
    runs whenever the event loop comes to it. *)
Definition detached_after (j : Job) (first : Outcome Design) : M unit :=
  try_catch (processDesignGeneration_from (settled_as first) j)
            (onGenerationRejected (j_designId j)).

Definition ROOM_NOT_FOUND : Thrown :=
  AppError "Room not found" 404 "ROOM_NOT_FOUND".

Definition DESIGN_NOT_FOUND : Thrown :=
  AppError "Design not found" 404 "DESIGN_NOT_FOUND".

Definition ACCESS_DENIED (message : string) : Thrown :=
  AppError message 403 "ACCESS_DENIED".

(** The [catch] block every service method ends with: an [AppError] is
    passed on, anything else becomes a 500 with the method's own code. *)
Definition rethrow {A} (logMessage message code : string) (error : Thrown)
  : M A :=
  logger Error logMessage;;
  if instanceof_AppError error then throw error
  else throw (AppError message 500 code).

(** [generateDesign(userId, designData)] *)
Definition generateDesign (userId : string) (designData : GenerateDesignDto)
  : M DesignResponse :=
  try_catch
    (let roomId := dto_roomId designData in
     let customPrompt := dto_customPrompt designData in
     let aiProvider := default "replicate" (dto_aiProvider designData) in
     let* room := prisma_room_findUnique roomId in
     match room with
     | None => throw ROOM_NOT_FOUND
     | Some room =>
         if negb (String.eqb (p_userId (rp_project room)) userId)
         then throw (ACCESS_DENIED
           "Access denied. You can only generate designs for your own rooms.")
         else
           let* design :=
             prisma_design_create
               {| new_roomId := roomId;
                  new_imageUrl := "";
                  new_prompt := js_or customPrompt "";
                  new_aiProvider := aiProvider;
                  new_status := PENDING |} in
           let* job :=
             processDesignGeneration (d_id design) room customPrompt
               aiProvider in
           spawn job;;
           logger Info "Design generation initiated";;
           ret (formatDesignResponse design None false)
     end)
    (rethrow "Design generation initiation failed:"
       "Failed to initiate design generation" "DESIGN_GENERATION_ERROR").

(** [getDesignById(designId, userId)] *)
Definition getDesignById (designId userId : string) : M DesignResponse :=
  try_catch
    (let* design := prisma_design_findUnique designId in
     match design with
     | None => throw DESIGN_NOT_FOUND
     | Some design =>
         if negb (String.eqb (p_userId (rp_project (dr_room design))) userId)
         then throw (ACCESS_DENIED
           "Access denied. You can only view your own designs.")
         else
           ret (formatDesignResponse (dr_design design)
                  (Some (dr_room design)) true)
     end)
    (rethrow "Get design by ID failed:" "Failed to get design"
       "GET_DESIGN_ERROR").

(** [deleteDesign(designId, userId)] *)
Definition deleteDesign (designId userId : string) : M unit :=
  try_catch
    (let* existingDesign := prisma_design_findUnique designId in
     match existingDesign with
     | None => throw DESIGN_NOT_FOUND
     | Some existingDesign =>
         if negb (String.eqb
                    (p_userId (rp_project (dr_room existingDesign))) userId)
         then throw (ACCESS_DENIED
           "Access denied. You can only delete your own designs.")
         else
           prisma_design_delete designId;;
           logger Info "Design deleted successfully"
     end)
    (rethrow "Design deletion failed:" "Failed to delete design"
       "DESIGN_DELETE_ERROR").

(** The request [regenerateDesign] passes to [generateDesign]:
    [options?.customPrompt || originalDesign.prompt] and
    [options?.aiProvider || originalDesign.aiProvider]. *)
Definition regeneration_request (options : option RegenerateOptions)
  (original : Design) : GenerateDesignDto :=
  {| dto_roomId := d_roomId original;
     dto_customPrompt :=
       Some (js_or (options ≫= opt_customPrompt) (d_prompt original));
     dto_aiProvider :=
       Some (js_or (options ≫= opt_aiProvider) (d_aiProvider original)) |}.

(** [regenerateDesign(designId, userId, options)] *)
Definition regenerateDesign (designId userId : string)
  (options : option RegenerateOptions) : M DesignResponse :=
  try_catch
    (let* originalDesign := prisma_design_findUnique designId in
     match originalDesign with
     | None => throw DESIGN_NOT_FOUND
     | Some originalDesign =>
         if negb (String.eqb
                    (p_userId (rp_project (dr_room originalDesign))) userId)
         then throw (ACCESS_DENIED
           "Access denied. You can only regenerate your own designs.")
         else
           let* newDesign :=
             generateDesign userId
               (regeneration_request options (dr_design originalDesign)) in
           logger Info "Design regenerated successfully";;
           ret newDesign
     end)
    (rethrow "Design regeneration failed:" "Failed to regenerate design"
       "DESIGN_REGENERATION_ERROR").

(** *** Running what was left detached *)

Definition no_spawned (w : World) : World :=
  {| db := db w; ticks := ticks w; minted := minted w; spawned := [];
     trace := trace w |}.

(** The event loop takes the promises left running and drives each to its
    settlement, no other request arriving meanwhile; nobody awaits their
    outcome. *)
Definition event_loop (env : Env) (w : World) : World :=
  fold_left (fun w j => snd (detached j env w)) (spawned w) (no_spawned w).

(** A request served to the end: the response the caller receives, and the
    world once the detached work has run as far as it can before any other
    request arrives. *)
Definition serve {A} (request : M A) (env : Env) (w : World)
  : Outcome A * World :=
  let '(response, w') := request env w in
  (response, event_loop env w').


(** The whole detached promise, from the call of
    [processDesignGeneration] to its settlement. *)
Definition generation_task (designId : string) (room : RoomWithProject)
  (customPrompt : option string) (aiProvider : string) : M unit :=
  let* job := processDesignGeneration designId room customPrompt aiProvider in
  detached job.

(** The same collaborators with another provider. *)
Definition with_provider
  (f : AIPromptData -> AIOptions -> Outcome AIGenerationResult) (env : Env)
  : Env :=
  {| clock := clock env; cuid := cuid env; provider := f;
     cloudinary_destroy := cloudinary_destroy env |}.

(** *** The status history of a row, read off the trace *)

(** The status a write gives to row [id], if the event is such a write. *)
Definition written_status (id : string) (e : Event) : option DesignStatus :=
  match e with
  | EvCreateDesign d => if String.eqb (d_id d) id then Some (d_status d) else None
  | EvUpdateDesign id' p => if String.eqb id' id then set_status p else None
  | _ => None
  end.

Definition status_history (id : string) (tr : list Event) : list DesignStatus :=
  omap (written_status id) tr.

(** The transitions of the job's state machine. *)
Definition transition (from to : DesignStatus) : bool :=
  match from, to with
  | PENDING, PROCESSING => true
  | PROCESSING, COMPLETED => true
  | PROCESSING, FAILED => true
  | PENDING, FAILED => true
  | _, _ => false
  end.

Fixpoint follows (s : DesignStatus) (rest : list DesignStatus) : bool :=
  match rest with
  | [] => true
  | s' :: rest' => transition s s' && follows s' rest'
  end.

(** A history that starts at creation in [PENDING] and only takes
    transitions of the machine. *)
Definition lifecycle (h : list DesignStatus) : bool :=
  match h with
  | PENDING :: rest => follows PENDING rest
  | _ => false
  end.

(** Nothing follows a terminal status. *)
Fixpoint terminal_is_last (h : list DesignStatus) : bool :=
  match h with
  | [] => true
  | s :: rest =>
      (if is_terminal s then match rest with [] => true | _ => false end
       else true)
      && terminal_is_last rest
  end.

(** The provider calls recorded in a trace. *)
Definition is_provider_call (e : Event) : bool :=
  match e with
  | EvGenerate _ _ => true
  | _ => false
  end.

Definition provider_calls (tr : list Event) : list Event :=
  List.filter is_provider_call tr.

(* ===================================================================== *)
(** ** UploadService (read and delete)                                   *)
(* ===================================================================== *)

(** [select: { id, name, type, project: { select: { id, name, userId } } }] *)
Record UploadRoomView : Type := {
  urv_id : string;
  urv_name : option string;
  urv_type : RoomType;
  urv_project_id : string;
  urv_project_name : string;
  urv_project_userId : string
}.

Record UploadResponse : Type := {
  ures_id : string;
  ures_filename : string;
  ures_originalName : string;
  ures_mimeType : string;
  ures_size : Z;
  ures_url : string;
  ures_cloudinaryId : option string;
  ures_metadata : option Json;
  ures_createdAt : IsoString;
  ures_room : option UploadRoomView
}.

Definition upload_room_view (rp : RoomWithProject) : UploadRoomView :=
  {| urv_id := r_id (rp_room rp);
     urv_name := r_name (rp_room rp);
     urv_type := r_type (rp_room rp);
     urv_project_id := p_id (rp_project rp);
     urv_project_name := p_name (rp_project rp);
     urv_project_userId := p_userId (rp_project rp) |}.

Definition UPLOAD_NOT_FOUND : Thrown :=
  AppError "Upload not found" 404 "UPLOAD_NOT_FOUND".

(** [getUploadById(uploadId)]: the method takes no user id. *)
Definition getUploadById (uploadId : string) : M UploadResponse :=
  try_catch
    (let* upload := prisma_upload_findUnique uploadId in
     match upload with
     | None => throw UPLOAD_NOT_FOUND
     | Some upload =>
         let u := ur_upload upload in
         ret {| ures_id := u_id u;
                ures_filename := u_filename u;
                ures_originalName := u_originalName u;
                ures_mimeType := u_mimeType u;
                ures_size := u_size u;
                ures_url := u_url u;
                ures_cloudinaryId := u_cloudinaryId u;
                ures_metadata := u_metadata u;
                ures_createdAt := toISOString (u_createdAt u);
                ures_room := upload_room_view <$> ur_room upload |}
     end)
    (rethrow "Get upload failed:" "Failed to get upload" "GET_UPLOAD_ERROR").

(** [upload.room?.project?.userId !== userId] *)
Definition upload_owner_differs (room : option RoomWithProject)
  (userId : string) : bool :=
  match room with
  | Some rp => negb (String.eqb (p_userId (rp_project rp)) userId)
  | None => true
  end.

(** [deleteUpload(uploadId, userId)] *)
Definition deleteUpload (uploadId userId : string) : M unit :=
  try_catch
    (let* upload := prisma_upload_findUnique uploadId in
     match upload with
     | None => throw UPLOAD_NOT_FOUND
     | Some upload =>
         if upload_owner_differs (ur_room upload) userId
         then throw (ACCESS_DENIED
           "Access denied. You can only delete your own uploads.")
         else
           match u_cloudinaryId (ur_upload upload) with
           | Some cid =>
               if String.eqb cid "" then ret tt
               else
                 try_catch (CloudinaryUtil_deleteImage cid)
                   (fun cloudinaryError =>
                      logger Warn "Failed to delete image from Cloudinary:")
           | None => ret tt
           end;;
           prisma_upload_delete uploadId;;
           logger Info "Upload deleted successfully"
     end)
    (rethrow "Delete upload failed:" "Failed to delete upload"
       "DELETE_UPLOAD_ERROR").

(* ===================================================================== *)
(** ** Worlds reached by the store operations                            *)
(* ===================================================================== *)

(** The world after a row write: the table changed, one clock reading
    consumed, one event appended. *)
Definition wrote (f : gmap string Design -> gmap string Design) (e : Event)
  (w : World) : World :=
  {| db := with_designs f (db w); ticks := S (ticks w); minted := minted w;
     spawned := spawned w; trace := trace w ++ [e] |}.

Definition world_created (d : Design) (w : World) : World :=
  {| db := with_designs (insert (d_id d) d) (db w); ticks := S (ticks w);
     minted := S (minted w); spawned := spawned w;
     trace := trace w ++ [EvCreateDesign d] |}.


(** What [generateDesign] leaves behind when it succeeds: the row as
    created, the job it left running, and the world at its return. *)
Definition initial_row (env : Env) (w : World) (designData : GenerateDesignDto)
  : Design :=
  created_row
    {| new_roomId := dto_roomId designData;
       new_imageUrl := "";
       new_prompt := js_or (dto_customPrompt designData) "";
       new_aiProvider := default "replicate" (dto_aiProvider designData);
       new_status := PENDING |}
    (cuid env (minted w)) (clock env (ticks w)).

Definition initial_job (env : Env) (w : World) (designData : GenerateDesignDto)
  (room : RoomWithProject) : Job :=
  {| j_designId := cuid env (minted w);
     j_room := room;
     j_customPrompt := dto_customPrompt designData;
     j_aiProvider := default "replicate" (dto_aiProvider designData);
     j_startTime := clock env (S (ticks w)) |}.

Definition world_initiated (env : Env) (w : World)
  (designData : GenerateDesignDto) (room : RoomWithProject) : World :=
  {| db := with_designs
             (insert (cuid env (minted w)) (initial_row env w designData))
             (db w);
     ticks := S (S (ticks w));
     minted := S (minted w);
     spawned := spawned w ++ [initial_job env w designData room];
     trace := trace w ++
              [EvCreateDesign (initial_row env w designData);
               EvNow (clock env (S (ticks w)));
               EvLog Info "Design generation initiated"] |}.

(* ===================================================================== *)
(** ** A concrete scenario                                                *)
(* ===================================================================== *)

(** A bedroom of 4.5 x 3.2 x 2.7 in wood, in a Scandinavian project owned by
    alice; one finished design and one upload belong to the room.  bob is
    another user. *)
Definition ex_project : Project :=
  {| p_id := "p1"; p_name := "Flat"; p_type := RESIDENTIAL;
     p_style := SCANDINAVIAN; p_userId := "alice" |}.

Definition ex_room : Room :=
  {| r_id := "r1"; r_projectId := "p1"; r_name := Some "Bedroom";
     r_type := BEDROOM; r_length := 9 # 2; r_width := 16 # 5;
     r_height := 27 # 10; r_materials := ["wood"];
     r_ambientColor := None; r_freePrompt := None;
     r_originalImageUrl := Some "https://img.example/room.jpg" |}.

Definition ex_design : Design :=
  {| d_id := "d0"; d_roomId := "r1";
     d_imageUrl := "https://img.example/d0.png";
     d_prompt := "A Scandinavian bedroom in wood";
     d_aiProvider := "openai"; d_status := COMPLETED;
     d_metadata := None; d_processingTime := Some 4200; d_error := None;
     d_createdAt := 100; d_updatedAt := 4300 |}.

Definition ex_upload : Upload :=
  {| u_id := "up1"; u_roomId := Some "r1"; u_filename := "room_1.jpg";
     u_originalName := "room.jpg"; u_mimeType := "image/jpeg";
     u_size := 204800; u_url := "https://img.example/room.jpg";
     u_cloudinaryId := Some "interior-design/room-images/room_1";
     u_metadata := None; u_createdAt := 50 |}.

Definition ex_db : Db :=
  {| projects := {[ "p1" := ex_project ]};
     rooms := {[ "r1" := ex_room ]};
     designs := {[ "d0" := ex_design ]};
     uploads := {[ "up1" := ex_upload ]} |}.

Definition ex_world : World :=
  {| db := ex_db; ticks := 0; minted := 0; spawned := []; trace := [] |}.

Definition ex_result : AIGenerationResult :=
  {| ai_imageUrls := ["u1"; "u2"]; ai_prompt := "p";
     ai_metadata := [("m", JNum 1)] |}.

Definition ex_clock (n : nat) : Z := 5000 + 10 * Z.of_nat n.

Definition ex_cuid (n : nat) : string :=
  match n with
  | O => "d1"
  | 1%nat => "d2"
  | _ => "d3"
  end.

(** The provider resolves, rejects with [Error("boom")], or never settles. *)
Definition ex_env : Env :=
  {| clock := ex_clock; cuid := ex_cuid;
     provider := fun _ _ => Fulfilled ex_result;
     cloudinary_destroy := fun _ => Fulfilled tt |}.

Definition ex_env_boom : Env :=
  with_provider (fun _ _ => Rejected (JsError "boom")) ex_env.

Definition ex_env_hung : Env :=
  with_provider (fun _ _ => Unsettled) ex_env.

Definition ex_dto : GenerateDesignDto :=
  {| dto_roomId := "r1"; dto_customPrompt := None; dto_aiProvider := None |}.

Definition ex_dto_custom : GenerateDesignDto :=
  {| dto_roomId := "r1"; dto_customPrompt := Some "warm and cozy";
     dto_aiProvider := Some "openai" |}.

Definition ex_dto_missing : GenerateDesignDto :=
  {| dto_roomId := "r404"; dto_customPrompt := None; dto_aiProvider := None |}.

(** A clock whose readings are 3 000 000 000 ms apart: the elapsed time of
    a task does not fit the [processingTime] column. *)
Definition ex_clock_slow (n : nat) : Z := 5000 + 3000000000 * Z.of_nat n.

Definition ex_env_slow : Env :=
  {| clock := ex_clock_slow; cuid := ex_cuid;
     provider := fun _ _ => Fulfilled ex_result;
     cloudinary_destroy := fun _ => Fulfilled tt |}.

(** The provider rejects with the object [{ message: "boom" }], which is
    not an [Error]. *)
Definition ex_env_object : Env :=
  with_provider (fun _ _ => Rejected (NonError (Some "boom"))) ex_env.

(** A prompt that holds the character U+0000. *)
Definition ex_prompt_nul : string :=
  String.append "warm" (String Ascii.zero "cozy").

Definition ex_dto_nul : GenerateDesignDto :=
  {| dto_roomId := "r1"; dto_customPrompt := Some ex_prompt_nul;
     dto_aiProvider := None |}.

(** Regeneration options whose prompt override holds U+0000, and options
    whose prompt override is the empty string. *)
Definition ex_options_nul : RegenerateOptions :=
  {| opt_aiProvider := None; opt_customPrompt := Some ex_prompt_nul |}.

Definition ex_options_empty : RegenerateOptions :=
  {| opt_aiProvider := None; opt_customPrompt := Some "" |}.

(** A design of the room that has just been created. *)
Definition ex_design_pending : Design :=
  {| d_id := "dp"; d_roomId := "r1"; d_imageUrl := "";
     d_prompt := "draft"; d_aiProvider := "replicate"; d_status := PENDING;
     d_metadata := None; d_processingTime := None; d_error := None;
     d_createdAt := 4900; d_updatedAt := 4900 |}.

Definition ex_world_pending : World :=
  {| db := with_designs (insert "dp" ex_design_pending) ex_db;
     ticks := 0; minted := 0; spawned := []; trace := [] |}.

(** A job on the finished design of the scenario, and one whose row is not
    in the store. *)
Definition ex_job : Job :=
  {| j_designId := "d0";
     j_room := {| rp_room := ex_room; rp_project := ex_project |};
     j_customPrompt := None; j_aiProvider := "replicate";
     j_startTime := 4990 |}.

(** The task of the design just created, called at 5000. *)
Definition ex_job_pending : Job :=
  {| j_designId := "dp";
     j_room := {| rp_room := ex_room; rp_project := ex_project |};
     j_customPrompt := Some "draft"; j_aiProvider := "replicate";
     j_startTime := 5000 |}.

Definition ex_job_gone : Job :=
  {| j_designId := "d9";
     j_room := {| rp_room := ex_room; rp_project := ex_project |};
     j_customPrompt := None; j_aiProvider := "replicate";
     j_startTime := 4990 |}.

(* ===================================================================== *)
(** ** DesignService: listings                                            *)
(* ===================================================================== *)

From Stdlib Require Import Sorted.

(** The rows of a table, in the order the store keeps them. *)
Definition rows {A} (t : gmap string A) : list A := (map_to_list t).*2.

(** [orderBy: { <key>: "desc" }]: rows with the larger key first; rows with
    the same key stay in the order the store gives them. *)
Fixpoint insert_desc {A} (key : A -> Z) (x : A) (l : list A) : list A :=
  match l with
  | [] => [x]
  | y :: l' =>
      if key y <? key x then x :: y :: l' else y :: insert_desc key x l'
  end.

Definition orderBy_desc {A} (key : A -> Z) (l : list A) : list A :=
  foldr (insert_desc key) [] l.

(** [prisma.design.findMany({ where: { roomId }, orderBy: { createdAt: "desc" } })] *)
Definition prisma_design_findMany_of_room (roomId : string) : M (list Design) :=
  fun _ w =>
    (Fulfilled
       (orderBy_desc d_createdAt
          (List.filter (fun d => String.eqb (d_roomId d) roomId)
             (rows (designs (db w))))), w).

(** [getRoomDesigns(roomId, userId)] *)
Definition getRoomDesigns (roomId userId : string) : M (list DesignResponse) :=
  try_catch
    (let* room := prisma_room_findUnique roomId in
     match room with
     | None => throw ROOM_NOT_FOUND
     | Some room =>
         if negb (String.eqb (p_userId (rp_project room)) userId)
         then throw (ACCESS_DENIED
           "Access denied. You can only view designs from your own rooms.")
         else
           let* designs := prisma_design_findMany_of_room roomId in
           ret (List.map (fun design => formatDesignResponse design None false)
                  designs)
     end)
    (rethrow "Get room designs failed:" "Failed to get room designs"
       "GET_ROOM_DESIGNS_ERROR").

(** The query of [getDesigns]; [page] and [limit] are integers. *)
Record DesignQuery : Type := {
  q_page : option Z;
  q_limit : option Z;
  q_roomId : option string;
  q_status : option DesignStatus;
  q_aiProvider : option string
}.

Definition DesignStatus_eqb (a b : DesignStatus) : bool :=
  match a, b with
  | PENDING, PENDING | PROCESSING, PROCESSING
  | COMPLETED, COMPLETED | FAILED, FAILED => true
  | _, _ => false
  end.

(** The relation filter [room: { project: { userId } }]. *)
Definition owned_by (b : Db) (userId : string) (d : Design) : bool :=
  match rooms b !! d_roomId d with
  | Some r =>
      match projects b !! r_projectId r with
      | Some p => String.eqb (p_userId p) userId
      | None => false
      end
  | None => false
  end.

(** The [whereClause] of [getDesigns]: the owner, and each filter that is
    given and truthy. *)
Definition design_where (b : Db) (userId : string) (query : DesignQuery)
  (d : Design) : bool :=
  owned_by b userId d
  && match q_roomId query with
     | Some roomId =>
         if String.eqb roomId "" then true else String.eqb (d_roomId d) roomId
     | None => true
     end
  && match q_status query with
     | Some status => DesignStatus_eqb (d_status d) status
     | None => true
     end
  && match q_aiProvider query with
     | Some aiProvider =>
         if String.eqb aiProvider "" then true
         else String.eqb (d_aiProvider d) aiProvider
     | None => true
     end.

(** An integer argument of a query is a 64-bit signed integer. *)
Definition int64_ok (n : Z) : bool :=
  (-9223372036854775808 <=? n) && (n <=? 9223372036854775807).

(** [skip] and [take] of [findMany]: an argument that is not a 64-bit
    integer is refused, and so is a negative [skip]; a negative [take]
    counts from the end of the list. *)
Definition skip_take {A} (skip take : Z) (l : list A) : Outcome (list A) :=
  if negb (int64_ok skip && int64_ok take) then
    Rejected (JsError "Unable to fit integer value into a 64-bit signed integer")
  else if skip <? 0 then
    Rejected (JsError "Invalid value for skip argument: Value can only be positive")
  else if 0 <=? take then
    Fulfilled (firstn (Z.to_nat take) (skipn (Z.to_nat skip) l))
  else
    Fulfilled (rev (firstn (Z.to_nat (- take)) (skipn (Z.to_nat skip) (rev l)))).

(** [prisma.design.count({ where })] *)
Definition prisma_design_count (matches : Db -> Design -> bool) : M Z :=
  fun _ w =>
    (Fulfilled
       (Z.of_nat (length (List.filter (matches (db w)) (rows (designs (db w)))))),
     w).

(** [prisma.design.findMany({ where, orderBy: { createdAt: "desc" }, skip, take })] *)
Definition prisma_design_findMany (matches : Db -> Design -> bool)
  (skip take : Z) : M (list Design) :=
  fun _ w =>
    (skip_take skip take
       (orderBy_desc d_createdAt
          (List.filter (matches (db w)) (rows (designs (db w))))), w).

(** [Math.ceil(total / limit)] on integers; the quotient by zero is not a
    finite number. *)
Definition ceil_div (total limit : Z) : option Z :=
  if limit =? 0 then None else Some (- ((- total) / limit)).

Record Pagination : Type := {
  pg_page : Z;
  pg_limit : Z;
  pg_total : Z;
  pg_totalPages : option Z
}.

Record DesignPage : Type := {
  dp_designs : list DesignResponse;
  dp_pagination : Pagination
}.

(** [getDesigns(userId, query)]: whatever is thrown becomes a 500.  [page]
    and [limit] are numbers of the runtime: the product below is the
    product of integers as long as it stays below 2^53. *)
Definition getDesigns (userId : string) (query : DesignQuery) : M DesignPage :=
  try_catch
    (let page := default 1 (q_page query) in
     let limit := default 20 (q_limit query) in
     let skip := (page - 1) * limit in
     let whereClause := fun b => design_where b userId query in
     let* total := prisma_design_count whereClause in
     let* designs := prisma_design_findMany whereClause skip limit in
     let totalPages := ceil_div total limit in
     ret {| dp_designs :=
              List.map (fun design => formatDesignResponse design None false)
                designs;
            dp_pagination :=
              {| pg_page := page; pg_limit := limit; pg_total := total;
                 pg_totalPages := totalPages |} |})
    (fun error =>
       logger Error "Get designs failed:";;
       throw (AppError "Failed to get designs" 500 "GET_DESIGNS_ERROR")).

(** The instant an ISO string denotes. *)
Definition iso_ms (i : IsoString) : Z := match i with ISO t => t end.

(* ===================================================================== *)
(** ** UploadService: moving an upload to a room                          *)
(* ===================================================================== *)

(** The writes below change the store only; the trace keeps the writes of
    design rows and the deletions of uploads. *)

Definition move_upload (roomId : string) (u : Upload) : Upload :=
  {| u_id := u_id u; u_roomId := Some roomId; u_filename := u_filename u;
     u_originalName := u_originalName u; u_mimeType := u_mimeType u;
     u_size := u_size u; u_url := u_url u;
     u_cloudinaryId := u_cloudinaryId u; u_metadata := u_metadata u;
     u_createdAt := u_createdAt u |}.

(** [prisma.upload.update({ where: { id }, data: { roomId } })] *)
Definition prisma_upload_update_roomId (id roomId : string) : M Upload :=
  let* b := get_db in
  match uploads b !! id with
  | None => throw (JsError "Record to update not found.")
  | Some u =>
      match rooms b !! roomId with
      | None => throw (JsError "Foreign key constraint failed on the field: roomId")
      | Some _ =>
          modify_db (with_uploads (insert id (move_upload roomId u)));;
          ret (move_upload roomId u)
      end
  end.

Record UploadUpdated : Type := {
  uu_id : string;
  uu_filename : string;
  uu_originalName : string;
  uu_mimeType : string;
  uu_size : Z;
  uu_url : string;
  uu_cloudinaryId : option string;
  uu_roomId : option string;
  uu_metadata : option Json;
  uu_createdAt : IsoString;
  uu_updatedAt : IsoString
}.

(** [upload.room && upload.room.project.userId !== userId] *)
Definition upload_in_foreign_room (room : option RoomWithProject)
  (userId : string) : bool :=
  match room with
  | Some rp => negb (String.eqb (p_userId (rp_project rp)) userId)
  | None => false
  end.

(** [updateUploadRoom(uploadId, roomId, userId)]; the response gives the
    creation time as [updatedAt] too. *)
Definition updateUploadRoom (uploadId roomId userId : string)
  : M UploadUpdated :=
  try_catch
    (let* upload := prisma_upload_findUnique uploadId in
     match upload with
     | None => throw UPLOAD_NOT_FOUND
     | Some upload =>
         if upload_in_foreign_room (ur_room upload) userId
         then throw (ACCESS_DENIED
           "Access denied. You can only modify your own uploads.")
         else
           let* newRoom := prisma_room_findUnique roomId in
           match newRoom with
           | None => throw ROOM_NOT_FOUND
           | Some newRoom =>
               if negb (String.eqb (p_userId (rp_project newRoom)) userId)
               then throw (ACCESS_DENIED
                 "Access denied. You can only associate uploads with your own rooms.")
               else
                 let* updatedUpload :=
                   prisma_upload_update_roomId uploadId roomId in
                 logger Info "Upload room association updated";;
                 ret {| uu_id := u_id updatedUpload;
                        uu_filename := u_filename updatedUpload;
                        uu_originalName := u_originalName updatedUpload;
                        uu_mimeType := u_mimeType updatedUpload;
                        uu_size := u_size updatedUpload;
                        uu_url := u_url updatedUpload;
                        uu_cloudinaryId := u_cloudinaryId updatedUpload;
                        uu_roomId := u_roomId updatedUpload;
                        uu_metadata := u_metadata updatedUpload;
                        uu_createdAt :=
                          toISOString (u_createdAt updatedUpload);
                        uu_updatedAt :=
                          toISOString (u_createdAt updatedUpload) |}
           end
     end)
    (rethrow "Update upload room failed:"
       "Failed to update upload room association" "UPDATE_UPLOAD_ROOM_ERROR").

(* ===================================================================== *)
(** ** RoomService: deleting a room                                       *)
(* ===================================================================== *)

(** What the foreign keys of the schema do when a room goes: its designs
    are deleted with it ([ON DELETE CASCADE]), its uploads stay and lose
    their room ([ON DELETE SET NULL]). *)
Definition detach_upload (roomId : string) (u : Upload) : Upload :=
  match u_roomId u with
  | Some rid =>
      if String.eqb rid roomId then
        {| u_id := u_id u; u_roomId := None; u_filename := u_filename u;
           u_originalName := u_originalName u; u_mimeType := u_mimeType u;
           u_size := u_size u; u_url := u_url u;
           u_cloudinaryId := u_cloudinaryId u; u_metadata := u_metadata u;
           u_createdAt := u_createdAt u |}
      else u
  | None => u
  end.

Definition without_room (roomId : string) (b : Db) : Db :=
  {| projects := projects b;
     rooms := delete roomId (rooms b);
     designs := filter (fun kd => d_roomId kd.2 <> roomId) (designs b);
     uploads := detach_upload roomId <$> uploads b |}.

(** [prisma.room.delete({ where: { id } })] *)
Definition prisma_room_delete (id : string) : M unit :=
  let* b := get_db in
  match rooms b !! id with
  | None => throw (JsError "Record to delete does not exist.")
  | Some _ => modify_db (without_room id)
  end.

(** [deleteRoom(roomId, userId)] *)
Definition deleteRoom (roomId userId : string) : M unit :=
  try_catch
    (let* existingRoom := prisma_room_findUnique roomId in
     match existingRoom with
     | None => throw ROOM_NOT_FOUND
     | Some existingRoom =>
         if negb (String.eqb (p_userId (rp_project existingRoom)) userId)
         then throw (ACCESS_DENIED
           "Access denied. You can only delete your own rooms.")
         else
           prisma_room_delete roomId;;
           logger Info "Room deleted successfully"
     end)
    (rethrow "Room deletion failed:" "Failed to delete room"
       "ROOM_DELETE_ERROR").

(* ===================================================================== *)
(** ** The HTTP edge: error middleware and controllers                    *)
(* ===================================================================== *)

(** What [res.status(..).json(..)] sends.  [api_details] is the pair
    [name], [isOperational] and [api_stack] tells whether the stack string
    is attached; both appear in development only. *)
Record ApiResponse (A : Type) : Type := {
  api_status : Z;
  api_success : bool;
  api_message : string;
  api_error : option string;
  api_data : option A;
  api_pagination : option Pagination;
  api_details : option (string * bool);
  api_stack : bool
}.
Arguments api_status {A} _.
Arguments api_success {A} _.
Arguments api_message {A} _.
Arguments api_error {A} _.
Arguments api_data {A} _.
Arguments api_pagination {A} _.
Arguments api_details {A} _.
Arguments api_stack {A} _.

(** [sendErrorDev(err, res)] for an [AppError] built by its constructor
    (so [isOperational] is true and [name] is "Error"). *)
Definition sendErrorDev {A} (isDevelopment : bool)
  (message : string) (statusCode : Z) (code : string) : ApiResponse A :=
  {| api_status := statusCode;
     api_success := false;
     api_message := message;
     api_error := Some (js_or (Some code) "INTERNAL_ERROR");
     api_data := None;
     api_pagination := None;
     api_details := if isDevelopment then Some ("Error", true) else None;
     api_stack := isDevelopment |}.

(** [sendErrorProd(err, res)] for an [AppError] built by its constructor:
    the error is operational. *)
Definition sendErrorProd {A} (message : string) (statusCode : Z)
  (code : string) : ApiResponse A :=
  {| api_status := statusCode;
     api_success := false;
     api_message := message;
     api_error := Some (js_or (Some code) "OPERATIONAL_ERROR");
     api_data := None;
     api_pagination := None;
     api_details := None;
     api_stack := false |}.

(** [errorHandler(error, req, res, next)] on an [AppError] with fields
    [message], [statusCode], [code].  The handler works on the copy
    [err = { ...error }], which is a plain object: an [AppError] is none of
    the client-library, validation, token, cast or syntax errors, so it
    reaches the test [error.statusCode === 404] and then
    [!(err instanceof AppError)], which holds of the copy. *)
Definition errorHandler {A} (isDevelopment : bool)
  (message : string) (statusCode : Z) (code : string) : M (ApiResponse A) :=
  logger Error "Error caught by global handler:";;
  let '(errMessage, errStatus, errCode) :=
    if statusCode =? 404 then ("Route not found", 404, "NOT_FOUND")
    else
      ((if isDevelopment then message else "Something went wrong"),
       (if statusCode =? 0 then 500 else statusCode),
       "INTERNAL_ERROR") in
  if isDevelopment
  then ret (sendErrorDev isDevelopment errMessage errStatus errCode)
  else ret (sendErrorProd errMessage errStatus errCode).

(** [asyncHandler(fn)]: a rejection of the handler goes to [next], that is
    to [errorHandler].  How the handler treats a thrown value that is not
    an [AppError] depends on its class and name, which [Thrown] does not
    record; such a value is passed on. *)
Definition asyncHandler {A} (isDevelopment : bool) (fn : M (ApiResponse A))
  : M (ApiResponse A) :=
  try_catch fn
    (fun error =>
       match error with
       | AppError message statusCode code =>
           errorHandler isDevelopment message statusCode code
       | _ => throw error
       end).

Definition json_ok {A} (status : Z) (message : string) (data : option A)
  (pagination : option Pagination) : ApiResponse A :=
  {| api_status := status; api_success := true; api_message := message;
     api_error := None; api_data := data; api_pagination := pagination;
     api_details := None; api_stack := false |}.

(** [DesignController.generateDesign]; [userId] is [req.user.id]. *)
Definition DesignController_generateDesign (isDevelopment : bool)
  (userId : string) (designData : GenerateDesignDto)
  : M (ApiResponse DesignResponse) :=
  asyncHandler isDevelopment
    (let* design := generateDesign userId designData in
     logger Info "Design generation initiated";;
     ret (json_ok 201 "Design generation initiated successfully"
            (Some design) None)).

(** [DesignController.getDesigns] *)
Definition DesignController_getDesigns (isDevelopment : bool)
  (userId : string) (query : DesignQuery)
  : M (ApiResponse (list DesignResponse)) :=
  asyncHandler isDevelopment
    (let* result := getDesigns userId query in
     ret (json_ok 200 "Designs retrieved successfully"
            (Some (dp_designs result)) (Some (dp_pagination result)))).

(** [DesignController.getDesign] *)
Definition DesignController_getDesign (isDevelopment : bool)
  (userId id : string) : M (ApiResponse DesignResponse) :=
  asyncHandler isDevelopment
    (let* design := getDesignById id userId in
     ret (json_ok 200 "Design retrieved successfully" (Some design) None)).

(** [DesignController.deleteDesign] *)
Definition DesignController_deleteDesign (isDevelopment : bool)
  (userId id : string) : M (ApiResponse unit) :=
  asyncHandler isDevelopment
    (deleteDesign id userId;;
     logger Info "Design deleted successfully";;
     ret (json_ok 200 "Design deleted successfully" None None)).

(** [DesignController.getRoomDesigns] *)
Definition DesignController_getRoomDesigns (isDevelopment : bool)
  (userId roomId : string) : M (ApiResponse (list DesignResponse)) :=
  asyncHandler isDevelopment
    (let* designs := getRoomDesigns roomId userId in
     ret (json_ok 200 "Room designs retrieved successfully"
            (Some designs) None)).

(** [DesignController.regenerateDesign]: the options object is always
    passed, with the two fields of the body. *)
Definition DesignController_regenerateDesign (isDevelopment : bool)
  (userId id : string) (aiProvider customPrompt : option string)
  : M (ApiResponse DesignResponse) :=
  asyncHandler isDevelopment
    (let* newDesign :=
       regenerateDesign id userId
         (Some {| opt_aiProvider := aiProvider;
                  opt_customPrompt := customPrompt |}) in
     logger Info "Design regenerated successfully";;
     ret (json_ok 201 "Design regenerated successfully" (Some newDesign) None)).

(** [UploadController.getUpload]: the user of the request is not read. *)
Definition UploadController_getUpload (isDevelopment : bool) (id : string)
  : M (ApiResponse UploadResponse) :=
  asyncHandler isDevelopment
    (let* upload := getUploadById id in
     ret (json_ok 200 "Upload retrieved successfully" (Some upload) None)).

(** [UploadController.deleteUpload] *)
Definition UploadController_deleteUpload (isDevelopment : bool)
  (userId id : string) : M (ApiResponse unit) :=
  asyncHandler isDevelopment
    (deleteUpload id userId;;
     logger Info "Upload deleted successfully";;
     ret (json_ok 200 "Upload deleted successfully" None None)).

(** A promise that settles, and rejects only with an [AppError]. *)
Definition answers {A} (o : Outcome A) : Prop :=
  match o with
  | Fulfilled _ => True
  | Rejected e => instanceof_AppError e = true
  | Unsettled => False
  end.

(** A computation that never stays pending, whatever the world. *)
Definition settled {A} (m : M A) : Prop :=
  forall env w, fst (m env w) <> Unsettled.

(* ===================================================================== *)
(** ** Safe file names ([src/middleware/upload.middleware.ts])            *)
(* ===================================================================== *)

From Stdlib Require Import Ascii.

(** A name is given by its bytes.  A character outside ASCII is one or more
    bytes, none of them safe; the first two replacements below turn any run
    of unsafe units into one underscore, so the result does not depend on
    how such a character is cut into units. *)

(** The class [[a-zA-Z0-9\-_]]. *)
Definition is_safe_char (c : ascii) : bool :=
  let n := nat_of_ascii c in
  ((97 <=? n) && (n <=? 122) || (65 <=? n) && (n <=? 90)
   || (48 <=? n) && (n <=? 57) || (n =? 45) || (n =? 95))%nat.

Definition underscore : ascii := "_"%char.

Definition is_underscore (c : ascii) : bool := Ascii.eqb c underscore.

(** [.replace(/[^a-zA-Z0-9\-_]/g, "_")] *)
Definition replace_unsafe (s : list ascii) : list ascii :=
  List.map (fun c => if is_safe_char c then c else underscore) s.

(** [.replace(/_{2,}/g, "_")] *)
Fixpoint collapse_underscores (s : list ascii) : list ascii :=
  match s with
  | [] => []
  | c :: rest =>
      if is_underscore c then
        match rest with
        | c' :: _ =>
            if is_underscore c' then collapse_underscores rest
            else c :: collapse_underscores rest
        | [] => [c]
        end
      else c :: collapse_underscores rest
  end.

Fixpoint strip_leading_underscores (s : list ascii) : list ascii :=
  match s with
  | c :: rest => if is_underscore c then strip_leading_underscores rest else s
  | [] => []
  end.

(** [.replace(/^_+|_+$/g, "")] *)
Definition strip_underscores (s : list ascii) : list ascii :=
  rev (strip_leading_underscores (rev (strip_leading_underscores s))).

(** No two underscores side by side. *)
Fixpoint no_double_underscore (s : list ascii) : bool :=
  match s with
  | c :: rest =>
      match rest with
      | c' :: _ => negb (is_underscore c && is_underscore c')
      | [] => true
      end
      && no_double_underscore rest
  | [] => true
  end.

(** The [safeName] of [createSafeFilename], from the base name. *)
Definition safeName_of (name : string) : string :=
  string_of_list_ascii
    (firstn 50
       (strip_underscores
          (collapse_underscores
             (replace_unsafe (list_ascii_of_string name))))).

(** [createSafeFilename(originalname)].  [extname] and [basename] are the
    functions of the runtime's [path] module, [randomString] is
    [Math.random().toString(36).substring(2, 8)], and [render] writes the
    timestamp in decimal. *)
Definition createSafeFilename (extname : string -> string)
  (basename : string -> string -> string) (render : Z -> string)
  (randomString : string) (originalname : string) : M string :=
  let ext := extname originalname in
  let name := basename originalname ext in
  let safeName := safeName_of name in
  let* timestamp := Date_now in
  ret (String.append safeName
         (String.append "_"
            (String.append (render timestamp)
               (String.append "_" (String.append randomString ext))))).

(* ===================================================================== *)
(** ** UploadService: cleaning up orphaned uploads                        *)
(* ===================================================================== *)

(** [where: { roomId: null, createdAt: { lt: cutoffDate } }] *)
Definition is_orphaned_before (cutoffDate : Z) (u : Upload) : bool :=
  match u_roomId u with
  | None => u_createdAt u <? cutoffDate
  | Some _ => false
  end.

(** The query has no [orderBy]: the rows come in the order of the store. *)
Definition prisma_upload_findMany_orphaned (cutoffDate : Z) : M (list Upload) :=
  fun _ w =>
    (Fulfilled
       (List.filter (is_orphaned_before cutoffDate) (rows (uploads (db w)))),
     w).

(** One turn of the loop, from the count so far to the count after it. *)
Definition cleanup_one (upload : Upload) (deletedCount : Z) : M Z :=
  try_catch
    (match u_cloudinaryId upload with
     | Some cid =>
         if String.eqb cid "" then ret tt
         else CloudinaryUtil_deleteImage cid
     | None => ret tt
     end;;
     prisma_upload_delete (u_id upload);;
     ret (deletedCount + 1))
    (fun error =>
       logger Warn "Failed to delete orphaned upload:";;
       ret deletedCount).

Fixpoint cleanup_loop (orphanedUploads : list Upload) (deletedCount : Z)
  : M Z :=
  match orphanedUploads with
  | [] => ret deletedCount
  | upload :: rest =>
      let* deletedCount := cleanup_one upload deletedCount in
      cleanup_loop rest deletedCount
  end.

(** [cleanupOrphanedUploads(olderThanDays)], returning [deletedCount].
    [daysBefore now n] is the instant the runtime's calendar gives for
    [setDate(getDate() - n)] on the date [now]. *)
Definition cleanupOrphanedUploads (daysBefore : Z -> Z -> Z)
  (olderThanDays : Z) : M Z :=
  try_catch
    (let* now := Date_now in
     let cutoffDate := daysBefore now olderThanDays in
     let* orphanedUploads := prisma_upload_findMany_orphaned cutoffDate in
     let* deletedCount := cleanup_loop orphanedUploads 0 in
     logger Info "Orphaned uploads cleanup completed";;
     ret deletedCount)
    (fun error =>
       logger Error "Cleanup orphaned uploads failed:";;
       throw (AppError "Failed to cleanup orphaned uploads" 500
                "CLEANUP_UPLOADS_ERROR")).

(** Every row of the table is stored under its own id. *)
Definition keyed_by_id (t : gmap string Upload) : Prop :=
  forall k u, t !! k = Some u -> u_id u = k.

(** [CloudinaryUtil.deleteImage] resolves for the image of the upload, or
    the upload has none. *)
Definition image_goes (env : Env) (u : Upload) : Prop :=
  match u_cloudinaryId u with
  | Some cid =>
      if String.eqb cid "" then True
      else cloudinary_destroy env cid = Fulfilled tt
  | None => True
  end.

(** A calendar without daylight saving. *)
Definition ex_daysBefore (now n : Z) : Z := now - n * 86400000.

(* ===================================================================== *)
(** ** A second scenario: two users                                       *)
(* ===================================================================== *)

(** alice owns project p1 with rooms r1 and r2; bob owns project p2 with
    room r3.  Designs: d0 and da in r1, db in r2, dc in bob's r3. *)
Definition ex2_project_bob : Project :=
  {| p_id := "p2"; p_name := "Office"; p_type := PT_OFFICE;
     p_style := INDUSTRIAL; p_userId := "bob" |}.

Definition ex2_room2 : Room :=
  {| r_id := "r2"; r_projectId := "p1"; r_name := Some "Kitchen";
     r_type := KITCHEN; r_length := 3 # 1; r_width := 2 # 1;
     r_height := 27 # 10; r_materials := ["tile"];
     r_ambientColor := Some "white"; r_freePrompt := None;
     r_originalImageUrl := None |}.

Definition ex2_room3 : Room :=
  {| r_id := "r3"; r_projectId := "p2"; r_name := None;
     r_type := OFFICE; r_length := 5 # 1; r_width := 4 # 1;
     r_height := 3 # 1; r_materials := ["steel"; "glass"];
     r_ambientColor := None; r_freePrompt := None;
     r_originalImageUrl := None |}.

Definition ex2_design_a : Design :=
  {| d_id := "da"; d_roomId := "r1"; d_imageUrl := "";
     d_prompt := ""; d_aiProvider := "replicate"; d_status := FAILED;
     d_metadata := None; d_processingTime := Some 900;
     d_error := Some "boom"; d_createdAt := 300; d_updatedAt := 1200 |}.

Definition ex2_design_b : Design :=
  {| d_id := "db"; d_roomId := "r2"; d_imageUrl := "";
     d_prompt := "bright"; d_aiProvider := "replicate"; d_status := PENDING;
     d_metadata := None; d_processingTime := None; d_error := None;
     d_createdAt := 200; d_updatedAt := 200 |}.

Definition ex2_design_c : Design :=
  {| d_id := "dc"; d_roomId := "r3";
     d_imageUrl := "https://img.example/dc.png";
     d_prompt := "An industrial office"; d_aiProvider := "openai";
     d_status := COMPLETED; d_metadata := None;
     d_processingTime := Some 3000; d_error := None;
     d_createdAt := 250; d_updatedAt := 3250 |}.

Definition ex2_upload_bob : Upload :=
  {| u_id := "up2"; u_roomId := Some "r3"; u_filename := "office_1.png";
     u_originalName := "office.png"; u_mimeType := "image/png";
     u_size := 409600; u_url := "https://img.example/office.png";
     u_cloudinaryId := Some "interior-design/room-images/office_1";
     u_metadata := None; u_createdAt := 60 |}.

Definition ex2_upload_orphan : Upload :=
  {| u_id := "up3"; u_roomId := None; u_filename := "loose_1.png";
     u_originalName := "loose.png"; u_mimeType := "image/png";
     u_size := 2048; u_url := "https://img.example/loose.png";
     u_cloudinaryId := Some "interior-design/room-images/loose_1";
     u_metadata := None; u_createdAt := 10 |}.

Definition ex2_db : Db :=
  {| projects := <[ "p2" := ex2_project_bob ]> {[ "p1" := ex_project ]};
     rooms := <[ "r3" := ex2_room3 ]> (<[ "r2" := ex2_room2 ]>
                {[ "r1" := ex_room ]});
     designs := <[ "dc" := ex2_design_c ]> (<[ "db" := ex2_design_b ]>
                  (<[ "da" := ex2_design_a ]> {[ "d0" := ex_design ]}));
     uploads := <[ "up3" := ex2_upload_orphan ]>
                  (<[ "up2" := ex2_upload_bob ]> {[ "up1" := ex_upload ]}) |}.

Definition ex2_world : World :=
  {| db := ex2_db; ticks := 0; minted := 0; spawned := []; trace := [] |}.

Definition ex2_query : DesignQuery :=
  {| q_page := Some 1; q_limit := Some 2; q_roomId := None;
     q_status := None; q_aiProvider := None |}.

(** The image host refuses every deletion. *)
Definition ex_env_cloud_down : Env :=
  {| clock := ex_clock; cuid := ex_cuid;
     provider := fun _ _ => Fulfilled ex_result;
     cloudinary_destroy := fun _ => Rejected (JsError "Failed to delete image") |}.
(* ===================================================================== *)
(** ** Equations of the monad and of the store operations                *)
(* ===================================================================== *)

Section Equations.
Context {A B : Type}.

Lemma bind_fulfilled (m : M A) (k : A -> M B) env w a w' :
  m env w = (Fulfilled a, w') -> bind m k env w = k a env w'.
Proof. intros H. unfold bind. now rewrite H. Qed.

Lemma bind_rejected (m : M A) (k : A -> M B) env w e w' :
  m env w = (Rejected e, w') -> bind m k env w = (Rejected e, w').
Proof. intros H. unfold bind. now rewrite H. Qed.

Lemma bind_unsettled (m : M A) (k : A -> M B) env w w' :
  m env w = (Unsettled, w') -> bind m k env w = (Unsettled, w').
Proof. intros H. unfold bind. now rewrite H. Qed.

Lemma try_catch_fulfilled (m : M A) h env w a w' :
  m env w = (Fulfilled a, w') -> try_catch m h env w = (Fulfilled a, w').
Proof. intros H. unfold try_catch. now rewrite H. Qed.

Lemma try_catch_rejected (m : M A) h env w e w' :
  m env w = (Rejected e, w') -> try_catch m h env w = h e env w'.
Proof. intros H. unfold try_catch. now rewrite H. Qed.

Lemma try_catch_unsettled (m : M A) h env w w' :
  m env w = (Unsettled, w') -> try_catch m h env w = (Unsettled, w').
Proof. intros H. unfold try_catch. now rewrite H. Qed.
End Equations.

Lemma prisma_design_update_found id data env w d :
  designs (db w) !! id = Some d ->
  patch_ok data = true ->
  prisma_design_update id data env w =
    (Fulfilled (apply_patch data (clock env (ticks w)) d),
     wrote (insert id (apply_patch data (clock env (ticks w)) d))
           (EvUpdateDesign id data) w).
Proof.
  intros H Hok. unfold prisma_design_update, bind, get_db. rewrite H, Hok.
  reflexivity.
Qed.

Lemma prisma_design_update_refused id data env w d :
  designs (db w) !! id = Some d ->
  patch_ok data = false ->
  prisma_design_update id data env w = (Rejected value_refused, w).
Proof.
  intros H Hok. unfold prisma_design_update, bind, get_db. rewrite H, Hok.
  reflexivity.
Qed.

Lemma prisma_design_update_missing id data env w :
  designs (db w) !! id = None ->
  prisma_design_update id data env w =
    (Rejected (JsError "Record to update not found."), w).
Proof.
  intros H. unfold prisma_design_update, bind, get_db. rewrite H.
  reflexivity.
Qed.

Lemma prisma_room_findUnique_found id env w r p :
  rooms (db w) !! id = Some r ->
  projects (db w) !! r_projectId r = Some p ->
  prisma_room_findUnique id env w =
    (Fulfilled (Some {| rp_room := r; rp_project := p |}), w).
Proof.
  intros Hr Hp. unfold prisma_room_findUnique, join_project.
  now rewrite Hr, Hp.
Qed.

Lemma prisma_room_findUnique_missing id env w :
  rooms (db w) !! id = None ->
  prisma_room_findUnique id env w = (Fulfilled None, w).
Proof. intros Hr. unfold prisma_room_findUnique. now rewrite Hr. Qed.

Lemma prisma_design_findUnique_found id env w d r p :
  designs (db w) !! id = Some d ->
  rooms (db w) !! d_roomId d = Some r ->
  projects (db w) !! r_projectId r = Some p ->
  prisma_design_findUnique id env w =
    (Fulfilled (Some {| dr_design := d;
                        dr_room := {| rp_room := r; rp_project := p |} |}), w).
Proof.
  intros Hd Hr Hp. unfold prisma_design_findUnique, join_project.
  now rewrite Hd, Hr, Hp.
Qed.

Lemma prisma_design_create_fresh data env w r :
  designs (db w) !! cuid env (minted w) = None ->
  rooms (db w) !! new_roomId data = Some r ->
  create_ok data = true ->
  prisma_design_create data env w =
    (Fulfilled (created_row data (cuid env (minted w)) (clock env (ticks w))),
     world_created
       (created_row data (cuid env (minted w)) (clock env (ticks w))) w).
Proof.
  intros Hd Hr Hok. unfold prisma_design_create, bind, draw_cuid, get_db.
  cbn [db]. rewrite Hd, Hr, Hok. reflexivity.
Qed.

(** The world after an identifier has been drawn and nothing written. *)
Lemma prisma_design_create_refused data env w r :
  designs (db w) !! cuid env (minted w) = None ->
  rooms (db w) !! new_roomId data = Some r ->
  create_ok data = false ->
  prisma_design_create data env w =
    (Rejected value_refused,
     {| db := db w; ticks := ticks w; minted := S (minted w);
        spawned := spawned w; trace := trace w |}).
Proof.
  intros Hd Hr Hok. unfold prisma_design_create, bind, draw_cuid, get_db.
  cbn [db]. rewrite Hd, Hr, Hok. reflexivity.
Qed.

(** *** What the columns can hold *)

Lemma int4_ok_spec n :
  int4_ok n = true <-> -2147483648 <= n <= 2147483647.
Proof. unfold int4_ok. rewrite andb_true_iff, !Z.leb_le. reflexivity. Qed.

Lemma patch_PROCESSING_ok : patch_ok patch_PROCESSING = true.
Proof. reflexivity. Qed.

Lemma value_refused_ok : text_ok (default "" (message_of value_refused)) = true.
Proof. reflexivity. Qed.

Lemma jsonb_ok_urls urls :
  forallb text_ok urls = true -> jsonb_ok (JArr (JStr <$> urls)) = true.
Proof.
  intros H. cbn. induction urls as [| u urls IH]; [reflexivity |].
  cbn in *. apply andb_prop in H as [Hu H]. now rewrite Hu, IH.
Qed.

Lemma jsonb_ok_obj_set k v o :
  text_ok k = true -> jsonb_ok v = true -> jsonb_ok (JObj o) = true ->
  jsonb_ok (JObj (obj_set k v o)) = true.
Proof.
  intros Hk Hv. induction o as [| [k' v'] o IH]; cbn.
  - intros _. now rewrite Hk, Hv.
  - intros H. apply andb_prop in H as [H1 H2].
    destruct (String.eqb k' k); cbn.
    + now rewrite Hk, Hv, H2.
    + rewrite H1. exact (IH H2).
Qed.

Lemma forallb_head urls :
  forallb text_ok urls = true -> option_ok text_ok (head urls) = true.
Proof. destruct urls; cbn; [auto |]. intros H. now apply andb_prop in H. Qed.

(** The terminal write of the success path is accepted when the elapsed
    time fits the column and the provider's strings hold no U+0000. *)
Lemma patch_COMPLETED_ok result elapsed :
  int4_ok elapsed = true ->
  text_ok (ai_prompt result) = true ->
  forallb text_ok (ai_imageUrls result) = true ->
  jsonb_ok (JObj (ai_metadata result)) = true ->
  patch_ok (patch_COMPLETED result elapsed) = true.
Proof.
  intros Ht Hp Hu Hm. unfold patch_ok, patch_COMPLETED.
  cbn [set_imageUrl set_prompt set_processingTime set_metadata set_error
       option_ok].
  rewrite (forallb_head _ Hu), Hp, Ht.
  rewrite jsonb_ok_obj_set; [reflexivity | reflexivity | | exact Hm].
  now apply jsonb_ok_urls.
Qed.

(** The terminal write of the failure path is accepted when the elapsed
    time fits the column and the recorded message holds no U+0000. *)
Lemma patch_FAILED_ok error elapsed :
  int4_ok elapsed = true ->
  text_ok (recorded_message error) = true ->
  patch_ok (patch_FAILED error elapsed) = true.
Proof.
  intros Ht Hm. unfold patch_ok, patch_FAILED.
  cbn [set_imageUrl set_prompt set_processingTime set_metadata set_error
       option_ok].
  unfold recorded_message in Hm. now rewrite Ht, Hm.
Qed.

Lemma patch_FAILED_refused_ok elapsed :
  patch_ok (patch_FAILED value_refused elapsed) = int4_ok elapsed.
Proof.
  unfold patch_ok, patch_FAILED.
  cbn [set_imageUrl set_prompt set_processingTime set_metadata set_error
       option_ok andb].
  change (text_ok _) with true. now rewrite !andb_true_r.
Qed.

Lemma patch_FAILED_secondary_refused_ok :
  patch_ok (patch_FAILED_secondary value_refused) = true.
Proof. reflexivity. Qed.

Lemma patch_FAILED_secondary_missing_ok :
  patch_ok (patch_FAILED_secondary (JsError "Record to update not found."))
  = true.
Proof. reflexivity. Qed.

(** *** The detached task, step by step *)

Section DetachedRun.
Variables (env : Env) (j : Job) (w : World) (d0 : Design).
Hypothesis row : designs (db w) !! j_designId j = Some d0.

Let id := j_designId j.
Let pd := promptData_of (j_room j) (j_customPrompt j).
Let opts := options_of (j_room j) (j_aiProvider j).
Let d1 := apply_patch patch_PROCESSING (clock env (ticks w)) d0.
Let w1 := emit (EvGenerate pd opts)
            (wrote (insert id d1) (EvUpdateDesign id patch_PROCESSING) w).
Let t1 := clock env (S (ticks w)).
Let elapsed := t1 - j_startTime j.
Let t2 := clock env (S (S (ticks w))).
Let w2 := emit (EvNow t1) (tick w1).
Let failed := EvLog Error "Design generation processing failed:".
(* the second reading of the clock, when the success write is refused *)
Let elapsed' := t2 - j_startTime j.
Let w3 := emit failed (emit (EvNow t2) (tick w2)).
Let t3 := clock env (S (S (S (ticks w)))).

Lemma detached_row_after_PROCESSING :
  designs (db w2) !! id = Some d1.
Proof. cbn. apply lookup_insert_eq. Qed.

Lemma detached_row_after_refusal :
  designs (db w3) !! id = Some d1.
Proof. cbn. apply lookup_insert_eq. Qed.

Lemma resume_first_write :
  processing_write j env w =
    (Fulfilled d1, wrote (insert id d1) (EvUpdateDesign id patch_PROCESSING) w).
Proof.
  unfold processing_write. apply prisma_design_update_found;
    [exact row | reflexivity].
Qed.

Lemma detached_resolved r :
  provider env pd opts = Fulfilled r ->
  patch_ok (patch_COMPLETED r elapsed) = true ->
  detached j env w =
    (Fulfilled tt,
     emit (EvLog Info "Design generation completed successfully")
       (wrote (insert id (apply_patch (patch_COMPLETED r elapsed) t2 d1))
          (EvUpdateDesign id (patch_COMPLETED r elapsed)) w2)).
Proof.
  intros Hp Hok.
  unfold detached, processDesignGeneration_resume, processDesignGeneration_from.
  apply try_catch_fulfilled. apply try_catch_fulfilled.
  erewrite bind_fulfilled by exact resume_first_write.
  erewrite bind_fulfilled
    by (unfold aiService_generateDesign; fold pd opts; rewrite Hp;
        reflexivity).
  erewrite bind_fulfilled by reflexivity.
  erewrite bind_fulfilled
    by (apply prisma_design_update_found;
        [apply detached_row_after_PROCESSING | exact Hok]).
  reflexivity.
Qed.

(** The success write is refused: the failure path takes over, with a
    second reading of the clock. *)
Lemma resume_success_refused r :
  provider env pd opts = Fulfilled r ->
  patch_ok (patch_COMPLETED r elapsed) = false ->
  processDesignGeneration_resume j env w =
    (prisma_design_update id (patch_FAILED value_refused elapsed');; ret tt)
      env w3.
Proof.
  intros Hp Hok.
  unfold processDesignGeneration_resume, processDesignGeneration_from.
  etrans.
  { apply try_catch_rejected.
    erewrite bind_fulfilled by exact resume_first_write.
    erewrite bind_fulfilled
      by (unfold aiService_generateDesign; fold pd opts; rewrite Hp;
          reflexivity).
    erewrite bind_fulfilled by reflexivity.
    apply bind_rejected.
    apply (prisma_design_update_refused _ _ _ _ d1);
      [apply detached_row_after_PROCESSING | exact Hok]. }
  erewrite bind_fulfilled by reflexivity.
  erewrite bind_fulfilled by reflexivity.
  reflexivity.
Qed.

Lemma detached_success_refused r :
  provider env pd opts = Fulfilled r ->
  patch_ok (patch_COMPLETED r elapsed) = false ->
  int4_ok elapsed' = true ->
  detached j env w =
    (Fulfilled tt,
     wrote (insert id
              (apply_patch (patch_FAILED value_refused elapsed') t3 d1))
       (EvUpdateDesign id (patch_FAILED value_refused elapsed')) w3).
Proof.
  intros Hp Hok Ht. unfold detached.
  apply try_catch_fulfilled.
  rewrite (resume_success_refused r Hp Hok).
  erewrite bind_fulfilled
    by (apply prisma_design_update_found;
        [apply detached_row_after_refusal
        | rewrite patch_FAILED_refused_ok; exact Ht]).
  reflexivity.
Qed.

Lemma resume_success_refused_twice r :
  provider env pd opts = Fulfilled r ->
  patch_ok (patch_COMPLETED r elapsed) = false ->
  int4_ok elapsed' = false ->
  processDesignGeneration_resume j env w = (Rejected value_refused, w3).
Proof.
  intros Hp Hok Ht.
  rewrite (resume_success_refused r Hp Hok).
  apply bind_rejected.
  apply (prisma_design_update_refused _ _ _ _ d1);
    [apply detached_row_after_refusal
    | rewrite patch_FAILED_refused_ok; exact Ht].
Qed.

Lemma detached_success_refused_twice r :
  provider env pd opts = Fulfilled r ->
  patch_ok (patch_COMPLETED r elapsed) = false ->
  int4_ok elapsed' = false ->
  detached j env w =
    (Fulfilled tt,
     wrote (insert id
              (apply_patch (patch_FAILED_secondary value_refused) t3 d1))
       (EvUpdateDesign id (patch_FAILED_secondary value_refused))
       (emit failed w3)).
Proof.
  intros Hp Hok Ht. unfold detached.
  etrans.
  { apply try_catch_rejected.
    exact (resume_success_refused_twice r Hp Hok Ht). }
  unfold onGenerationRejected.
  erewrite bind_fulfilled by reflexivity.
  cbv iota beta. unfold value_refused at 1.
  apply try_catch_fulfilled.
  erewrite bind_fulfilled
    by (apply prisma_design_update_found;
        [apply detached_row_after_refusal | reflexivity]).
  reflexivity.
Qed.

Lemma detached_rejected e :
  provider env pd opts = Rejected e ->
  patch_ok (patch_FAILED e elapsed) = true ->
  detached j env w =
    (Fulfilled tt,
     wrote (insert id (apply_patch (patch_FAILED e elapsed) t2 d1))
       (EvUpdateDesign id (patch_FAILED e elapsed))
       (emit failed w2)).
Proof.
  intros Hp Hok.
  unfold detached, processDesignGeneration_resume, processDesignGeneration_from.
  apply try_catch_fulfilled.
  erewrite try_catch_rejected; cycle 1.
  { erewrite bind_fulfilled by exact resume_first_write.
    apply bind_rejected.
    unfold aiService_generateDesign; fold pd opts; rewrite Hp. reflexivity. }
  erewrite bind_fulfilled by reflexivity.
  erewrite bind_fulfilled by reflexivity.
  erewrite bind_fulfilled
    by (apply prisma_design_update_found;
        [apply detached_row_after_PROCESSING | exact Hok]).
  reflexivity.
Qed.

Lemma resume_failure_refused e :
  provider env pd opts = Rejected e ->
  patch_ok (patch_FAILED e elapsed) = false ->
  processDesignGeneration_resume j env w =
    (Rejected value_refused, emit failed w2).
Proof.
  intros Hp Hok.
  unfold processDesignGeneration_resume, processDesignGeneration_from.
  erewrite try_catch_rejected; cycle 1.
  { erewrite bind_fulfilled by exact resume_first_write.
    apply bind_rejected.
    unfold aiService_generateDesign; fold pd opts; rewrite Hp. reflexivity. }
  erewrite bind_fulfilled by reflexivity.
  erewrite bind_fulfilled by reflexivity.
  apply bind_rejected.
  apply (prisma_design_update_refused _ _ _ _ d1);
    [apply detached_row_after_PROCESSING | exact Hok].
Qed.

Lemma detached_failure_refused e :
  provider env pd opts = Rejected e ->
  patch_ok (patch_FAILED e elapsed) = false ->
  detached j env w =
    (Fulfilled tt,
     wrote (insert id
              (apply_patch (patch_FAILED_secondary value_refused) t2 d1))
       (EvUpdateDesign id (patch_FAILED_secondary value_refused))
       (emit failed (emit failed w2))).
Proof.
  intros Hp Hok. unfold detached.
  etrans.
  { apply try_catch_rejected. exact (resume_failure_refused e Hp Hok). }
  unfold onGenerationRejected.
  erewrite bind_fulfilled by reflexivity.
  cbv iota beta. unfold value_refused at 1.
  apply try_catch_fulfilled.
  erewrite bind_fulfilled
    by (apply prisma_design_update_found;
        [apply detached_row_after_PROCESSING | reflexivity]).
  reflexivity.
Qed.

Lemma detached_pending :
  provider env pd opts = Unsettled ->
  detached j env w = (Unsettled, w1).
Proof.
  intros Hp.
  unfold detached, processDesignGeneration_resume, processDesignGeneration_from.
  apply try_catch_unsettled. apply try_catch_unsettled.
  erewrite bind_fulfilled by exact resume_first_write.
  apply bind_unsettled.
  unfold aiService_generateDesign; fold pd opts; rewrite Hp. reflexivity.
Qed.
End DetachedRun.

(** *** Initiation *)

Lemma world_eq (w1 w2 : World) :
  db w1 = db w2 -> ticks w1 = ticks w2 -> minted w1 = minted w2 ->
  spawned w1 = spawned w2 -> trace w1 = trace w2 -> w1 = w2.
Proof. destruct w1, w2; cbn; intros; subst; reflexivity. Qed.

Lemma create_ok_initial designData :
  create_ok
    {| new_roomId := dto_roomId designData;
       new_imageUrl := "";
       new_prompt := js_or (dto_customPrompt designData) "";
       new_aiProvider := default "replicate" (dto_aiProvider designData);
       new_status := PENDING |}
  = text_ok (js_or (dto_customPrompt designData) "")
    && text_ok (default "replicate" (dto_aiProvider designData)).
Proof. reflexivity. Qed.

Section Initiation.
Variables (env : Env) (w : World) (userId : string).
Variables (designData : GenerateDesignDto) (r : Room) (p : Project).
Hypothesis room_found : rooms (db w) !! dto_roomId designData = Some r.
Hypothesis project_found : projects (db w) !! r_projectId r = Some p.

Lemma generateDesign_authorized :
  p_userId p = userId ->
  designs (db w) !! cuid env (minted w) = None ->
  text_ok (js_or (dto_customPrompt designData) "") = true ->
  text_ok (default "replicate" (dto_aiProvider designData)) = true ->
  generateDesign userId designData env w =
    (Fulfilled (formatDesignResponse (initial_row env w designData) None false),
     world_initiated env w designData {| rp_room := r; rp_project := p |}).
Proof.
  intros Hown Hfresh Hprompt Hprov. unfold generateDesign.
  apply try_catch_fulfilled.
  erewrite bind_fulfilled
    by (eapply prisma_room_findUnique_found; eassumption).
  cbn [rp_project]. rewrite Hown, String.eqb_refl. cbn [negb].
  erewrite bind_fulfilled
    by (eapply prisma_design_create_fresh;
        [exact Hfresh | exact room_found
        | rewrite create_ok_initial, Hprompt, Hprov; reflexivity]).
  unfold processDesignGeneration.
  erewrite bind_fulfilled by (erewrite bind_fulfilled by reflexivity; reflexivity).
  erewrite bind_fulfilled by reflexivity.
  erewrite bind_fulfilled by reflexivity.
  unfold ret. f_equal.
  apply world_eq; cbn; try reflexivity.
  now rewrite <- !app_assoc.
Qed.

(** The store refuses the row: the call fails with the method's own 500,
    nothing is written and no task is left running. *)
Lemma generateDesign_value_refused :
  p_userId p = userId ->
  designs (db w) !! cuid env (minted w) = None ->
  text_ok (js_or (dto_customPrompt designData) "")
  && text_ok (default "replicate" (dto_aiProvider designData)) = false ->
  generateDesign userId designData env w =
    (Rejected (AppError "Failed to initiate design generation" 500
                 "DESIGN_GENERATION_ERROR"),
     {| db := db w; ticks := ticks w; minted := S (minted w);
        spawned := spawned w;
        trace := trace w ++
                 [EvLog Error "Design generation initiation failed:"] |}).
Proof.
  intros Hown Hfresh Hbad. unfold generateDesign.
  etrans.
  { apply try_catch_rejected.
    erewrite bind_fulfilled
      by (eapply prisma_room_findUnique_found; eassumption).
    cbn [rp_project]. rewrite Hown, String.eqb_refl. cbn [negb].
    apply bind_rejected.
    eapply prisma_design_create_refused;
      [exact Hfresh | exact room_found
      | rewrite create_ok_initial; exact Hbad]. }
  reflexivity.
Qed.

Lemma generateDesign_not_owner :
  p_userId p <> userId ->
  generateDesign userId designData env w =
    (Rejected (ACCESS_DENIED
       "Access denied. You can only generate designs for your own rooms."),
     emit (EvLog Error "Design generation initiation failed:") w).
Proof.
  intros Hown. unfold generateDesign.
  etrans.
  { apply try_catch_rejected.
    erewrite bind_fulfilled
      by (eapply prisma_room_findUnique_found; eassumption).
    cbn [rp_project].
    destruct (String.eqb_spec (p_userId p) userId) as [E | _];
      [contradiction |].
    reflexivity. }
  reflexivity.
Qed.
End Initiation.

Lemma generateDesign_room_missing env w userId designData :
  rooms (db w) !! dto_roomId designData = None ->
  generateDesign userId designData env w =
    (Rejected ROOM_NOT_FOUND,
     emit (EvLog Error "Design generation initiation failed:") w).
Proof.
  intros Hr. unfold generateDesign.
  etrans.
  { apply try_catch_rejected.
    erewrite bind_fulfilled
      by (eapply prisma_room_findUnique_missing; exact Hr).
    reflexivity. }
  reflexivity.
Qed.

Lemma generateDesign_fulfilled_inv env w userId designData resp w' :
  generateDesign userId designData env w = (Fulfilled resp, w') ->
  exists r p,
    rooms (db w) !! dto_roomId designData = Some r
    /\ projects (db w) !! r_projectId r = Some p
    /\ p_userId p = userId
    /\ designs (db w) !! cuid env (minted w) = None
    /\ text_ok (js_or (dto_customPrompt designData) "") = true
    /\ text_ok (default "replicate" (dto_aiProvider designData)) = true.
Proof.
  intros H.
  unfold generateDesign, try_catch, bind, prisma_room_findUnique,
    join_project in H.
  destruct (rooms (db w) !! dto_roomId designData) as [r|] eqn:Hr;
    [| discriminate H].
  destruct (projects (db w) !! r_projectId r) as [p|] eqn:Hp;
    [| discriminate H].
  cbn [rp_project] in H.
  destruct (String.eqb_spec (p_userId p) userId) as [Hown | _];
    [| discriminate H].
  cbn [negb] in H.
  unfold prisma_design_create, bind, draw_cuid, get_db in H. cbn [db] in H.
  destruct (designs (db w) !! cuid env (minted w)) eqn:Hd;
    [discriminate H |].
  cbn [new_roomId] in H. rewrite Hr in H. rewrite create_ok_initial in H.
  destruct (text_ok (js_or (dto_customPrompt designData) "")) eqn:H1;
    [| discriminate H].
  destruct (text_ok (default "replicate" (dto_aiProvider designData))) eqn:H2;
    [| discriminate H].
  exists r, p. auto 10.
Qed.

(* ===================================================================== *)
(** ** Initiation: refusals                                               *)
(* ===================================================================== *)

(** C6. An initiate-generation call on a room that does not exist fails with
    the not-found error (404, ROOM_NOT_FOUND); on a room whose project
    belongs to somebody else it fails with the access-denied error (403,
    ACCESS_DENIED).  In both cases the store is left as it was: no Design row
    is created, and no background task is left running. *)
Theorem generateDesign_refusal_creates_nothing env w userId designData :
  (rooms (db w) !! dto_roomId designData = None ->
   exists w',
     generateDesign userId designData env w =
       (Rejected (AppError "Room not found" 404 "ROOM_NOT_FOUND"), w')
     /\ db w' = db w /\ spawned w' = spawned w)
  /\ (forall r p,
       rooms (db w) !! dto_roomId designData = Some r ->
       projects (db w) !! r_projectId r = Some p ->
       p_userId p <> userId ->
       exists w' message,
         generateDesign userId designData env w =
           (Rejected (AppError message 403 "ACCESS_DENIED"), w')
         /\ db w' = db w /\ spawned w' = spawned w).
Proof.
  split.
  - intros Hr. eexists. split.
    + apply generateDesign_room_missing, Hr.
    + split; reflexivity.
  - intros r p Hr Hp Hown. eexists. eexists. split.
    + eapply generateDesign_not_owner; eassumption.
    + split; reflexivity.
Qed.

Lemma generateDesign_refusal_witness :
  (exists w',
     generateDesign "bob" ex_dto_missing ex_env ex_world =
       (Rejected (AppError "Room not found" 404 "ROOM_NOT_FOUND"), w')
     /\ db w' = db ex_world /\ spawned w' = spawned ex_world)
  /\ (exists w' message,
        generateDesign "bob" ex_dto ex_env ex_world =
          (Rejected (AppError message 403 "ACCESS_DENIED"), w')
        /\ db w' = db ex_world /\ spawned w' = spawned ex_world).
Proof.
  split.
  - apply (proj1 (generateDesign_refusal_creates_nothing
                    ex_env ex_world "bob" ex_dto_missing)).
    vm_compute. reflexivity.
  - apply (proj2 (generateDesign_refusal_creates_nothing
                    ex_env ex_world "bob" ex_dto) ex_room ex_project).
    + vm_compute. reflexivity.
    + vm_compute. reflexivity.
    + cbn. discriminate.
Defined.

(* ===================================================================== *)
(** ** Initiation: the synchronous path                                   *)
(* ===================================================================== *)

Lemma provider_calls_app tr1 tr2 :
  provider_calls (tr1 ++ tr2) = provider_calls tr1 ++ provider_calls tr2.
Proof. unfold provider_calls. apply List.filter_app. Qed.

Lemma event_loop_quiet env w :
  spawned w = [] -> db (event_loop env w) = db w.
Proof. intros H. unfold event_loop. rewrite H. reflexivity. Qed.

(** C2, as the code has it.  For every initiate-generation call by the
    owner of the room for which the store accepts the new row (the
    identifier drawn for it is unused, and neither the prompt nor the
    provider selector holds the character U+0000), [generateDesign] returns
    a Design whose status is PENDING.  The returned value and the world at
    the return are the same whatever the provider does: the synchronous
    path creates the row, reads the clock, leaves the task running and logs,
    and records no provider call. *)
Theorem generateDesign_returns_PENDING_whatever_the_provider
  env w userId designData r p provider' :
  rooms (db w) !! dto_roomId designData = Some r ->
  projects (db w) !! r_projectId r = Some p ->
  p_userId p = userId ->
  designs (db w) !! cuid env (minted w) = None ->
  text_ok (js_or (dto_customPrompt designData) "") = true ->
  text_ok (default "replicate" (dto_aiProvider designData)) = true ->
  exists resp w',
    generateDesign userId designData env w = (Fulfilled resp, w')
    /\ res_status resp = PENDING
    /\ generateDesign userId designData (with_provider provider' env) w =
         (Fulfilled resp, w')
    /\ trace w' =
         trace w ++
         [EvCreateDesign (initial_row env w designData);
          EvNow (clock env (S (ticks w)));
          EvLog Info "Design generation initiated"]
    /\ provider_calls (trace w') = provider_calls (trace w)
    /\ designs (db w') = <[res_id resp := initial_row env w designData]>
                           (designs (db w))
    /\ spawned w' =
         spawned w ++
         [initial_job env w designData {| rp_room := r; rp_project := p |}].
Proof.
  intros Hr Hp Hown Hfresh Hprompt Hprov.
  exists (formatDesignResponse (initial_row env w designData) None false).
  exists (world_initiated env w designData {| rp_room := r; rp_project := p |}).
  assert (Hrun' :
    generateDesign userId designData (with_provider provider' env) w =
      (Fulfilled (formatDesignResponse (initial_row env w designData) None false),
       world_initiated env w designData {| rp_room := r; rp_project := p |})).
  { apply (generateDesign_authorized (with_provider provider' env) w userId
             designData r p Hr Hp Hown Hfresh Hprompt Hprov). }
  split; [apply generateDesign_authorized; assumption |].
  split; [reflexivity |].
  split; [exact Hrun' |].
  split; [reflexivity |].
  split; [| split; reflexivity].
  cbn [world_initiated trace]. rewrite provider_calls_app. cbn.
  apply app_nil_r.
Qed.

Lemma generateDesign_returns_PENDING_witness :
  exists resp w',
    generateDesign "alice" ex_dto ex_env ex_world = (Fulfilled resp, w')
    /\ res_status resp = PENDING
    /\ generateDesign "alice" ex_dto ex_env_hung ex_world = (Fulfilled resp, w')
    /\ trace w' =
         trace ex_world ++
         [EvCreateDesign (initial_row ex_env ex_world ex_dto);
          EvNow (clock ex_env (S (ticks ex_world)));
          EvLog Info "Design generation initiated"]
    /\ provider_calls (trace w') = provider_calls (trace ex_world)
    /\ designs (db w') = <[res_id resp := initial_row ex_env ex_world ex_dto]>
                           (designs (db ex_world))
    /\ spawned w' =
         spawned ex_world ++
         [initial_job ex_env ex_world ex_dto
            {| rp_room := ex_room; rp_project := ex_project |}].
Proof.
  apply (generateDesign_returns_PENDING_whatever_the_provider
           ex_env ex_world "alice" ex_dto ex_room ex_project
           (fun _ _ => Unsettled)).
  - vm_compute. reflexivity.
  - vm_compute. reflexivity.
  - reflexivity.
  - vm_compute. reflexivity.
  - reflexivity.
  - reflexivity.
Defined.

(** C2 as stated fails.  alice owns the room and the identifier is unused,
    but her custom prompt holds the character U+0000, which the request
    validation lets through and a text column cannot hold: the call fails
    with the 500 of the method, returns no Design, creates no row and
    leaves no task running. *)
Lemma generateDesign_refuses_a_prompt_with_NUL :
  rooms (db ex_world) !! dto_roomId ex_dto_nul = Some ex_room
  /\ projects (db ex_world) !! r_projectId ex_room = Some ex_project
  /\ p_userId ex_project = "alice"
  /\ designs (db ex_world) !! cuid ex_env (minted ex_world) = None
  /\ exists w',
       generateDesign "alice" ex_dto_nul ex_env ex_world =
         (Rejected (AppError "Failed to initiate design generation" 500
                      "DESIGN_GENERATION_ERROR"), w')
       /\ db w' = db ex_world
       /\ spawned w' = [].
Proof.
  split; [vm_compute; reflexivity |].
  split; [vm_compute; reflexivity |].
  split; [reflexivity |].
  split; [vm_compute; reflexivity |].
  eexists. split.
  { apply (generateDesign_value_refused ex_env ex_world "alice" ex_dto_nul
             ex_room ex_project).
    - vm_compute. reflexivity.
    - vm_compute. reflexivity.
    - reflexivity.
    - vm_compute. reflexivity.
    - reflexivity. }
  split; reflexivity.
Qed.

(** C9, as the code has it.  For every successful initiate-generation call
    the Design row, as created and as returned to the caller, has an empty
    imageUrl and status PENDING; its prompt is the caller's custom prompt
    when one is supplied and not empty, and the empty string otherwise. *)
Theorem generateDesign_initial_row env w userId designData resp w' :
  generateDesign userId designData env w = (Fulfilled resp, w') ->
  res_imageUrl resp = ""
  /\ res_status resp = PENDING
  /\ res_prompt resp = js_or (dto_customPrompt designData) ""
  /\ (dto_customPrompt designData = None -> res_prompt resp = "")
  /\ exists row,
       designs (db w') !! res_id resp = Some row
       /\ resp = formatDesignResponse row None false
       /\ d_imageUrl row = ""
       /\ d_status row = PENDING
       /\ d_prompt row = js_or (dto_customPrompt designData) "".
Proof.
  intros H.
  destruct (generateDesign_fulfilled_inv _ _ _ _ _ _ H)
    as (r & p & Hr & Hp & Hown & Hfresh & Hprompt & Hprov).
  rewrite (generateDesign_authorized env w userId designData r p Hr Hp
             Hown Hfresh Hprompt Hprov) in H.
  injection H as <- <-.
  split; [reflexivity |]. split; [reflexivity |]. split; [reflexivity |].
  split; [intros E; cbn; rewrite E; reflexivity |].
  exists (initial_row env w designData).
  split; [cbn; apply lookup_insert_eq |].
  repeat split; reflexivity.
Qed.

Lemma generateDesign_initial_row_witness :
  exists resp w',
    generateDesign "alice" ex_dto_custom ex_env ex_world = (Fulfilled resp, w')
    /\ res_imageUrl resp = ""
    /\ res_status resp = PENDING
    /\ res_prompt resp = "warm and cozy".
Proof.
  eexists. eexists.
  assert (E : generateDesign "alice" ex_dto_custom ex_env ex_world =
              (Fulfilled (formatDesignResponse
                            (initial_row ex_env ex_world ex_dto_custom)
                            None false),
               world_initiated ex_env ex_world ex_dto_custom
                 {| rp_room := ex_room; rp_project := ex_project |})).
  { vm_compute. reflexivity. }
  split; [exact E |].
  destruct (generateDesign_initial_row _ _ _ _ _ _ E) as (H1 & H2 & H3 & _).
  split; [exact H1 |]. split; [exact H2 |]. exact H3.
Defined.

(** C9 as stated fails: with the custom prompt "warm and cozy" the call
    succeeds and the row, created and returned, carries that prompt and not
    the empty string. *)
Lemma generateDesign_custom_prompt_not_empty :
  exists resp w' row,
    generateDesign "alice" ex_dto_custom ex_env ex_world = (Fulfilled resp, w')
    /\ designs (db w') !! res_id resp = Some row
    /\ res_prompt resp = "warm and cozy"
    /\ d_prompt row = "warm and cozy"
    /\ res_prompt resp <> ""
    /\ d_prompt row <> "".
Proof.
  exists (formatDesignResponse (initial_row ex_env ex_world ex_dto_custom)
            None false).
  exists (world_initiated ex_env ex_world ex_dto_custom
            {| rp_room := ex_room; rp_project := ex_project |}).
  exists (initial_row ex_env ex_world ex_dto_custom).
  split; [vm_compute; reflexivity |].
  split; [vm_compute; reflexivity |].
  split; [reflexivity |]. split; [reflexivity |].
  split; cbn; discriminate.
Qed.

(* ===================================================================== *)
(** ** The background task                                                *)
(* ===================================================================== *)

Lemma obj_get_set_eq k v o : obj_get k (obj_set k v o) = Some v.
Proof.
  induction o as [| [k' v'] o IH]; cbn.
  - now rewrite String.eqb_refl.
  - destruct (String.eqb k' k) eqn:E; cbn.
    + now rewrite String.eqb_refl.
    + now rewrite E.
Qed.

Lemma obj_get_set_ne k k0 v o :
  k0 <> k -> obj_get k0 (obj_set k v o) = obj_get k0 o.
Proof.
  intros Hne. induction o as [| [k' v'] o IH]; cbn.
  - destruct (String.eqb_spec k k0); [congruence | reflexivity].
  - destruct (String.eqb_spec k' k) as [-> | Hk]; cbn.
    + destruct (String.eqb_spec k k0); [congruence | reflexivity].
    + destruct (String.eqb k' k0); [reflexivity | exact IH].
Qed.

Lemma written_status_update_same id p :
  written_status id (EvUpdateDesign id p) = set_status p.
Proof. cbn. now rewrite String.eqb_refl. Qed.

Lemma written_status_update_other id k p :
  k <> id -> written_status k (EvUpdateDesign id p) = None.
Proof.
  intros Hne. cbn. destruct (String.eqb_spec id k); [congruence | reflexivity].
Qed.

Lemma status_history_app id tr1 tr2 :
  status_history id (tr1 ++ tr2) = status_history id tr1 ++ status_history id tr2.
Proof. unfold status_history. apply omap_app. Qed.

Lemma generation_task_unfold designId room customPrompt aiProvider env w :
  generation_task designId room customPrompt aiProvider env w =
    detached
      {| j_designId := designId; j_room := room;
         j_customPrompt := customPrompt; j_aiProvider := aiProvider;
         j_startTime := clock env (ticks w) |}
      env (emit (EvNow (clock env (ticks w))) (tick w)).
Proof. reflexivity. Qed.

(** C3, as the code has it.  For every run of the background task on an
    existing row in which the provider call succeeds with a non-empty
    imageUrls list and the store accepts the terminal write (the elapsed
    time is a 32-bit signed integer, and the provider's prompt, URLs and
    metadata hold no character U+0000), the task settles normally and the
    row ends with status COMPLETED, imageUrl the first returned URL, prompt
    the provider-resolved prompt (whatever prompt the row held), metadata
    holding allImageUrls with the full URL list and, under every other key,
    what the provider metadata holds, and processingTime the difference of
    the two clock readings, the first taken just before the PROCESSING
    write and the second just before the terminal write. *)
Theorem generation_task_success
  env w designId room customPrompt aiProvider d0 result url urls :
  designs (db w) !! designId = Some d0 ->
  provider env
    {| pd_roomType := r_type (rp_room room);
       pd_style := p_style (rp_project room);
       pd_length := r_length (rp_room room);
       pd_width := r_width (rp_room room);
       pd_height := r_height (rp_room room);
       pd_materials := r_materials (rp_room room);
       pd_ambientColor := r_ambientColor (rp_room room);
       pd_customPrompt := customPrompt |}
    {| ao_provider := aiProvider;
       ao_inputImageUrl := r_originalImageUrl (rp_room room) |}
    = Fulfilled result ->
  ai_imageUrls result = url :: urls ->
  let t0 := clock env (ticks w) in
  let t1 := clock env (S (S (ticks w))) in
  -2147483648 <= t1 - t0 <= 2147483647 ->
  text_ok (ai_prompt result) = true ->
  forallb text_ok (url :: urls) = true ->
  jsonb_ok (JObj (ai_metadata result)) = true ->
  exists w' row md,
    generation_task designId room customPrompt aiProvider env w =
      (Fulfilled tt, w')
    /\ designs (db w') !! designId = Some row
    /\ d_status row = COMPLETED
    /\ d_imageUrl row = url
    /\ d_prompt row = ai_prompt result
    /\ d_processingTime row = Some (t1 - t0)
    /\ d_error row = d_error d0
    /\ d_metadata row = Some (JObj md)
    /\ obj_get "allImageUrls" md = Some (JArr (JStr <$> url :: urls))
    /\ (forall k, k <> "allImageUrls" ->
          obj_get k md = obj_get k (ai_metadata result))
    /\ status_history designId (trace w') =
         status_history designId (trace w) ++ [PROCESSING; COMPLETED]
    /\ provider_calls (trace w') =
         provider_calls (trace w) ++
         [EvGenerate
            {| pd_roomType := r_type (rp_room room);
               pd_style := p_style (rp_project room);
               pd_length := r_length (rp_room room);
               pd_width := r_width (rp_room room);
               pd_height := r_height (rp_room room);
               pd_materials := r_materials (rp_room room);
               pd_ambientColor := r_ambientColor (rp_room room);
               pd_customPrompt := customPrompt |}
            {| ao_provider := aiProvider;
               ao_inputImageUrl := r_originalImageUrl (rp_room room) |}].
Proof.
  intros Hrow Hprov Hurls t0 t1 Hfit Hprompt Htext Hmeta.
  rewrite generation_task_unfold.
  erewrite detached_resolved; [| exact Hrow | exact Hprov |].
  2: { apply patch_COMPLETED_ok;
         [apply int4_ok_spec; exact Hfit | exact Hprompt
         | rewrite Hurls; exact Htext | exact Hmeta]. }
  eexists. eexists. eexists.
  split; [reflexivity |].
  split; [cbn; apply lookup_insert_eq |].
  cbn [apply_patch patch_COMPLETED patch_PROCESSING d_status d_imageUrl
       d_prompt d_processingTime d_error d_metadata set_status set_imageUrl
       set_prompt set_processingTime set_error set_metadata default
       j_startTime j_designId]. rewrite Hurls. cbn [head default].
  split; [reflexivity |]. split; [reflexivity |]. split; [reflexivity |].
  split; [reflexivity |]. split; [reflexivity |]. split; [reflexivity |].
  split; [apply obj_get_set_eq |].
  split; [intros k Hk; now apply obj_get_set_ne |].
  split.
  - cbn [trace emit wrote tick j_designId]. rewrite <- !app_assoc.
    rewrite status_history_app. f_equal.
    unfold status_history. cbn [app omap list_omap written_status set_status
      patch_PROCESSING patch_COMPLETED].
    now rewrite String.eqb_refl.
  - cbn [trace emit wrote tick j_designId]. rewrite <- !app_assoc.
    rewrite provider_calls_app. f_equal.
Qed.

Lemma generation_task_success_witness :
  exists w' row md,
    generation_task "dp" {| rp_room := ex_room; rp_project := ex_project |}
      (Some "draft") "replicate" ex_env ex_world_pending = (Fulfilled tt, w')
    /\ designs (db w') !! "dp" = Some row
    /\ d_status row = COMPLETED
    /\ d_imageUrl row = "u1"
    /\ d_prompt row = "p"
    /\ d_processingTime row = Some 20
    /\ d_metadata row = Some (JObj md)
    /\ obj_get "allImageUrls" md = Some (JArr [JStr "u1"; JStr "u2"])
    /\ obj_get "m" md = Some (JNum 1).
Proof.
  destruct (generation_task_success ex_env ex_world_pending "dp"
              {| rp_room := ex_room; rp_project := ex_project |}
              (Some "draft") "replicate" ex_design_pending ex_result
              "u1" ["u2"])
    as (w' & row & md & H).
  - vm_compute. reflexivity.
  - reflexivity.
  - reflexivity.
  - vm_compute. split; discriminate.
  - reflexivity.
  - reflexivity.
  - reflexivity.
  - destruct H as (H1 & H2 & H3 & H4 & H5 & H6 & _ & H7 & H9 & H10 & _).
    exists w', row, md.
    split; [exact H1 |]. split; [exact H2 |]. split; [exact H3 |].
    split; [exact H4 |]. split; [exact H5 |]. split; [exact H6 |].
    split; [exact H7 |]. split; [exact H9 |].
    rewrite H10 by discriminate. reflexivity.
Defined.

(** C3 as stated fails.  The provider call succeeds with two URLs, but the
    two readings of the clock are 6 000 000 000 ms apart, more than the
    32-bit [processingTime] column holds: the terminal write is refused,
    and so is the write of the failure path, which carries the elapsed time
    too; the [.catch] handler then marks the row FAILED.  The row ends
    FAILED, with no processingTime and the imageUrl and prompt it had. *)
Lemma generation_task_elapsed_time_overflow :
  provider ex_env_slow
    (promptData_of {| rp_room := ex_room; rp_project := ex_project |}
       (Some "draft"))
    (options_of {| rp_room := ex_room; rp_project := ex_project |} "replicate")
  = Fulfilled ex_result
  /\ ai_imageUrls ex_result = ["u1"; "u2"]
  /\ designs (db ex_world_pending) !! "dp" = Some ex_design_pending
  /\ exists w' row,
       generation_task "dp" {| rp_room := ex_room; rp_project := ex_project |}
         (Some "draft") "replicate" ex_env_slow ex_world_pending
       = (Fulfilled tt, w')
       /\ designs (db w') !! "dp" = Some row
       /\ d_status row = FAILED
       /\ d_processingTime row = None
       /\ d_imageUrl row = ""
       /\ d_prompt row = "draft".
Proof.
  split; [reflexivity |]. split; [reflexivity |].
  split; [vm_compute; reflexivity |].
  eexists. eexists.
  split; [vm_compute; reflexivity |].
  split; [vm_compute; reflexivity |].
  repeat split; reflexivity.
Qed.

(** *** A request served to the end *)

Section Served.
Variables (env : Env) (w : World) (userId : string).
Variables (designData : GenerateDesignDto) (r : Room) (p : Project).
Hypothesis quiescent : spawned w = [].
Hypothesis room_found : rooms (db w) !! dto_roomId designData = Some r.
Hypothesis project_found : projects (db w) !! r_projectId r = Some p.
Hypothesis owner : p_userId p = userId.
Hypothesis fresh : designs (db w) !! cuid env (minted w) = None.
Hypothesis prompt_ok : text_ok (js_or (dto_customPrompt designData) "") = true.
Hypothesis provider_ok :
  text_ok (default "replicate" (dto_aiProvider designData)) = true.

Let room := {| rp_room := r; rp_project := p |}.
Let job := initial_job env w designData room.
Let started := no_spawned (world_initiated env w designData room).

Lemma serve_generateDesign :
  serve (generateDesign userId designData) env w =
    (Fulfilled (formatDesignResponse (initial_row env w designData) None false),
     snd (detached job env started)).
Proof.
  unfold serve.
  rewrite (generateDesign_authorized env w userId designData r p
             room_found project_found owner fresh prompt_ok provider_ok).
  unfold event_loop. cbn [world_initiated spawned]. rewrite quiescent.
  reflexivity.
Qed.

Lemma started_row :
  designs (db started) !! j_designId job = Some (initial_row env w designData).
Proof. cbn. apply lookup_insert_eq. Qed.
End Served.

(** The success path end to end: the caller receives the PENDING row, and
    the row ends COMPLETED with the provider's results. *)
Lemma generation_success_end_to_end
  env w userId designData r p result :
  spawned w = [] ->
  rooms (db w) !! dto_roomId designData = Some r ->
  projects (db w) !! r_projectId r = Some p ->
  p_userId p = userId ->
  designs (db w) !! cuid env (minted w) = None ->
  text_ok (js_or (dto_customPrompt designData) "") = true ->
  text_ok (default "replicate" (dto_aiProvider designData)) = true ->
  provider env
    (promptData_of {| rp_room := r; rp_project := p |}
       (dto_customPrompt designData))
    (options_of {| rp_room := r; rp_project := p |}
       (default "replicate" (dto_aiProvider designData)))
    = Fulfilled result ->
  patch_ok
    (patch_COMPLETED result
       (clock env (S (S (S (ticks w)))) - clock env (S (ticks w)))) = true ->
  exists resp w' row,
    serve (generateDesign userId designData) env w = (Fulfilled resp, w')
    /\ res_status resp = PENDING
    /\ designs (db w') !! res_id resp = Some row
    /\ d_status row = COMPLETED
    /\ d_imageUrl row = default "" (head (ai_imageUrls result))
    /\ d_prompt row = ai_prompt result
    /\ d_processingTime row =
         Some (clock env (S (S (S (ticks w)))) - clock env (S (ticks w))).
Proof.
  intros Hq Hr Hp Hown Hfresh Hpr Hpv Hprov Hok.
  eexists. eexists. eexists.
  split.
  { rewrite (serve_generateDesign env w userId designData r p
               Hq Hr Hp Hown Hfresh Hpr Hpv).
    erewrite detached_resolved;
      [reflexivity | apply started_row | exact Hprov | exact Hok]. }
  split; [reflexivity |].
  split; [cbn; apply lookup_insert_eq |].
  cbn. destruct (ai_imageUrls result); repeat split; reflexivity.
Qed.

(** C4, as the code has it.  For every initiate-generation call served to
    the end in which the provider call throws or rejects and the store
    accepts the write of the failure (the elapsed time is a 32-bit signed
    integer and the recorded message holds no character U+0000), the caller
    still receives the PENDING Design (the error is not re-thrown to it,
    and the detached promise itself settles normally), and the row ends
    with status FAILED, error the message of the thrown value when that
    value is an instance of [Error] (its message as it is, even empty) and
    the generic "Unknown error" for every other thrown value, whether or
    not it carries a message; processingTime is the elapsed milliseconds
    between the clock reading taken before the PROCESSING write and the one
    taken before the terminal write, and imageUrl the empty string the row
    was created with. *)
Theorem generation_failure_is_recorded_on_the_row
  env w userId designData r p error :
  spawned w = [] ->
  rooms (db w) !! dto_roomId designData = Some r ->
  projects (db w) !! r_projectId r = Some p ->
  p_userId p = userId ->
  designs (db w) !! cuid env (minted w) = None ->
  text_ok (js_or (dto_customPrompt designData) "") = true ->
  text_ok (default "replicate" (dto_aiProvider designData)) = true ->
  provider env
    {| pd_roomType := r_type r; pd_style := p_style p;
       pd_length := r_length r; pd_width := r_width r;
       pd_height := r_height r; pd_materials := r_materials r;
       pd_ambientColor := r_ambientColor r;
       pd_customPrompt := dto_customPrompt designData |}
    {| ao_provider := default "replicate" (dto_aiProvider designData);
       ao_inputImageUrl := r_originalImageUrl r |}
    = Rejected error ->
  let room := {| rp_room := r; rp_project := p |} in
  let t0 := clock env (S (ticks w)) in
  let t1 := clock env (S (S (S (ticks w)))) in
  -2147483648 <= t1 - t0 <= 2147483647 ->
  text_ok (if instanceof_Error error then default "" (message_of error)
           else "Unknown error") = true ->
  exists resp w' row,
    serve (generateDesign userId designData) env w = (Fulfilled resp, w')
    /\ res_status resp = PENDING
    /\ fst (detached (initial_job env w designData room) env
              (no_spawned (world_initiated env w designData room)))
         = Fulfilled tt
    /\ designs (db w') !! res_id resp = Some row
    /\ d_status row = FAILED
    /\ (forall m, instanceof_Error error = true ->
                  message_of error = Some m -> d_error row = Some m)
    /\ (instanceof_Error error = false -> d_error row = Some "Unknown error")
    /\ d_processingTime row = Some (t1 - t0)
    /\ d_imageUrl row = ""
    /\ d_prompt row = js_or (dto_customPrompt designData) ""
    /\ d_metadata row = None.
Proof.
  intros Hq Hr Hp Hown Hfresh Hpr Hpv Hprov room t0 t1 Hfit Hmsg.
  assert (Hok : patch_ok (patch_FAILED error (t1 - t0)) = true).
  { apply patch_FAILED_ok; [apply int4_ok_spec; exact Hfit | exact Hmsg]. }
  eexists. eexists. eexists.
  split.
  { rewrite (serve_generateDesign env w userId designData r p
               Hq Hr Hp Hown Hfresh Hpr Hpv).
    erewrite detached_rejected;
      [reflexivity | apply started_row | exact Hprov | exact Hok]. }
  split; [reflexivity |].
  split.
  { erewrite detached_rejected;
      [reflexivity | apply started_row | exact Hprov | exact Hok]. }
  split; [cbn; apply lookup_insert_eq |].
  split; [reflexivity |].
  split; [intros m He Hm; cbn; now rewrite He, Hm |].
  split; [intros He; cbn; now rewrite He |].
  repeat split; reflexivity.
Qed.

Lemma generation_failure_witness :
  exists resp w' row,
    serve (generateDesign "alice" ex_dto) ex_env_boom ex_world =
      (Fulfilled resp, w')
    /\ res_status resp = PENDING
    /\ designs (db w') !! res_id resp = Some row
    /\ d_status row = FAILED
    /\ d_error row = Some "boom"
    /\ d_processingTime row = Some 20
    /\ d_imageUrl row = "".
Proof.
  destruct (generation_failure_is_recorded_on_the_row
              ex_env_boom ex_world "alice" ex_dto ex_room ex_project
              (JsError "boom"))
    as (resp & w' & row & H1 & H2 & _ & H4 & H5 & H6 & _ & H7 & H8 & _).
  - reflexivity.
  - vm_compute. reflexivity.
  - vm_compute. reflexivity.
  - reflexivity.
  - vm_compute. reflexivity.
  - reflexivity.
  - reflexivity.
  - reflexivity.
  - vm_compute. split; discriminate.
  - reflexivity.
  - exists resp, w', row.
    split; [exact H1 |]. split; [exact H2 |]. split; [exact H4 |].
    split; [exact H5 |]. split; [exact (H6 "boom" eq_refl eq_refl) |].
    split; [exact H7 | exact H8].
Defined.

(** C4 as stated fails.  The provider rejects with the object
    [{ message: "boom" }]: a message is available, yet the row records the
    generic "Unknown error", because the thrown value is not an instance of
    [Error]. *)
Lemma generation_failure_message_is_dropped :
  provider ex_env_object
    (promptData_of {| rp_room := ex_room; rp_project := ex_project |} None)
    (options_of {| rp_room := ex_room; rp_project := ex_project |} "replicate")
  = Rejected (NonError (Some "boom"))
  /\ message_of (NonError (Some "boom")) = Some "boom"
  /\ exists resp w' row,
       serve (generateDesign "alice" ex_dto) ex_env_object ex_world =
         (Fulfilled resp, w')
       /\ designs (db w') !! res_id resp = Some row
       /\ d_status row = FAILED
       /\ d_error row = Some "Unknown error"
       /\ d_error row <> Some "boom".
Proof.
  split; [reflexivity |]. split; [reflexivity |].
  eexists. eexists. eexists.
  split; [vm_compute; reflexivity |].
  split; [vm_compute; reflexivity |].
  split; [reflexivity |]. split; [reflexivity |].
  discriminate.
Qed.

(** *** What the detached task writes, whatever the provider does *)

(** The conjuncts of [detached_summary] once the run is known. *)
Ltac summarize :=
  split; [discriminate |];
  split; [cbn; now rewrite <- !app_assoc |];
  split;
  [ unfold status_history;
    cbn [omap list_omap written_status set_status patch_COMPLETED
         patch_FAILED patch_FAILED_secondary];
    rewrite ?String.eqb_refl; cbn [mbind option_bind];
    first [left; reflexivity | right; left; reflexivity
          | right; right; reflexivity] |];
  split;
  [ intros k Hk; unfold status_history; cbn [omap list_omap];
    rewrite ?written_status_update_other by congruence; reflexivity |];
  split; [reflexivity |];
  split;
  [ intros k Hk; cbn; now rewrite !lookup_insert_ne by congruence |];
  split;
  [ eexists; split; [cbn; apply lookup_insert_eq |];
    repeat split; reflexivity |];
  repeat split; reflexivity.

Lemma detached_summary env j w d0 :
  designs (db w) !! j_designId j = Some d0 ->
  exists o w' tail,
    detached j env w = (o, w')
    /\ (forall e, o <> Rejected e)
    /\ trace w' =
         trace w ++
         EvUpdateDesign (j_designId j) patch_PROCESSING
         :: EvGenerate (promptData_of (j_room j) (j_customPrompt j))
              (options_of (j_room j) (j_aiProvider j))
         :: tail
    /\ (status_history (j_designId j) tail = [COMPLETED]
        \/ status_history (j_designId j) tail = [FAILED]
        \/ status_history (j_designId j) tail = [])
    /\ (forall k, k <> j_designId j -> status_history k tail = [])
    /\ provider_calls tail = []
    /\ (forall k, k <> j_designId j ->
          designs (db w') !! k = designs (db w) !! k)
    /\ (exists row,
          designs (db w') !! j_designId j = Some row
          /\ d_id row = d_id d0
          /\ d_roomId row = d_roomId d0
          /\ d_aiProvider row = d_aiProvider d0)
    /\ projects (db w') = projects (db w)
    /\ rooms (db w') = rooms (db w)
    /\ uploads (db w') = uploads (db w).
Proof.
  intros Hrow.
  set (failed := EvLog Error "Design generation processing failed:").
  set (t1 := clock env (S (ticks w))).
  set (t2 := clock env (S (S (ticks w)))).
  destruct (provider env (promptData_of (j_room j) (j_customPrompt j))
              (options_of (j_room j) (j_aiProvider j)))
    as [result | error |] eqn:Hprov.
  - destruct (patch_ok (patch_COMPLETED result (t1 - j_startTime j)))
      eqn:Hok;
      [| destruct (int4_ok (t2 - j_startTime j)) eqn:Hfit].
    + eexists. eexists.
      exists [EvNow t1;
              EvUpdateDesign (j_designId j)
                (patch_COMPLETED result (t1 - j_startTime j));
              EvLog Info "Design generation completed successfully"].
      split; [eapply detached_resolved; eassumption |].
      summarize.
    + eexists. eexists.
      exists [EvNow t1; EvNow t2; failed;
              EvUpdateDesign (j_designId j)
                (patch_FAILED value_refused (t2 - j_startTime j))].
      split; [eapply detached_success_refused; eassumption |].
      summarize.
    + eexists. eexists.
      exists [EvNow t1; EvNow t2; failed; failed;
              EvUpdateDesign (j_designId j)
                (patch_FAILED_secondary value_refused)].
      split; [eapply detached_success_refused_twice; eassumption |].
      summarize.
  - destruct (patch_ok (patch_FAILED error (t1 - j_startTime j))) eqn:Hok.
    + eexists. eexists.
      exists [EvNow t1; failed;
              EvUpdateDesign (j_designId j)
                (patch_FAILED error (t1 - j_startTime j))].
      split; [eapply detached_rejected; eassumption |].
      summarize.
    + eexists. eexists.
      exists [EvNow t1; failed; failed;
              EvUpdateDesign (j_designId j)
                (patch_FAILED_secondary value_refused)].
      split; [eapply detached_failure_refused; eassumption |].
      summarize.
  - eexists. eexists. exists [].
    split; [eapply detached_pending; eassumption |].
    summarize.
Qed.

(** C5. For the Design row an initiate-generation call creates, the writes
    applied to the row by the job come in the order create (PENDING), then
    the PROCESSING update, then at most one terminal update (COMPLETED or
    FAILED; none when the provider never settles).  The status history only
    takes transitions of the machine, nothing follows a terminal status, and
    no other row is written.  A call whose row the store refuses (a prompt
    or provider selector holding the character U+0000) fails and writes to
    no row at all. *)
Theorem design_writes_are_ordered env w userId designData r p :
  spawned w = [] ->
  rooms (db w) !! dto_roomId designData = Some r ->
  projects (db w) !! r_projectId r = Some p ->
  p_userId p = userId ->
  designs (db w) !! cuid env (minted w) = None ->
  (text_ok (js_or (dto_customPrompt designData) "")
   && text_ok (default "replicate" (dto_aiProvider designData)) = true ->
   exists resp w' events,
     serve (generateDesign userId designData) env w = (Fulfilled resp, w')
     /\ res_id resp = cuid env (minted w)
     /\ trace w' = trace w ++ events
     /\ (status_history (res_id resp) events = [PENDING; PROCESSING; COMPLETED]
         \/ status_history (res_id resp) events = [PENDING; PROCESSING; FAILED]
         \/ status_history (res_id resp) events = [PENDING; PROCESSING])
     /\ lifecycle (status_history (res_id resp) events) = true
     /\ terminal_is_last (status_history (res_id resp) events) = true
     /\ (forall k, k <> res_id resp -> status_history k events = []))
  /\ (text_ok (js_or (dto_customPrompt designData) "")
      && text_ok (default "replicate" (dto_aiProvider designData)) = false ->
      exists e w' events,
        serve (generateDesign userId designData) env w = (Rejected e, w')
        /\ trace w' = trace w ++ events
        /\ forall k, status_history k events = []).
Proof.
  intros Hq Hr Hp Hown Hfresh. split.
  2: { intros Hbad. eexists. eexists.
       exists [EvLog Error "Design generation initiation failed:"].
       split.
       { unfold serve.
         rewrite (generateDesign_value_refused env w userId designData r p
                    Hr Hp Hown Hfresh Hbad).
         unfold event_loop. cbn [spawned]. rewrite Hq. reflexivity. }
       split; reflexivity. }
  intros Hok. apply andb_prop in Hok as [Hpr Hpv].
  destruct (detached_summary env _ _ _
              (started_row env w designData r p))
    as (o & w' & tail & Hrun & _ & Htrace & Hhist & Hother & _).
  cbn [initial_job j_designId j_room j_customPrompt j_aiProvider]
    in Htrace, Hhist, Hother.
  exists (formatDesignResponse (initial_row env w designData) None false), w'.
  exists ([EvCreateDesign (initial_row env w designData);
           EvNow (clock env (S (ticks w)));
           EvLog Info "Design generation initiated"] ++
          EvUpdateDesign (cuid env (minted w)) patch_PROCESSING
          :: EvGenerate
               (promptData_of {| rp_room := r; rp_project := p |}
                  (dto_customPrompt designData))
               (options_of {| rp_room := r; rp_project := p |}
                  (default "replicate" (dto_aiProvider designData)))
          :: tail).
  split.
  { rewrite (serve_generateDesign env w userId designData r p
               Hq Hr Hp Hown Hfresh Hpr Hpv).
    rewrite Hrun. reflexivity. }
  split; [reflexivity |].
  split.
  { rewrite Htrace. cbn [no_spawned world_initiated trace].
    rewrite <- app_assoc. reflexivity. }
  cbn [formatDesignResponse res_id initial_row created_row d_id].
  assert (Hall : status_history (cuid env (minted w))
            ([EvCreateDesign (initial_row env w designData);
              EvNow (clock env (S (ticks w)));
              EvLog Info "Design generation initiated"] ++
             EvUpdateDesign (cuid env (minted w)) patch_PROCESSING
             :: EvGenerate
                  (promptData_of {| rp_room := r; rp_project := p |}
                     (dto_customPrompt designData))
                  (options_of {| rp_room := r; rp_project := p |}
                     (default "replicate" (dto_aiProvider designData)))
             :: tail)
          = PENDING :: PROCESSING :: status_history (cuid env (minted w)) tail).
  { unfold status_history.
    cbn [app omap list_omap written_status initial_row created_row d_id
         d_status new_status patch_PROCESSING set_status].
    now rewrite String.eqb_refl. }
  rewrite Hall.
  split.
  { destruct Hhist as [-> | [-> | ->]]; auto. }
  split.
  { destruct Hhist as [-> | [-> | ->]]; reflexivity. }
  split.
  { destruct Hhist as [-> | [-> | ->]]; reflexivity. }
  intros k Hk. unfold status_history.
  cbn [app omap list_omap written_status initial_row created_row d_id].
  destruct (String.eqb_spec (cuid env (minted w)) k); [congruence |].
  apply Hother. congruence.
Qed.

Lemma design_writes_are_ordered_witness :
  exists resp w' events,
    serve (generateDesign "alice" ex_dto) ex_env ex_world = (Fulfilled resp, w')
    /\ trace w' = trace ex_world ++ events
    /\ lifecycle (status_history (res_id resp) events) = true
    /\ terminal_is_last (status_history (res_id resp) events) = true.
Proof.
  destruct (design_writes_are_ordered ex_env ex_world "alice" ex_dto
              ex_room ex_project) as (Hwrites & _).
  - reflexivity.
  - vm_compute. reflexivity.
  - vm_compute. reflexivity.
  - reflexivity.
  - vm_compute. reflexivity.
  - destruct (Hwrites eq_refl)
      as (resp & w' & events & H1 & _ & H3 & _ & H5 & H6 & _).
    exists resp, w', events. repeat split; assumption.
Defined.

(* ===================================================================== *)
(** ** The error boundary of the detached task                            *)
(* ===================================================================== *)

Lemma onGenerationRejected_found designId error env w d :
  designs (db w) !! designId = Some d ->
  error <> Nullish ->
  patch_ok (patch_FAILED_secondary error) = true ->
  onGenerationRejected designId error env w =
    (Fulfilled tt,
     wrote (insert designId
              (apply_patch (patch_FAILED_secondary error)
                 (clock env (ticks w)) d))
       (EvUpdateDesign designId (patch_FAILED_secondary error))
       (emit (EvLog Error "Design generation processing failed:") w)).
Proof.
  intros Hrow Hne Hok. unfold onGenerationRejected.
  erewrite bind_fulfilled by reflexivity.
  destruct error; try contradiction;
    (apply try_catch_fulfilled;
     erewrite bind_fulfilled
       by (apply prisma_design_update_found; [exact Hrow | exact Hok]);
     reflexivity).
Qed.

Lemma onGenerationRejected_missing designId error env w :
  designs (db w) !! designId = None ->
  error <> Nullish ->
  onGenerationRejected designId error env w =
    (Fulfilled tt,
     emit (EvLog Error "Failed to update design status to FAILED:")
       (emit (EvLog Error "Design generation processing failed:") w)).
Proof.
  intros Hrow Hne. unfold onGenerationRejected.
  erewrite bind_fulfilled by reflexivity.
  destruct error; try contradiction;
    (etrans;
     [ apply try_catch_rejected; apply bind_rejected;
       apply prisma_design_update_missing; exact Hrow
     | reflexivity ]).
Qed.

(** Reading [message] of [undefined]: the handler itself throws. *)
Lemma onGenerationRejected_nullish designId env w :
  onGenerationRejected designId Nullish env w =
    (Rejected cannot_read_message,
     emit (EvLog Error "Design generation processing failed:") w).
Proof. reflexivity. Qed.

Lemma resume_row_missing j env w :
  designs (db w) !! j_designId j = None ->
  processDesignGeneration_resume j env w =
    (Rejected (JsError "Record to update not found."),
     emit (EvLog Error "Design generation processing failed:")
       (emit (EvNow (clock env (ticks w))) (tick w))).
Proof.
  intros Hrow.
  unfold processDesignGeneration_resume, processDesignGeneration_from,
    processing_write.
  etrans.
  { apply try_catch_rejected. apply bind_rejected.
    apply prisma_design_update_missing. exact Hrow. }
  erewrite bind_fulfilled by reflexivity.
  erewrite bind_fulfilled by reflexivity.
  apply bind_rejected. apply prisma_design_update_missing. exact Hrow.
Qed.

Lemma detached_row_missing j env w :
  designs (db w) !! j_designId j = None ->
  detached j env w =
    (Fulfilled tt,
     emit (EvLog Error "Failed to update design status to FAILED:")
       (emit (EvLog Error "Design generation processing failed:")
          (emit (EvLog Error "Design generation processing failed:")
             (emit (EvNow (clock env (ticks w))) (tick w))))).
Proof.
  intros Hrow. unfold detached.
  etrans.
  { apply try_catch_rejected. apply resume_row_missing. exact Hrow. }
  apply onGenerationRejected_missing; [exact Hrow | discriminate].
Qed.

Lemma detached_never_rejects j env w e : fst (detached j env w) <> Rejected e.
Proof.
  destruct (designs (db w) !! j_designId j) as [d0 |] eqn:Hrow.
  - destruct (detached_summary env j w d0 Hrow) as (o & w' & tail & -> & Ho & _).
    apply Ho.
  - rewrite detached_row_missing by exact Hrow. discriminate.
Qed.

(** An update is rejected by the client library only, for one of its two
    reasons. *)
Lemma prisma_design_update_rejection id data env w e w' :
  prisma_design_update id data env w = (Rejected e, w') ->
  w' = w
  /\ (e = value_refused \/ e = JsError "Record to update not found.").
Proof.
  unfold prisma_design_update, bind, get_db.
  destruct (designs (db w) !! id); [destruct (patch_ok data) |];
    cbn; intros [= <- <-]; auto.
Qed.

(** The task's own promise rejects only when the write of its failure path
    is rejected. *)
Lemma resume_rejection j env w e w1 :
  processDesignGeneration_resume j env w = (Rejected e, w1) ->
  e = value_refused \/ e = JsError "Record to update not found.".
Proof.
  unfold processDesignGeneration_resume, processDesignGeneration_from,
    try_catch.
  match goal with
  | |- context [match ?body env w with _ => _ end] =>
      destruct (body env w) as [[a | e0 |] w0]
  end; try discriminate.
  unfold bind at 1. unfold Date_now.
  unfold bind at 1. unfold logger.
  unfold bind.
  match goal with
  | |- context [prisma_design_update ?i ?p ?en ?ww] =>
      destruct (prisma_design_update i p en ww) as [[d | e1 |] w2] eqn:Hu
  end; cbn; try discriminate.
  intros [= <- <-].
  apply prisma_design_update_rejection in Hu. tauto.
Qed.

Lemma value_refused_secondary_ok e :
  e = value_refused \/ e = JsError "Record to update not found." ->
  e <> Nullish
  /\ instanceof_Error e = true
  /\ patch_ok (patch_FAILED_secondary e) = true.
Proof. intros [-> | ->]; repeat split; discriminate. Qed.

(** C7. The detached promise never rejects, so no error of the detached
    portion reaches the request handler or is left unhandled.  When the
    task's own promise rejects, it does so with an error of the client
    library (the write of the failure path was refused, or found no row),
    and the [.catch] handler runs: if the row is in the store, a secondary
    update sets its status to FAILED and its error to the rejection's
    message, or to the generic "Design generation failed" when the message
    is empty, leaving the other columns and every other row as they were;
    if the row is not in the store, that update fails in its turn, the
    failure is only logged and the store is left as it was. *)
Theorem detached_errors_stay_off_the_caller env j w :
  (forall e, fst (detached j env w) <> Rejected e)
  /\ (forall e w1,
        processDesignGeneration_resume j env w = (Rejected e, w1) ->
        instanceof_Error e = true
        /\ exists w2,
             detached j env w = (Fulfilled tt, w2)
             /\ (forall d,
                   designs (db w1) !! j_designId j = Some d ->
                   exists row,
                     designs (db w2) !! j_designId j = Some row
                     /\ d_status row = FAILED
                     /\ d_error row =
                          Some (js_or (message_of e) "Design generation failed")
                     /\ d_imageUrl row = d_imageUrl d
                     /\ d_prompt row = d_prompt d
                     /\ d_processingTime row = d_processingTime d
                     /\ d_metadata row = d_metadata d
                     /\ forall k, k <> j_designId j ->
                          designs (db w2) !! k = designs (db w1) !! k)
             /\ (designs (db w1) !! j_designId j = None ->
                 db w2 = db w1
                 /\ trace w2 =
                      trace w1 ++
                      [EvLog Error "Design generation processing failed:";
                       EvLog Error
                         "Failed to update design status to FAILED:"])).
Proof.
  split; [intros e; apply detached_never_rejects |].
  intros e w1 Hrej.
  destruct (value_refused_secondary_ok e (resume_rejection _ _ _ _ _ Hrej))
    as (Hne & Herr & Hok).
  split; [exact Herr |].
  assert (Hlink : detached j env w = onGenerationRejected (j_designId j) e env w1).
  { unfold detached. now apply try_catch_rejected. }
  destruct (designs (db w1) !! j_designId j) as [d |] eqn:Hrow.
  - eexists. split.
    { rewrite Hlink. apply onGenerationRejected_found; eassumption. }
    split; [| discriminate].
    intros d' [= <-]. eexists.
    split; [cbn; apply lookup_insert_eq |].
    split; [reflexivity |]. split; [reflexivity |]. split; [reflexivity |].
    split; [reflexivity |]. split; [reflexivity |]. split; [reflexivity |].
    intros k Hk. cbn. now rewrite lookup_insert_ne by congruence.
  - eexists. split.
    { rewrite Hlink. apply onGenerationRejected_missing; assumption. }
    split; [discriminate |].
    intros _. split; [reflexivity |].
    cbn. now rewrite <- app_assoc.
Qed.

Lemma detached_errors_witness :
  exists e w1 w2 row,
    processDesignGeneration_resume ex_job_pending ex_env_slow ex_world_pending
    = (Rejected e, w1)
    /\ instanceof_Error e = true
    /\ detached ex_job_pending ex_env_slow ex_world_pending = (Fulfilled tt, w2)
    /\ designs (db w2) !! "dp" = Some row
    /\ d_status row = FAILED
    /\ d_error row = Some (js_or (message_of e) "Design generation failed")
    /\ d_processingTime row = None.
Proof.
  destruct (detached_errors_stay_off_the_caller ex_env_slow ex_job_pending
              ex_world_pending) as (_ & Hcatch).
  destruct (Hcatch value_refused
              (snd (processDesignGeneration_resume ex_job_pending ex_env_slow
                      ex_world_pending)))
    as (He & w2 & Hrun & Hfound & _).
  { vm_compute. reflexivity. }
  destruct (Hfound (apply_patch patch_PROCESSING 5000 ex_design_pending))
    as (row & H1 & H2 & H3 & _ & _ & H6 & _).
  { vm_compute. reflexivity. }
  exists value_refused. eexists. exists w2, row.
  split; [vm_compute; reflexivity |].
  split; [exact He |].
  split; [exact Hrun |]. split; [exact H1 |]. split; [exact H2 |].
  split; [exact H3 | exact H6].
Defined.

(* ===================================================================== *)
(** ** Regeneration                                                       *)
(* ===================================================================== *)

Lemma js_or_empty_fallback s : js_or (Some s) "" = s.
Proof.
  unfold js_or. destruct (String.eqb_spec s ""); [now subst | reflexivity].
Qed.

(** An identifier already in use: the store refuses the row, the call
    fails with the 500 of the method and writes nothing. *)
Lemma generateDesign_id_clash env w userId designData r p x :
  rooms (db w) !! dto_roomId designData = Some r ->
  projects (db w) !! r_projectId r = Some p ->
  p_userId p = userId ->
  designs (db w) !! cuid env (minted w) = Some x ->
  generateDesign userId designData env w =
    (Rejected (AppError "Failed to initiate design generation" 500
                 "DESIGN_GENERATION_ERROR"),
     {| db := db w; ticks := ticks w; minted := S (minted w);
        spawned := spawned w;
        trace := trace w ++
                 [EvLog Error "Design generation initiation failed:"] |}).
Proof.
  intros Hr Hp Hown Hclash. unfold generateDesign.
  etrans.
  { apply try_catch_rejected.
    erewrite bind_fulfilled
      by (eapply prisma_room_findUnique_found; eassumption).
    cbn [rp_project]. rewrite Hown, String.eqb_refl. cbn [negb].
    apply bind_rejected.
    unfold prisma_design_create, bind, draw_cuid, get_db. cbn [db].
    rewrite Hclash. reflexivity. }
  reflexivity.
Qed.

Section Regeneration.
Variables (env : Env) (w : World) (designId userId : string).
Variables (options : option RegenerateOptions).
Variables (original : Design) (r : Room) (p : Project).
Hypothesis design_found : designs (db w) !! designId = Some original.
Hypothesis room_found : rooms (db w) !! d_roomId original = Some r.
Hypothesis project_found : projects (db w) !! r_projectId r = Some p.
Hypothesis owner : p_userId p = userId.

Let room := {| rp_room := r; rp_project := p |}.
Let request := regeneration_request options original.
Let prompt := js_or (options ≫= opt_customPrompt) (d_prompt original).
Let aiProvider := js_or (options ≫= opt_aiProvider) (d_aiProvider original).

Lemma regeneration_request_prompt :
  js_or (dto_customPrompt request) "" = prompt.
Proof. apply js_or_empty_fallback. Qed.

Lemma regeneration_request_provider :
  default "replicate" (dto_aiProvider request) = aiProvider.
Proof. reflexivity. Qed.

Lemma regenerateDesign_authorized :
  designs (db w) !! cuid env (minted w) = None ->
  text_ok prompt = true ->
  text_ok aiProvider = true ->
  regenerateDesign designId userId options env w =
    (Fulfilled (formatDesignResponse (initial_row env w request) None false),
     emit (EvLog Info "Design regenerated successfully")
       (world_initiated env w request room)).
Proof.
  intros fresh Hpr Hpv.
  unfold regenerateDesign.
  apply try_catch_fulfilled.
  erewrite bind_fulfilled
    by (eapply prisma_design_findUnique_found; eassumption).
  cbn [dr_room dr_design rp_project]. rewrite owner, String.eqb_refl.
  cbn [negb].
  erewrite bind_fulfilled
    by (apply (generateDesign_authorized env w userId request r p);
        [assumption | assumption | assumption | assumption
        | rewrite regeneration_request_prompt; exact Hpr
        | exact Hpv]).
  erewrite bind_fulfilled by reflexivity.
  reflexivity.
Qed.

(** When [generateDesign] fails with its 500, so does the regeneration,
    with the same error. *)
Lemma regenerateDesign_not_created w1 :
  generateDesign userId request env w =
    (Rejected (AppError "Failed to initiate design generation" 500
                 "DESIGN_GENERATION_ERROR"), w1) ->
  regenerateDesign designId userId options env w =
    (Rejected (AppError "Failed to initiate design generation" 500
                 "DESIGN_GENERATION_ERROR"),
     emit (EvLog Error "Design regeneration failed:") w1).
Proof.
  intros Hgen. unfold regenerateDesign.
  etrans.
  { apply try_catch_rejected.
    erewrite bind_fulfilled
      by (eapply prisma_design_findUnique_found; eassumption).
    cbn [dr_room dr_design rp_project]. rewrite owner, String.eqb_refl.
    cbn [negb].
    apply bind_rejected. exact Hgen. }
  reflexivity.
Qed.

Lemma regenerated_row :
  designs
    (db (no_spawned
           (emit (EvLog Info "Design regenerated successfully")
              (world_initiated env w request room))))
    !! j_designId (initial_job env w request room)
  = Some (initial_row env w request).
Proof. cbn. apply lookup_insert_eq. Qed.

Lemma fresh_id_differs :
  designs (db w) !! cuid env (minted w) = None -> cuid env (minted w) <> designId.
Proof. intros fresh E. rewrite E in fresh. congruence. Qed.

(** The regeneration served to the end, when the store accepts the row. *)
Lemma serve_regenerateDesign :
  spawned w = [] ->
  designs (db w) !! cuid env (minted w) = None ->
  text_ok prompt = true ->
  text_ok aiProvider = true ->
  serve (regenerateDesign designId userId options) env w =
    (Fulfilled (formatDesignResponse (initial_row env w request) None false),
     snd (detached (initial_job env w request room) env
            (no_spawned
               (emit (EvLog Info "Design regenerated successfully")
                  (world_initiated env w request room))))).
Proof.
  intros Hq fresh Hpr Hpv. unfold serve.
  rewrite (regenerateDesign_authorized fresh Hpr Hpv).
  unfold event_loop. cbn [emit world_initiated spawned]. rewrite Hq.
  reflexivity.
Qed.

(** Whatever becomes of the regeneration, the original row stays. *)
Lemma regenerateDesign_keeps_the_original :
  spawned w = [] ->
  designs (db (snd (serve (regenerateDesign designId userId options) env w)))
    !! designId = Some original.
Proof.
  intros Hq.
  destruct (designs (db w) !! cuid env (minted w)) as [x |] eqn:Hfresh.
  { unfold serve.
    rewrite (regenerateDesign_not_created _
               (generateDesign_id_clash env w userId request r p x
                  room_found project_found owner Hfresh)).
    unfold event_loop. cbn [emit spawned]. rewrite Hq. exact design_found. }
  destruct (text_ok prompt && text_ok aiProvider) eqn:Hok.
  - apply andb_prop in Hok as [Hpr Hpv].
    rewrite (serve_regenerateDesign Hq Hfresh Hpr Hpv). cbn [snd].
    destruct (detached_summary env _ _ _ regenerated_row)
      as (o & w' & tail & Hrun & _ & _ & _ & _ & _ & Hframe & _).
    rewrite Hrun. cbn [snd].
    cbn [initial_job j_designId] in Hframe.
    rewrite Hframe by (intros E; symmetry in E; revert E;
                       apply fresh_id_differs; exact Hfresh).
    cbn. rewrite lookup_insert_ne by (apply fresh_id_differs; exact Hfresh).
    exact design_found.
  - unfold serve.
    rewrite (regenerateDesign_not_created _
               (generateDesign_value_refused env w userId request r p
                  room_found project_found owner Hfresh
                  ltac:(rewrite regeneration_request_prompt; exact Hok))).
    unfold event_loop. cbn [emit spawned]. rewrite Hq. exact design_found.
Qed.
End Regeneration.

(** C8, as the code has it.  For every regenerate call by the owning user
    on an existing Design, served to the end, every field of the original
    row is left as it was, whatever becomes of the call.  When the store
    accepts the new row (the identifier drawn for it is unused, and neither
    the prompt nor the provider selector of the new generation holds the
    character U+0000), the result is a new Design row, with an id different
    from the original's and the same roomId; no write of the run touches
    the original; and the provider is called once, with the room of the
    original and, absent overrides, the original's prompt and provider. *)
Theorem regenerateDesign_creates_a_sibling
  env w designId userId options original r p :
  spawned w = [] ->
  designs (db w) !! designId = Some original ->
  rooms (db w) !! d_roomId original = Some r ->
  projects (db w) !! r_projectId r = Some p ->
  p_userId p = userId ->
  let prompt := js_or (options ≫= opt_customPrompt) (d_prompt original) in
  let aiProvider := js_or (options ≫= opt_aiProvider) (d_aiProvider original) in
  designs (db (snd (serve (regenerateDesign designId userId options) env w)))
    !! designId = Some original
  /\ (designs (db w) !! cuid env (minted w) = None ->
      text_ok prompt = true ->
      text_ok aiProvider = true ->
      exists resp w' events row,
        serve (regenerateDesign designId userId options) env w =
          (Fulfilled resp, w')
        /\ res_id resp = cuid env (minted w)
        /\ res_id resp <> designId
        /\ res_roomId resp = d_roomId original
        /\ res_status resp = PENDING
        /\ designs (db w') !! res_id resp = Some row
        /\ d_id row = res_id resp
        /\ d_roomId row = d_roomId original
        /\ designs (db w') !! designId = Some original
        /\ trace w' = trace w ++ events
        /\ status_history designId events = []
        /\ provider_calls events =
             [EvGenerate
                {| pd_roomType := r_type r; pd_style := p_style p;
                   pd_length := r_length r; pd_width := r_width r;
                   pd_height := r_height r; pd_materials := r_materials r;
                   pd_ambientColor := r_ambientColor r;
                   pd_customPrompt := Some prompt |}
                {| ao_provider := aiProvider;
                   ao_inputImageUrl := r_originalImageUrl r |}]
        /\ res_prompt resp = prompt
        /\ res_aiProvider resp = aiProvider
        /\ d_aiProvider row = aiProvider
        /\ (options ≫= opt_customPrompt = None ->
            options ≫= opt_aiProvider = None ->
            res_prompt resp = d_prompt original
            /\ res_aiProvider resp = d_aiProvider original
            /\ provider_calls events =
                 [EvGenerate
                    {| pd_roomType := r_type r; pd_style := p_style p;
                       pd_length := r_length r; pd_width := r_width r;
                       pd_height := r_height r; pd_materials := r_materials r;
                       pd_ambientColor := r_ambientColor r;
                       pd_customPrompt := Some (d_prompt original) |}
                    {| ao_provider := d_aiProvider original;
                       ao_inputImageUrl := r_originalImageUrl r |}])).
Proof.
  intros Hq Hd Hr Hp Hown prompt aiProvider.
  split.
  { apply (regenerateDesign_keeps_the_original env w designId userId options
             original r p Hd Hr Hp Hown Hq). }
  intros Hfresh Hpr Hpv.
  pose proof (fresh_id_differs env w designId original Hd Hfresh) as Hne.
  destruct (detached_summary env _ _ _
              (regenerated_row env w options original r p))
    as (o & w' & tail & Hrun & _ & Htrace & _ & Hother & Hcalls & Hframe
        & (row & Hrow & Hid & Hroom & Hprov) & _).
  cbn [initial_job j_designId j_room j_customPrompt j_aiProvider]
    in Htrace, Hother, Hframe, Hrow.
  exists (formatDesignResponse
            (initial_row env w (regeneration_request options original))
            None false), w'.
  exists ([EvCreateDesign
             (initial_row env w (regeneration_request options original));
           EvNow (clock env (S (ticks w)));
           EvLog Info "Design generation initiated";
           EvLog Info "Design regenerated successfully"] ++
          EvUpdateDesign (cuid env (minted w)) patch_PROCESSING
          :: EvGenerate
               (promptData_of {| rp_room := r; rp_project := p |}
                  (dto_customPrompt (regeneration_request options original)))
               (options_of {| rp_room := r; rp_project := p |}
                  (default "replicate"
                     (dto_aiProvider (regeneration_request options original))))
          :: tail).
  exists row.
  assert (Hresp_prompt :
    res_prompt (formatDesignResponse
                  (initial_row env w (regeneration_request options original))
                  None false) = prompt).
  { change (res_prompt _) with
      (js_or (Some (js_or (options ≫= opt_customPrompt) (d_prompt original))) "").
    apply js_or_empty_fallback. }
  assert (Hcall :
    provider_calls
      ([EvCreateDesign
          (initial_row env w (regeneration_request options original));
        EvNow (clock env (S (ticks w)));
        EvLog Info "Design generation initiated";
        EvLog Info "Design regenerated successfully"] ++
       EvUpdateDesign (cuid env (minted w)) patch_PROCESSING
       :: EvGenerate
            (promptData_of {| rp_room := r; rp_project := p |}
               (dto_customPrompt (regeneration_request options original)))
            (options_of {| rp_room := r; rp_project := p |}
               (default "replicate"
                  (dto_aiProvider (regeneration_request options original))))
       :: tail)
    = [EvGenerate
         {| pd_roomType := r_type r; pd_style := p_style p;
            pd_length := r_length r; pd_width := r_width r;
            pd_height := r_height r; pd_materials := r_materials r;
            pd_ambientColor := r_ambientColor r;
            pd_customPrompt := Some prompt |}
         {| ao_provider := aiProvider;
            ao_inputImageUrl := r_originalImageUrl r |}]).
  { rewrite provider_calls_app.
    cbn [provider_calls List.filter is_provider_call app].
    fold (provider_calls tail). rewrite Hcalls. reflexivity. }
  split.
  { rewrite (serve_regenerateDesign env w designId userId options original r p
               Hd Hr Hp Hown Hq Hfresh Hpr Hpv).
    rewrite Hrun. reflexivity. }
  split; [reflexivity |].
  split; [exact Hne |].
  split; [reflexivity |].
  split; [reflexivity |].
  split; [exact Hrow |].
  split; [rewrite Hid; reflexivity |].
  split; [rewrite Hroom; reflexivity |].
  split.
  { rewrite Hframe by congruence. cbn.
    rewrite lookup_insert_ne by exact Hne. exact Hd. }
  split.
  { rewrite Htrace. cbn [no_spawned emit world_initiated trace].
    rewrite <- !app_assoc. reflexivity. }
  split.
  { rewrite status_history_app. unfold status_history at 2.
    cbn [omap list_omap]. rewrite written_status_update_other by congruence.
    cbn [written_status]. fold (status_history designId tail).
    rewrite Hother by congruence.
    unfold status_history.
    cbn [omap list_omap written_status initial_row created_row d_id].
    destruct (String.eqb_spec (cuid env (minted w)) designId);
      [contradiction | reflexivity]. }
  split; [exact Hcall |].
  split; [exact Hresp_prompt |].
  split; [reflexivity |].
  split; [rewrite Hprov; reflexivity |].
  intros Hcp Hap.
  assert (Ep : prompt = d_prompt original).
  { unfold prompt. rewrite Hcp. reflexivity. }
  assert (Ea : aiProvider = d_aiProvider original).
  { unfold aiProvider. rewrite Hap. reflexivity. }
  split; [rewrite Hresp_prompt; exact Ep |].
  split; [exact Ea |].
  rewrite Hcall, Ep, Ea. reflexivity.
Qed.

Lemma regenerateDesign_sibling_witness :
  exists resp w' row,
    serve (regenerateDesign "d0" "alice" None) ex_env ex_world =
      (Fulfilled resp, w')
    /\ res_id resp = "d1"
    /\ res_roomId resp = "r1"
    /\ designs (db w') !! "d1" = Some row
    /\ designs (db w') !! "d0" = Some ex_design
    /\ res_prompt resp = "A Scandinavian bedroom in wood"
    /\ res_aiProvider resp = "openai".
Proof.
  destruct (regenerateDesign_creates_a_sibling ex_env ex_world "d0" "alice"
              None ex_design ex_room ex_project) as (_ & Hnew).
  - reflexivity.
  - vm_compute. reflexivity.
  - vm_compute. reflexivity.
  - vm_compute. reflexivity.
  - reflexivity.
  - destruct Hnew
      as (resp & w' & events & row & H1 & H2 & _ & H4 & _ & H6 & _ & _ & H9
          & _ & _ & _ & H13 & H14 & _).
    + vm_compute. reflexivity.
    + reflexivity.
    + reflexivity.
    + exists resp, w', row.
      split; [exact H1 |]. split; [exact H2 |]. split; [exact H4 |].
      split; [rewrite H2 in H6; exact H6 |]. split; [exact H9 |].
      split; [exact H13 | exact H14].
Defined.

(** C8 as stated fails.  alice regenerates her design "d0" with a prompt
    override that holds the character U+0000: the identifier drawn is
    unused, but a text column cannot hold the prompt, so the call fails
    with a 500 and no new Design row exists afterwards. *)
Lemma regenerateDesign_refuses_an_override_with_NUL :
  designs (db ex_world) !! "d0" = Some ex_design
  /\ rooms (db ex_world) !! d_roomId ex_design = Some ex_room
  /\ projects (db ex_world) !! r_projectId ex_room = Some ex_project
  /\ p_userId ex_project = "alice"
  /\ designs (db ex_world) !! cuid ex_env (minted ex_world) = None
  /\ exists w',
       serve (regenerateDesign "d0" "alice" (Some ex_options_nul))
         ex_env ex_world
       = (Rejected (AppError "Failed to initiate design generation" 500
                      "DESIGN_GENERATION_ERROR"), w')
       /\ designs (db w') = designs (db ex_world).
Proof.
  split; [vm_compute; reflexivity |].
  split; [vm_compute; reflexivity |].
  split; [vm_compute; reflexivity |].
  split; [reflexivity |].
  split; [vm_compute; reflexivity |].
  eexists. split; [vm_compute; reflexivity | reflexivity].
Qed.

(** C10.  [regenerateDesign] treats an empty-string prompt override as
    absent.  For every design and owning user, a call whose customPrompt
    override is "" or missing (the store accepting the new row) creates the
    new row with the original design's stored prompt, returns it, leaves a
    task running whose custom prompt is that stored prompt, and the
    provider is called with it; the call with "" is in every world the very
    call made without a customPrompt.  Likewise an aiProvider override that
    is missing or "" falls back to the original design's provider, for the
    row, the task and the provider call. *)
Theorem regenerateDesign_empty_override_is_absent
  env w designId userId options original r p :
  spawned w = [] ->
  designs (db w) !! designId = Some original ->
  rooms (db w) !! d_roomId original = Some r ->
  projects (db w) !! r_projectId r = Some p ->
  p_userId p = userId ->
  designs (db w) !! cuid env (minted w) = None ->
  (forall s, options ≫= opt_customPrompt = Some s -> s = "") ->
  let aiProvider := js_or (options ≫= opt_aiProvider) (d_aiProvider original) in
  text_ok (d_prompt original) = true ->
  text_ok aiProvider = true ->
  exists resp w' row job,
    regenerateDesign designId userId options env w = (Fulfilled resp, w')
    /\ res_prompt resp = d_prompt original
    /\ res_aiProvider resp = aiProvider
    /\ designs (db w') !! res_id resp = Some row
    /\ d_prompt row = d_prompt original
    /\ d_aiProvider row = aiProvider
    /\ spawned w' = [job]
    /\ j_designId job = res_id resp
    /\ j_customPrompt job = Some (d_prompt original)
    /\ j_aiProvider job = aiProvider
    /\ provider_calls (trace (event_loop env w')) =
         provider_calls (trace w) ++
         [EvGenerate
            {| pd_roomType := r_type r; pd_style := p_style p;
               pd_length := r_length r; pd_width := r_width r;
               pd_height := r_height r; pd_materials := r_materials r;
               pd_ambientColor := r_ambientColor r;
               pd_customPrompt := Some (d_prompt original) |}
            {| ao_provider := aiProvider;
               ao_inputImageUrl := r_originalImageUrl r |}]
    /\ ((forall s, options ≫= opt_aiProvider = Some s -> s = "") ->
        aiProvider = d_aiProvider original)
    /\ (forall ap,
          regenerateDesign designId userId
            (Some {| opt_aiProvider := ap; opt_customPrompt := Some "" |})
            env w
          = regenerateDesign designId userId
              (Some {| opt_aiProvider := ap; opt_customPrompt := None |})
              env w).
Proof.
  intros Hq Hd Hr Hp Hown Hfresh Hcp aiProvider Hpr Hpv.
  assert (Eprompt :
    js_or (options ≫= opt_customPrompt) (d_prompt original)
    = d_prompt original).
  { destruct (options ≫= opt_customPrompt) as [s |] eqn:E; [| reflexivity].
    rewrite (Hcp s eq_refl). reflexivity. }
  assert (Hpr' :
    text_ok (js_or (options ≫= opt_customPrompt) (d_prompt original)) = true).
  { rewrite Eprompt. exact Hpr. }
  pose proof (regenerateDesign_authorized env w designId userId options
                original r p Hd Hr Hp Hown Hfresh Hpr' Hpv) as Hrun.
  destruct (detached_summary env _ _ _
              (regenerated_row env w options original r p))
    as (o & w2 & tail & Hdet & _ & Htrace & _ & _ & Hcalls & _).
  cbn [initial_job j_designId j_room j_customPrompt j_aiProvider] in Htrace.
  eexists. eexists.
  exists (initial_row env w (regeneration_request options original)).
  exists (initial_job env w (regeneration_request options original)
            {| rp_room := r; rp_project := p |}).
  split; [exact Hrun |].
  assert (Hresp :
    res_prompt (formatDesignResponse
                  (initial_row env w (regeneration_request options original))
                  None false) = d_prompt original).
  { change (res_prompt _) with
      (js_or (Some (js_or (options ≫= opt_customPrompt) (d_prompt original))) "").
    rewrite js_or_empty_fallback. exact Eprompt. }
  split; [exact Hresp |].
  split; [reflexivity |].
  split; [cbn; apply lookup_insert_eq |].
  split; [exact Hresp |].
  split; [reflexivity |].
  split; [cbn [emit world_initiated spawned]; rewrite Hq; reflexivity |].
  split; [reflexivity |].
  split; [cbn [initial_job j_customPrompt regeneration_request
               dto_customPrompt]; rewrite Eprompt; reflexivity |].
  split; [reflexivity |].
  split.
  { unfold event_loop. cbn [emit world_initiated spawned]. rewrite Hq.
    cbn [app fold_left].
    change (no_spawned _) with
      (no_spawned
         (emit (EvLog Info "Design regenerated successfully")
            (world_initiated env w (regeneration_request options original)
               {| rp_room := r; rp_project := p |}))).
    rewrite Hdet. cbn [snd]. rewrite Htrace.
    cbn [no_spawned emit world_initiated trace].
    rewrite !provider_calls_app.
    cbn [provider_calls List.filter is_provider_call app].
    fold (provider_calls tail). rewrite Hcalls, !app_nil_r.
    cbn [regeneration_request dto_customPrompt dto_aiProvider default
         promptData_of options_of rp_room rp_project].
    rewrite Eprompt. reflexivity. }
  split.
  { intros Hap. unfold aiProvider.
    destruct (options ≫= opt_aiProvider) as [s |] eqn:E; [| reflexivity].
    rewrite (Hap s eq_refl). reflexivity. }
  intros ap. reflexivity.
Qed.

Lemma regenerateDesign_empty_override_witness :
  exists resp w' job,
    regenerateDesign "d0" "alice" (Some ex_options_empty) ex_env ex_world
    = (Fulfilled resp, w')
    /\ res_prompt resp = "A Scandinavian bedroom in wood"
    /\ res_aiProvider resp = "openai"
    /\ spawned w' = [job]
    /\ j_customPrompt job = Some "A Scandinavian bedroom in wood"
    /\ j_aiProvider job = "openai".
Proof.
  destruct (regenerateDesign_empty_override_is_absent ex_env ex_world "d0"
              "alice" (Some ex_options_empty) ex_design ex_room ex_project)
    as (resp & w' & row & job & H1 & H2 & H3 & _ & _ & _ & H7 & _ & H9 & H10
        & _).
  - reflexivity.
  - vm_compute. reflexivity.
  - vm_compute. reflexivity.
  - vm_compute. reflexivity.
  - reflexivity.
  - vm_compute. reflexivity.
  - intros s [= <-]. reflexivity.
  - reflexivity.
  - reflexivity.
  - exists resp, w', job.
    split; [exact H1 |]. split; [exact H2 |]. split; [exact H3 |].
    split; [exact H7 |]. split; [exact H9 | exact H10].
Defined.

(* ===================================================================== *)
(** ** The authorization gate                                             *)
(* ===================================================================== *)

(** A gated method whose first read is solved by [found] refuses: the
    ownership test is decided with the hypothesis that the owner differs. *)
Ltac refuses found :=
  etrans;
  [ apply try_catch_rejected;
    erewrite bind_fulfilled by found;
    cbn [dr_room rp_project ur_room upload_owner_differs];
    match goal with
    | |- context [String.eqb ?a ?b] =>
        destruct (String.eqb_spec a b); [contradiction |]
    end;
    reflexivity
  | reflexivity ].

(** The design operations walk design -> room -> project -> userId and
    refuse a requester who is not the owner, before any effect. *)
Section DesignGate.
Variables (env : Env) (w : World) (designId userId : string).
Variables (d : Design) (r : Room) (p : Project).
Hypothesis design_found : designs (db w) !! designId = Some d.
Hypothesis room_found : rooms (db w) !! d_roomId d = Some r.
Hypothesis project_found : projects (db w) !! r_projectId r = Some p.
Hypothesis not_owner : p_userId p <> userId.

Lemma getDesignById_gate :
  getDesignById designId userId env w =
    (Rejected (ACCESS_DENIED
       "Access denied. You can only view your own designs."),
     emit (EvLog Error "Get design by ID failed:") w).
Proof.
  unfold getDesignById.
  refuses ltac:(eapply prisma_design_findUnique_found; eassumption).
Qed.

Lemma deleteDesign_gate :
  deleteDesign designId userId env w =
    (Rejected (ACCESS_DENIED
       "Access denied. You can only delete your own designs."),
     emit (EvLog Error "Design deletion failed:") w).
Proof.
  unfold deleteDesign.
  refuses ltac:(eapply prisma_design_findUnique_found; eassumption).
Qed.

Lemma regenerateDesign_gate options :
  regenerateDesign designId userId options env w =
    (Rejected (ACCESS_DENIED
       "Access denied. You can only regenerate your own designs."),
     emit (EvLog Error "Design regeneration failed:") w).
Proof.
  unfold regenerateDesign.
  refuses ltac:(eapply prisma_design_findUnique_found; eassumption).
Qed.
End DesignGate.

(** The upload operations: [deleteUpload] is gated, [getUploadById] is not. *)
Section UploadGate.
Variables (env : Env) (w : World) (uploadId : string).
Variables (u : Upload) (roomId : string) (r : Room) (p : Project).
Hypothesis upload_found : uploads (db w) !! uploadId = Some u.
Hypothesis upload_room : u_roomId u = Some roomId.
Hypothesis room_found : rooms (db w) !! roomId = Some r.
Hypothesis project_found : projects (db w) !! r_projectId r = Some p.

Lemma prisma_upload_findUnique_found :
  prisma_upload_findUnique uploadId env w =
    (Fulfilled
       (Some {| ur_upload := u;
                ur_room := Some {| rp_room := r; rp_project := p |} |}), w).
Proof.
  unfold prisma_upload_findUnique, join_project.
  rewrite upload_found, upload_room. cbn [mbind option_bind].
  now rewrite room_found, project_found.
Qed.

Lemma deleteUpload_gate userId :
  p_userId p <> userId ->
  deleteUpload uploadId userId env w =
    (Rejected (ACCESS_DENIED
       "Access denied. You can only delete your own uploads."),
     emit (EvLog Error "Delete upload failed:") w).
Proof.
  intros not_owner. unfold deleteUpload.
  refuses ltac:(apply prisma_upload_findUnique_found).
Qed.

Lemma getUploadById_found :
  exists resp,
    getUploadById uploadId env w = (Fulfilled resp, w)
    /\ ures_id resp = u_id u
    /\ ures_url resp = u_url u
    /\ ures_cloudinaryId resp = u_cloudinaryId u
    /\ ures_metadata resp = u_metadata u
    /\ ures_room resp =
         Some (upload_room_view {| rp_room := r; rp_project := p |}).
Proof.
  eexists. split.
  { unfold getUploadById. apply try_catch_fulfilled.
    erewrite bind_fulfilled by (apply prisma_upload_findUnique_found).
    reflexivity. }
  repeat split; reflexivity.
Qed.
End UploadGate.

(** C1, at the upload read.  The upload "up1" belongs to a room of alice's
    project.  bob is refused the design of that room and the deletion of the
    upload, but [getUploadById], which receives no user id and makes no
    ownership check, returns the upload in full, its URL, its storage id
    and the owner's user id included, to whoever asks. *)
Theorem getUploadById_is_not_gated :
  fst (getDesignById "d0" "bob" ex_env ex_world) =
    Rejected (AppError "Access denied. You can only view your own designs."
                403 "ACCESS_DENIED")
  /\ fst (deleteUpload "up1" "bob" ex_env ex_world) =
       Rejected (AppError "Access denied. You can only delete your own uploads."
                   403 "ACCESS_DENIED")
  /\ exists resp,
       getUploadById "up1" ex_env ex_world = (Fulfilled resp, ex_world)
       /\ ures_url resp = "https://img.example/room.jpg"
       /\ ures_cloudinaryId resp = Some "interior-design/room-images/room_1"
       /\ urv_project_userId <$> ures_room resp = Some "alice".
Proof.
  split; [vm_compute; reflexivity |].
  split; [vm_compute; reflexivity |].
  eexists. split; [vm_compute; reflexivity |].
  repeat split; reflexivity.
Qed.

(* ===================================================================== *)
(** ** The scenario, run                                                  *)
(* ===================================================================== *)

(** The provider returns ["u1"; "u2"], prompt "p" and metadata {m: 1}. *)
Example scenario_completed :
  (res_status <$>
     match fst (serve (generateDesign "alice" ex_dto) ex_env ex_world) with
     | Fulfilled resp => Some resp
     | _ => None
     end) = Some PENDING
  /\ match designs
            (db (snd (serve (generateDesign "alice" ex_dto) ex_env ex_world)))
            !! "d1" with
     | Some row =>
         d_roomId row = "r1" /\ d_imageUrl row = "u1" /\ d_prompt row = "p"
         /\ d_aiProvider row = "replicate" /\ d_status row = COMPLETED
         /\ match d_metadata row with
            | Some (JObj md) =>
                obj_get "m" md = Some (JNum 1)
                /\ obj_get "allImageUrls" md
                   = Some (JArr [JStr "u1"; JStr "u2"])
            | _ => False
            end
         /\ d_processingTime row = Some 20 /\ d_error row = None
         /\ d_createdAt row = 5000 /\ d_updatedAt row = 5040
     | None => False
     end.
Proof. vm_compute. repeat split; reflexivity. Qed.

(** The provider throws [Error("boom")]. *)
Example scenario_failed :
  designs (db (snd (serve (generateDesign "alice" ex_dto) ex_env_boom ex_world)))
    !! "d1"
  = Some {| d_id := "d1"; d_roomId := "r1"; d_imageUrl := "";
            d_prompt := ""; d_aiProvider := "replicate"; d_status := FAILED;
            d_metadata := None; d_processingTime := Some 20;
            d_error := Some "boom";
            d_createdAt := 5000; d_updatedAt := 5040 |}.
Proof. vm_compute. reflexivity. Qed.

(** The provider never settles: the caller has its answer all the same, and
    the row stays in PROCESSING. *)
Example scenario_hung :
  (res_status <$>
     match fst (serve (generateDesign "alice" ex_dto) ex_env_hung ex_world) with
     | Fulfilled resp => Some resp
     | _ => None
     end) = Some PENDING
  /\ d_status <$>
       designs (db (snd (serve (generateDesign "alice" ex_dto) ex_env_hung
                           ex_world))) !! "d1"
     = Some PROCESSING.
Proof. vm_compute. split; reflexivity. Qed.

(** A user who deletes a design while its task is still to run: the task
    finds no row, its promise rejects, the secondary update fails as well,
    and the only trace left is in the log. *)
Example scenario_deleted_meanwhile :
  detached ex_job_gone ex_env ex_world =
    (Fulfilled tt,
     {| db := ex_db; ticks := 1; minted := 0; spawned := [];
        trace :=
          [EvNow 5000;
           EvLog Error "Design generation processing failed:";
           EvLog Error "Design generation processing failed:";
           EvLog Error "Failed to update design status to FAILED:"] |}).
Proof. vm_compute. reflexivity. Qed.

(* ===================================================================== *)
(** ** Listings                                                           *)
(* ===================================================================== *)

Section Ordering.
Context {A : Type} (key : A -> Z).

Lemma insert_desc_Permutation x l : insert_desc key x l ≡ₚ x :: l.
Proof.
  induction l as [| y l IH]; cbn; [reflexivity |].
  destruct (key y <? key x); [reflexivity |].
  rewrite IH. apply Permutation_swap.
Qed.

Lemma orderBy_desc_Permutation l : orderBy_desc key l ≡ₚ l.
Proof.
  induction l as [| x l IH]; cbn; [reflexivity |].
  rewrite insert_desc_Permutation. now rewrite IH.
Qed.

Lemma insert_desc_sorted x l :
  StronglySorted (fun a b => key b <= key a) l ->
  StronglySorted (fun a b => key b <= key a) (insert_desc key x l).
Proof.
  induction 1 as [| y l Hs IH Hall]; cbn.
  - repeat constructor.
  - destruct (Z.ltb_spec (key y) (key x)) as [Hlt | Hge].
    + constructor; [constructor; assumption |].
      constructor; [lia |].
      eapply Forall_impl; [exact Hall |]. cbn. intros; lia.
    + constructor; [exact IH |].
      rewrite insert_desc_Permutation. constructor; assumption.
Qed.

Lemma orderBy_desc_sorted l :
  StronglySorted (fun a b => key b <= key a) (orderBy_desc key l).
Proof.
  induction l as [| x l IH]; cbn; [constructor |].
  now apply insert_desc_sorted.
Qed.

Lemma orderBy_desc_In x l : In x (orderBy_desc key l) <-> In x l.
Proof.
  rewrite <- !list_elem_of_In. now rewrite orderBy_desc_Permutation.
Qed.

Lemma orderBy_desc_length l : length (orderBy_desc key l) = length l.
Proof. now rewrite orderBy_desc_Permutation. Qed.
End Ordering.

Lemma In_rows {A} (t : gmap string A) (x : A) :
  In x (rows t) <-> exists k, t !! k = Some x.
Proof.
  unfold rows. rewrite <- list_elem_of_In, list_elem_of_fmap. split.
  - intros [[k y] [-> Hin]]. exists k. now apply elem_of_map_to_list.
  - intros [k Hk]. exists (k, x). split; [reflexivity |].
    now apply elem_of_map_to_list.
Qed.

Lemma StronglySorted_map {A B} (f : A -> B) (R : B -> B -> Prop) l :
  StronglySorted (fun a b => R (f a) (f b)) l ->
  StronglySorted R (List.map f l).
Proof.
  induction 1 as [| x l Hs IH Hall]; cbn; constructor; [exact IH |].
  apply Forall_forall. intros y Hy.
  apply list_elem_of_In, in_map_iff in Hy. destruct Hy as (a & <- & Ha).
  rewrite Forall_forall in Hall. apply Hall. now apply list_elem_of_In.
Qed.

(** X1. The owner of a room gets the designs of that room, all of them and no
    other, as rows without room details, the most recently created first;
    the store is only read. *)
Theorem getRoomDesigns_lists_the_room env w roomId userId r p :
  rooms (db w) !! roomId = Some r ->
  projects (db w) !! r_projectId r = Some p ->
  p_userId p = userId ->
  exists resps,
    getRoomDesigns roomId userId env w = (Fulfilled resps, w)
    /\ (forall resp, In resp resps ->
          res_roomId resp = roomId /\ res_room resp = None
          /\ exists k d, designs (db w) !! k = Some d
                         /\ resp = formatDesignResponse d None false)
    /\ (forall k d, designs (db w) !! k = Some d -> d_roomId d = roomId ->
          In (formatDesignResponse d None false) resps)
    /\ StronglySorted
         (fun a b => iso_ms (res_createdAt b) <= iso_ms (res_createdAt a))
         resps.
Proof.
  intros Hr Hp Hown. eexists. split.
  { unfold getRoomDesigns. apply try_catch_fulfilled.
    erewrite bind_fulfilled
      by (eapply prisma_room_findUnique_found; eassumption).
    cbn [rp_project]. rewrite Hown, String.eqb_refl. cbn [negb].
    erewrite bind_fulfilled by reflexivity. reflexivity. }
  split.
  { intros resp Hin. apply in_map_iff in Hin. destruct Hin as (d & <- & Hd).
    apply orderBy_desc_In, filter_In in Hd. destruct Hd as [Hd Hroom].
    apply String.eqb_eq in Hroom. apply In_rows in Hd. destruct Hd as [k Hk].
    split; [exact Hroom |]. split; [reflexivity |]. eauto. }
  split.
  { intros k d Hk Hroom.
    apply (in_map (fun design => formatDesignResponse design None false)).
    apply orderBy_desc_In, filter_In.
    split; [apply In_rows; eauto | now apply String.eqb_eq]. }
  apply StronglySorted_map. cbn. apply orderBy_desc_sorted.
Qed.

Lemma getRoomDesigns_witness :
  exists resps,
    getRoomDesigns "r1" "alice" ex_env ex2_world = (Fulfilled resps, ex2_world)
    /\ List.map res_id resps = ["da"; "d0"].
Proof.
  destruct (getRoomDesigns_lists_the_room ex_env ex2_world "r1" "alice"
              ex_room ex_project) as (resps & Hrun & _).
  - vm_compute. reflexivity.
  - vm_compute. reflexivity.
  - reflexivity.
  - exists resps. split; [exact Hrun |].
    assert (E : getRoomDesigns "r1" "alice" ex_env ex2_world =
                (Fulfilled
                   [formatDesignResponse ex2_design_a None false;
                    formatDesignResponse ex_design None false], ex2_world)).
    { vm_compute. reflexivity. }
    rewrite E in Hrun. injection Hrun as <-. reflexivity.
Defined.

Lemma skip_take_In {A} skip take (l page : list A) x :
  skip_take skip take l = Fulfilled page -> In x page -> In x l.
Proof.
  unfold skip_take.
  destruct (negb (int64_ok skip && int64_ok take)); [discriminate |].
  destruct (skip <? 0); [discriminate |].
  destruct (0 <=? take); intros [= <-] Hin.
  - apply list_elem_of_In. apply list_elem_of_In in Hin.
    eapply subseteq_drop, subseteq_take, Hin.
  - apply in_rev in Hin. apply list_elem_of_In in Hin.
    apply subseteq_take, subseteq_drop in Hin.
    apply list_elem_of_In, in_rev in Hin. exact Hin.
Qed.

Lemma getDesigns_fulfilled_inv env w userId query pg w' :
  getDesigns userId query env w = (Fulfilled pg, w') ->
  w' = w
  /\ exists page,
       skip_take ((default 1 (q_page query) - 1) * default 20 (q_limit query))
         (default 20 (q_limit query))
         (orderBy_desc d_createdAt
            (List.filter (design_where (db w) userId query)
               (rows (designs (db w)))))
       = Fulfilled page
       /\ dp_designs pg =
            List.map (fun design => formatDesignResponse design None false) page
       /\ dp_pagination pg =
            {| pg_page := default 1 (q_page query);
               pg_limit := default 20 (q_limit query);
               pg_total :=
                 Z.of_nat (length (List.filter (design_where (db w) userId query)
                                     (rows (designs (db w)))));
               pg_totalPages :=
                 ceil_div
                   (Z.of_nat (length (List.filter
                                        (design_where (db w) userId query)
                                        (rows (designs (db w))))))
                   (default 20 (q_limit query)) |}.
Proof.
  unfold getDesigns, try_catch, bind, prisma_design_count,
    prisma_design_findMany.
  destruct (skip_take _ _ _) as [page | e |] eqn:Hpage;
    [| discriminate | discriminate].
  intros [= <- <-]. split; [reflexivity |].
  exists page. split; [reflexivity |]. split; reflexivity.
Qed.

Lemma design_where_owned b userId query d :
  design_where b userId query d = true -> owned_by b userId d = true.
Proof.
  unfold design_where. intros H.
  apply andb_prop in H as [H _]. apply andb_prop in H as [H _].
  now apply andb_prop in H as [H _].
Qed.

Lemma DesignStatus_eqb_eq a b : DesignStatus_eqb a b = true -> a = b.
Proof. destruct a, b; cbn; congruence. Qed.

(** X2. Whatever the filters, the page and the limit, a listing that succeeds
    returns only designs whose room belongs to a project of the requesting
    user, and every returned design passes each filter that was given; the
    store is only read. *)
Theorem getDesigns_only_lists_own_designs env w userId query pg w' :
  getDesigns userId query env w = (Fulfilled pg, w') ->
  w' = w
  /\ forall resp, In resp (dp_designs pg) ->
       exists k d r p,
         designs (db w) !! k = Some d
         /\ resp = formatDesignResponse d None false
         /\ rooms (db w) !! d_roomId d = Some r
         /\ projects (db w) !! r_projectId r = Some p
         /\ p_userId p = userId
         /\ (forall roomId, q_roomId query = Some roomId -> roomId <> "" ->
              res_roomId resp = roomId)
         /\ (forall status, q_status query = Some status ->
              res_status resp = status)
         /\ (forall aiProvider, q_aiProvider query = Some aiProvider ->
              aiProvider <> "" -> res_aiProvider resp = aiProvider).
Proof.
  intros H. apply getDesigns_fulfilled_inv in H.
  destruct H as (-> & page & Hpage & Hds & _). split; [reflexivity |].
  intros resp Hin. rewrite Hds in Hin. apply in_map_iff in Hin.
  destruct Hin as (d & <- & Hd).
  eapply skip_take_In in Hd; [| exact Hpage].
  apply orderBy_desc_In, filter_In in Hd. destruct Hd as [Hd Hwhere].
  apply In_rows in Hd. destruct Hd as [k Hk].
  pose proof (design_where_owned _ _ _ _ Hwhere) as Hown.
  unfold owned_by in Hown.
  destruct (rooms (db w) !! d_roomId d) as [r |] eqn:Hr; [| discriminate].
  destruct (projects (db w) !! r_projectId r) as [p |] eqn:Hp; [| discriminate].
  apply String.eqb_eq in Hown.
  exists k, d, r, p. repeat (split; [first [assumption | reflexivity] |]).
  unfold design_where in Hwhere.
  apply andb_prop in Hwhere as [Hwhere Hprov].
  apply andb_prop in Hwhere as [Hwhere Hstatus].
  apply andb_prop in Hwhere as [_ Hroom].
  split; [| split].
  - intros roomId E Hne. rewrite E in Hroom.
    destruct (String.eqb_spec roomId ""); [contradiction |].
    now apply String.eqb_eq in Hroom.
  - intros status E. rewrite E in Hstatus. now apply DesignStatus_eqb_eq.
  - intros aiProvider E Hne. rewrite E in Hprov.
    destruct (String.eqb_spec aiProvider ""); [contradiction |].
    now apply String.eqb_eq in Hprov.
Qed.

Lemma getDesigns_only_lists_own_designs_witness :
  exists pg,
    getDesigns "alice" ex2_query ex_env ex2_world = (Fulfilled pg, ex2_world)
    /\ List.map res_id (dp_designs pg) = ["da"; "db"]
    /\ forall resp, In resp (dp_designs pg) -> res_roomId resp <> "r3".
Proof.
  assert (E : getDesigns "alice" ex2_query ex_env ex2_world =
              (Fulfilled
                 {| dp_designs :=
                      [formatDesignResponse ex2_design_a None false;
                       formatDesignResponse ex2_design_b None false];
                    dp_pagination :=
                      {| pg_page := 1; pg_limit := 2; pg_total := 3;
                         pg_totalPages := Some 2 |} |}, ex2_world)).
  { vm_compute. reflexivity. }
  eexists. split; [exact E |]. split; [reflexivity |].
  intros resp Hin.
  destruct (getDesigns_only_lists_own_designs _ _ _ _ _ _ E) as [_ Hall].
  destruct (Hall resp Hin) as (k & d & r & p & _ & -> & Hr & Hp & Hown & _).
  cbn [formatDesignResponse res_roomId]. intros Eq. rewrite Eq in Hr.
  vm_compute in Hr. injection Hr as <-. vm_compute in Hp.
  injection Hp as <-. discriminate Hown.
Defined.

Lemma ceil_div_bounds total limit :
  0 < limit ->
  exists pages,
    ceil_div total limit = Some pages
    /\ (pages - 1) * limit < total <= pages * limit.
Proof.
  intros Hl. unfold ceil_div.
  destruct (Z.eqb_spec limit 0); [lia |].
  eexists. split; [reflexivity |].
  pose proof (Z.div_mod (- total) limit ltac:(lia)) as Hdm.
  pose proof (Z.mod_pos_bound (- total) limit Hl) as Hm.
  nia.
Qed.

(** X3. With a page and a limit of at least one (the defaults are page 1 and
    limit 20), the limit and the number of designs skipped being 32-bit
    signed integers, a listing succeeds; [total] counts the designs that
    match, the page holds min(limit, total - (page - 1) * limit) of them
    (none when that is negative), and [totalPages] is the least number of
    pages of that size that hold them all: pages up to it are never empty,
    pages beyond it always are. *)
Theorem getDesigns_pagination env w userId query :
  1 <= default 1 (q_page query) ->
  1 <= default 20 (q_limit query) ->
  let page := default 1 (q_page query) in
  let limit := default 20 (q_limit query) in
  limit <= 2147483647 ->
  (page - 1) * limit <= 2147483647 ->
  exists pg pages,
    getDesigns userId query env w = (Fulfilled pg, w)
    /\ pg_total (dp_pagination pg) =
         Z.of_nat (length (List.filter (design_where (db w) userId query)
                             (rows (designs (db w)))))
    /\ Z.of_nat (length (dp_designs pg)) =
         Z.min limit (Z.max 0 (pg_total (dp_pagination pg) - (page - 1) * limit))
    /\ pg_totalPages (dp_pagination pg) = Some pages
    /\ (pages - 1) * limit < pg_total (dp_pagination pg) <= pages * limit
    /\ (page <= pages -> dp_designs pg <> [])
    /\ (pages < page -> dp_designs pg = []).
Proof.
  intros Hpage Hlimit page limit Hlimit32 Hskip32.
  set (matching := List.filter (design_where (db w) userId query)
                     (rows (designs (db w)))).
  destruct (ceil_div_bounds (Z.of_nat (length matching)) limit ltac:(lia))
    as (pages & Hpages & Hbounds).
  exists {| dp_designs :=
              List.map (fun design => formatDesignResponse design None false)
                (firstn (Z.to_nat limit)
                   (skipn (Z.to_nat ((page - 1) * limit))
                      (orderBy_desc d_createdAt matching)));
            dp_pagination :=
              {| pg_page := page; pg_limit := limit;
                 pg_total := Z.of_nat (length matching);
                 pg_totalPages := Some pages |} |}, pages.
  assert (Hlen :
    Z.of_nat (length
      (List.map (fun design => formatDesignResponse design None false)
         (firstn (Z.to_nat limit)
            (skipn (Z.to_nat ((page - 1) * limit))
               (orderBy_desc d_createdAt matching))))) =
    Z.min limit (Z.max 0 (Z.of_nat (length matching) - (page - 1) * limit))).
  { rewrite length_map, length_take, length_drop, orderBy_desc_length. nia. }
  split.
  { unfold getDesigns. apply try_catch_fulfilled.
    fold page limit. unfold bind, prisma_design_count, prisma_design_findMany.
    fold matching. unfold skip_take.
    assert (Hrange : int64_ok ((page - 1) * limit) && int64_ok limit = true).
    { unfold int64_ok. rewrite !andb_true_iff, !Z.leb_le. nia. }
    rewrite Hrange. cbn [negb].
    destruct (Z.ltb_spec ((page - 1) * limit) 0); [nia |].
    destruct (Z.leb_spec 0 limit); [| lia].
    rewrite Hpages. reflexivity. }
  cbn [dp_pagination dp_designs pg_total pg_totalPages].
  split; [reflexivity |]. split; [exact Hlen |]. split; [reflexivity |].
  split; [exact Hbounds |].
  split.
  - intros Hle E. rewrite E in Hlen. cbn in Hlen. nia.
  - intros Hlt. apply length_zero_iff_nil. nia.
Qed.

Lemma getDesigns_pagination_witness :
  exists pg,
    getDesigns "alice" ex2_query ex_env ex2_world = (Fulfilled pg, ex2_world)
    /\ pg_total (dp_pagination pg) = 3
    /\ length (dp_designs pg) = 2%nat
    /\ pg_totalPages (dp_pagination pg) = Some 2.
Proof.
  destruct (getDesigns_pagination ex_env ex2_world "alice" ex2_query)
    as (pg & pages & Hrun & Htotal & Hlen & Hpages & Hbounds & _).
  - cbn. lia.
  - cbn. lia.
  - cbn. lia.
  - cbn. lia.
  - exists pg.
    assert (Ht : pg_total (dp_pagination pg) = 3).
    { rewrite Htotal. vm_compute. reflexivity. }
    split; [exact Hrun |]. split; [exact Ht |].
    rewrite Ht in Hlen, Hbounds. cbn in Hlen, Hbounds.
    split; [lia |]. rewrite Hpages. f_equal. lia.
Defined.

(* ===================================================================== *)
(** ** Reading and deleting a design                                      *)
(* ===================================================================== *)

Lemma rethrow_rejects {A} logMessage message code error env w :
  exists e,
    @rethrow A logMessage message code error env w =
      (Rejected e, emit (EvLog Error logMessage) w)
    /\ instanceof_AppError e = true
    /\ (e = error \/ e = AppError message 500 code).
Proof.
  unfold rethrow, bind, logger.
  destruct (instanceof_AppError error) eqn:E.
  - exists error. auto.
  - eexists. split; [reflexivity |]. auto.
Qed.

Lemma rethrow_not_fulfilled {A} logMessage message code error env w (a : A) w' :
  rethrow logMessage message code error env w <> (Fulfilled a, w').
Proof.
  destruct (@rethrow_rejects A logMessage message code error env w)
    as (e & -> & _). discriminate.
Qed.

Lemma getDesignById_owner env w designId userId d r p :
  designs (db w) !! designId = Some d ->
  rooms (db w) !! d_roomId d = Some r ->
  projects (db w) !! r_projectId r = Some p ->
  p_userId p = userId ->
  getDesignById designId userId env w =
    (Fulfilled (formatDesignResponse d
                  (Some {| rp_room := r; rp_project := p |}) true), w).
Proof.
  intros Hd Hr Hp Hown. unfold getDesignById. apply try_catch_fulfilled.
  erewrite bind_fulfilled
    by (eapply prisma_design_findUnique_found; eassumption).
  cbn [dr_room dr_design rp_project]. rewrite Hown, String.eqb_refl.
  reflexivity.
Qed.

Lemma design_read_fulfilled_inv env w designId found w' :
  prisma_design_findUnique designId env w = (Fulfilled (Some found), w') ->
  w' = w
  /\ designs (db w) !! designId = Some (dr_design found)
  /\ rooms (db w) !! d_roomId (dr_design found) = Some (rp_room (dr_room found))
  /\ projects (db w) !! r_projectId (rp_room (dr_room found)) =
       Some (rp_project (dr_room found)).
Proof.
  unfold prisma_design_findUnique, join_project.
  destruct (designs (db w) !! designId) as [d |] eqn:Hd; [| discriminate].
  destruct (rooms (db w) !! d_roomId d) as [r |] eqn:Hr; [| discriminate].
  destruct (projects (db w) !! r_projectId r) as [p |] eqn:Hp;
    [| discriminate].
  intros [= <- <-]. cbn. auto.
Qed.

(** X4. [getDesignById] answers the owner and nobody else: it fulfils exactly
    when the design exists and its room's project belongs to the requesting
    user, and then returns that row with the details of its room and
    project (the details carry no user id) without touching the store. *)
Theorem getDesignById_answers_only_the_owner env w designId userId resp w' :
  getDesignById designId userId env w = (Fulfilled resp, w') <->
  exists d r p,
    designs (db w) !! designId = Some d
    /\ rooms (db w) !! d_roomId d = Some r
    /\ projects (db w) !! r_projectId r = Some p
    /\ p_userId p = userId
    /\ resp = formatDesignResponse d
                (Some {| rp_room := r; rp_project := p |}) true
    /\ w' = w.
Proof.
  split.
  - intros H. unfold getDesignById, try_catch, bind in H.
    destruct (prisma_design_findUnique designId env w)
      as [[[found |] | e |] w1] eqn:Hread;
      [| discriminate H | now apply rethrow_not_fulfilled in H
       | discriminate H].
    apply design_read_fulfilled_inv in Hread.
    destruct Hread as (-> & Hd & Hr & Hp).
    destruct found as [d [r p]]. cbn in *.
    destruct (String.eqb_spec (p_userId p) userId) as [Hown | _];
      [| discriminate H].
    injection H as <- <-. exists d, r, p.
    repeat split; first [assumption | reflexivity].
  - intros (d & r & p & Hd & Hr & Hp & Hown & -> & ->).
    now apply getDesignById_owner.
Qed.

Lemma getDesignById_answers_only_the_owner_witness :
  getDesignById "d0" "alice" ex_env ex_world
  = (Fulfilled
       (formatDesignResponse ex_design
          (Some {| rp_room := ex_room; rp_project := ex_project |}) true),
     ex_world).
Proof.
  apply (proj2 (getDesignById_answers_only_the_owner ex_env ex_world
                  "d0" "alice" _ _)).
  exists ex_design, ex_room, ex_project.
  repeat split; vm_compute; reflexivity.
Defined.

Lemma deleteDesign_owner env w designId userId d r p :
  designs (db w) !! designId = Some d ->
  rooms (db w) !! d_roomId d = Some r ->
  projects (db w) !! r_projectId r = Some p ->
  p_userId p = userId ->
  deleteDesign designId userId env w =
    (Fulfilled tt,
     emit (EvLog Info "Design deleted successfully")
       (emit (EvDeleteDesign designId)
          (with_db (with_designs (delete designId)) w))).
Proof.
  intros Hd Hr Hp Hown. unfold deleteDesign. apply try_catch_fulfilled.
  erewrite bind_fulfilled
    by (eapply prisma_design_findUnique_found; eassumption).
  cbn [dr_room dr_design rp_project]. rewrite Hown, String.eqb_refl.
  cbn [negb].
  unfold prisma_design_delete at 1.
  unfold bind at 1. unfold bind at 1. unfold get_db at 1. rewrite Hd.
  reflexivity.
Qed.

Lemma getDesignById_missing env w designId userId :
  designs (db w) !! designId = None ->
  getDesignById designId userId env w =
    (Rejected DESIGN_NOT_FOUND, emit (EvLog Error "Get design by ID failed:") w).
Proof.
  intros Hd. unfold getDesignById, try_catch, bind, prisma_design_findUnique.
  rewrite Hd. reflexivity.
Qed.

(** X5. A design deleted by its owner is gone for good as far as reads go: the
    row is removed, every other design, room, project and upload is
    untouched, and the same owner reading it afterwards gets the 404
    DESIGN_NOT_FOUND. *)
Theorem deleteDesign_then_read_is_not_found env w designId userId d r p :
  designs (db w) !! designId = Some d ->
  rooms (db w) !! d_roomId d = Some r ->
  projects (db w) !! r_projectId r = Some p ->
  p_userId p = userId ->
  exists w',
    deleteDesign designId userId env w = (Fulfilled tt, w')
    /\ designs (db w') = delete designId (designs (db w))
    /\ projects (db w') = projects (db w)
    /\ rooms (db w') = rooms (db w)
    /\ uploads (db w') = uploads (db w)
    /\ fst (getDesignById designId userId env w') =
         Rejected (AppError "Design not found" 404 "DESIGN_NOT_FOUND")
    /\ fst (deleteDesign designId userId env w') =
         Rejected (AppError "Design not found" 404 "DESIGN_NOT_FOUND").
Proof.
  intros Hd Hr Hp Hown. eexists.
  split; [eapply deleteDesign_owner; eassumption |].
  repeat (split; [reflexivity |]).
  split.
  - rewrite getDesignById_missing; [reflexivity |]. cbn.
    apply lookup_delete_eq.
  - unfold deleteDesign, try_catch, bind, prisma_design_findUnique.
    cbn [db emit with_db with_designs designs].
    rewrite lookup_delete_eq. reflexivity.
Qed.

Lemma deleteDesign_then_read_witness :
  exists w',
    deleteDesign "d0" "alice" ex_env ex2_world = (Fulfilled tt, w')
    /\ designs (db w') !! "d0" = None
    /\ designs (db w') !! "da" = Some ex2_design_a
    /\ fst (getDesignById "d0" "alice" ex_env w') =
         Rejected (AppError "Design not found" 404 "DESIGN_NOT_FOUND").
Proof.
  destruct (deleteDesign_then_read_is_not_found ex_env ex2_world "d0" "alice"
              ex_design ex_room ex_project)
    as (w' & Hrun & Hdes & _ & _ & _ & Hread & _).
  - vm_compute. reflexivity.
  - vm_compute. reflexivity.
  - vm_compute. reflexivity.
  - reflexivity.
  - exists w'. split; [exact Hrun |].
    split; [rewrite Hdes; vm_compute; reflexivity |].
    split; [rewrite Hdes; vm_compute; reflexivity | exact Hread].
Defined.

(* ===================================================================== *)
(** ** The task and the store, composed                                   *)
(* ===================================================================== *)



(** X7. The provider may resolve with no image at all.  When the store
    accepts the terminal write (an elapsed time that is a 32-bit signed
    integer, and no character U+0000 in the provider's prompt and
    metadata), the row is marked COMPLETED all the same: its imageUrl is
    left as it was (for a row fresh from creation, the empty string), and
    allImageUrls is stored, and shown by [formatDesignResponse], as the
    empty list. *)
Theorem generation_task_without_images
  env w designId room customPrompt aiProvider d0 result :
  designs (db w) !! designId = Some d0 ->
  provider env
    {| pd_roomType := r_type (rp_room room);
       pd_style := p_style (rp_project room);
       pd_length := r_length (rp_room room);
       pd_width := r_width (rp_room room);
       pd_height := r_height (rp_room room);
       pd_materials := r_materials (rp_room room);
       pd_ambientColor := r_ambientColor (rp_room room);
       pd_customPrompt := customPrompt |}
    {| ao_provider := aiProvider;
       ao_inputImageUrl := r_originalImageUrl (rp_room room) |}
    = Fulfilled result ->
  ai_imageUrls result = [] ->
  -2147483648 <= clock env (S (S (ticks w))) - clock env (ticks w)
    <= 2147483647 ->
  text_ok (ai_prompt result) = true ->
  jsonb_ok (JObj (ai_metadata result)) = true ->
  exists w' row,
    generation_task designId room customPrompt aiProvider env w =
      (Fulfilled tt, w')
    /\ designs (db w') !! designId = Some row
    /\ d_status row = COMPLETED
    /\ d_imageUrl row = d_imageUrl d0
    /\ d_prompt row = ai_prompt result
    /\ res_allImageUrls (formatDesignResponse row None false) = Some (JArr []).
Proof.
  intros Hrow Hprov Hurls Hfit Hprompt Hmeta. rewrite generation_task_unfold.
  erewrite detached_resolved; [| exact Hrow | exact Hprov |].
  2: { apply patch_COMPLETED_ok;
         [apply int4_ok_spec; exact Hfit | exact Hprompt
         | rewrite Hurls; reflexivity | exact Hmeta]. }
  eexists. eexists. split; [reflexivity |].
  split; [cbn; apply lookup_insert_eq |].
  cbn. rewrite Hurls. cbn.
  split; [reflexivity |]. split; [reflexivity |]. split; [reflexivity |].
  now rewrite obj_get_set_eq.
Qed.

Lemma generation_task_without_images_witness :
  exists w' row,
    generation_task "db" {| rp_room := ex2_room2; rp_project := ex_project |}
      None "replicate"
      (with_provider
         (fun _ _ => Fulfilled {| ai_imageUrls := []; ai_prompt := "p";
                                  ai_metadata := [] |}) ex_env)
      ex2_world = (Fulfilled tt, w')
    /\ designs (db w') !! "db" = Some row
    /\ d_status row = COMPLETED
    /\ d_imageUrl row = "".
Proof.
  destruct (generation_task_without_images
              (with_provider
                 (fun _ _ => Fulfilled {| ai_imageUrls := []; ai_prompt := "p";
                                          ai_metadata := [] |}) ex_env)
              ex2_world "db"
              {| rp_room := ex2_room2; rp_project := ex_project |}
              None "replicate" ex2_design_b
              {| ai_imageUrls := []; ai_prompt := "p"; ai_metadata := [] |})
    as (w' & row & H1 & H2 & H3 & H4 & _).
  - vm_compute. reflexivity.
  - reflexivity.
  - reflexivity.
  - vm_compute. split; discriminate.
  - reflexivity.
  - reflexivity.
  - exists w', row. repeat split; assumption.
Defined.

(** X8. Once the task has completed (the store having accepted the new row
    and the terminal write), the owner reads the finished design with
    [getDesignById]: status COMPLETED, the provider's prompt, every
    generated URL under allImageUrls, and the details of the room; the read
    leaves the store as it is. *)
Theorem completed_design_is_read_back env w userId designData r p result :
  spawned w = [] ->
  rooms (db w) !! dto_roomId designData = Some r ->
  projects (db w) !! r_projectId r = Some p ->
  p_userId p = userId ->
  designs (db w) !! cuid env (minted w) = None ->
  text_ok (js_or (dto_customPrompt designData) "") = true ->
  text_ok (default "replicate" (dto_aiProvider designData)) = true ->
  provider env
    {| pd_roomType := r_type r; pd_style := p_style p;
       pd_length := r_length r; pd_width := r_width r;
       pd_height := r_height r; pd_materials := r_materials r;
       pd_ambientColor := r_ambientColor r;
       pd_customPrompt := dto_customPrompt designData |}
    {| ao_provider := default "replicate" (dto_aiProvider designData);
       ao_inputImageUrl := r_originalImageUrl r |}
    = Fulfilled result ->
  -2147483648 <= clock env (S (S (S (ticks w)))) - clock env (S (ticks w))
    <= 2147483647 ->
  text_ok (ai_prompt result) = true ->
  forallb text_ok (ai_imageUrls result) = true ->
  jsonb_ok (JObj (ai_metadata result)) = true ->
  exists created w' resp,
    serve (generateDesign userId designData) env w = (Fulfilled created, w')
    /\ getDesignById (res_id created) userId env w' = (Fulfilled resp, w')
    /\ res_id resp = res_id created
    /\ res_status resp = COMPLETED
    /\ res_imageUrl resp = default "" (head (ai_imageUrls result))
    /\ res_prompt resp = ai_prompt result
    /\ res_allImageUrls resp = Some (JArr (JStr <$> ai_imageUrls result))
    /\ res_room resp = Some (room_details {| rp_room := r; rp_project := p |}).
Proof.
  intros Hq Hr Hp Hown Hfresh Hpr Hpv Hprov Hfit Hprompt Hurls Hmeta.
  eexists. eexists. eexists.
  split.
  { rewrite (serve_generateDesign env w userId designData r p
               Hq Hr Hp Hown Hfresh Hpr Hpv).
    erewrite detached_resolved;
      [reflexivity | apply started_row | exact Hprov |].
    apply patch_COMPLETED_ok;
      [apply int4_ok_spec; exact Hfit | assumption ..]. }
  split.
  { eapply getDesignById_owner.
    - cbn. apply lookup_insert_eq.
    - cbn. exact Hr.
    - cbn. exact Hp.
    - exact Hown. }
  cbn. rewrite obj_get_set_eq. cbn.
  destruct (ai_imageUrls result); repeat split; reflexivity.
Qed.

Lemma completed_design_is_read_back_witness :
  exists created w' resp,
    serve (generateDesign "alice" ex_dto) ex_env ex_world =
      (Fulfilled created, w')
    /\ getDesignById (res_id created) "alice" ex_env w' = (Fulfilled resp, w')
    /\ res_status resp = COMPLETED
    /\ res_imageUrl resp = "u1"
    /\ res_allImageUrls resp = Some (JArr [JStr "u1"; JStr "u2"]).
Proof.
  destruct (completed_design_is_read_back ex_env ex_world "alice" ex_dto
              ex_room ex_project ex_result)
    as (created & w' & resp & H1 & H2 & _ & H4 & H5 & _ & H7 & _).
  - reflexivity.
  - vm_compute. reflexivity.
  - vm_compute. reflexivity.
  - reflexivity.
  - vm_compute. reflexivity.
  - reflexivity.
  - reflexivity.
  - reflexivity.
  - vm_compute. split; discriminate.
  - reflexivity.
  - reflexivity.
  - reflexivity.
  - exists created, w', resp. repeat split; assumption.
Defined.

(** The task is its PROCESSING write followed by what comes after it. *)
Lemma detached_in_two_steps j env w :
  detached j env w =
    detached_after j (fst (processing_write j env w)) env
      (snd (processing_write j env w)).
Proof.
  unfold detached, detached_after, processDesignGeneration_resume,
    processDesignGeneration_from.
  unfold try_catch, bind, settled_as.
  destruct (processing_write j env w) as [[d | e |] w1]; reflexivity.
Qed.

(** The rest of the task on a row that is gone: the provider is called, no
    write finds the row, and the failures are only logged. *)
Lemma from_row_missing j landed env w :
  designs (db w) !! j_designId j = None ->
  exists o w1,
    processDesignGeneration_from (settled_as (Fulfilled landed)) j env w
    = (o, w1)
    /\ (o = Rejected (JsError "Record to update not found.") \/ o = Unsettled)
    /\ db w1 = db w
    /\ provider_calls (trace w1)
       = provider_calls (trace w) ++
         [EvGenerate (promptData_of (j_room j) (j_customPrompt j))
            (options_of (j_room j) (j_aiProvider j))].
Proof.
  intros Hrow. unfold processDesignGeneration_from.
  destruct (provider env (promptData_of (j_room j) (j_customPrompt j))
              (options_of (j_room j) (j_aiProvider j)))
    as [result | e |] eqn:Hprov.
  - eexists. eexists. split.
    { etrans.
      { apply try_catch_rejected.
        erewrite bind_fulfilled by reflexivity.
        erewrite bind_fulfilled
          by (unfold aiService_generateDesign; rewrite Hprov; reflexivity).
        erewrite bind_fulfilled by reflexivity.
        apply bind_rejected.
        apply prisma_design_update_missing. cbn. exact Hrow. }
      erewrite bind_fulfilled by reflexivity.
      erewrite bind_fulfilled by reflexivity.
      apply bind_rejected.
      apply prisma_design_update_missing. cbn. exact Hrow. }
    split; [now left |]. split; [reflexivity |].
    cbn [trace emit tick]. rewrite <- !app_assoc, !provider_calls_app.
    cbn. rewrite ?app_nil_r. reflexivity.
  - eexists. eexists. split.
    { etrans.
      { apply try_catch_rejected.
        erewrite bind_fulfilled by reflexivity.
        apply bind_rejected.
        unfold aiService_generateDesign. rewrite Hprov. reflexivity. }
      erewrite bind_fulfilled by reflexivity.
      erewrite bind_fulfilled by reflexivity.
      apply bind_rejected.
      apply prisma_design_update_missing. cbn. exact Hrow. }
    split; [now left |]. split; [reflexivity |].
    cbn [trace emit tick]. rewrite <- !app_assoc, !provider_calls_app.
    cbn. rewrite ?app_nil_r. reflexivity.
  - eexists. eexists. split.
    { apply try_catch_unsettled.
      erewrite bind_fulfilled by reflexivity.
      apply bind_unsettled.
      unfold aiService_generateDesign. rewrite Hprov. reflexivity. }
    split; [now right |]. split; [reflexivity |].
    cbn [trace emit]. now rewrite provider_calls_app.
Qed.

Lemma detached_after_row_missing j landed env w :
  designs (db w) !! j_designId j = None ->
  (forall e, fst (detached_after j (Fulfilled landed) env w) <> Rejected e)
  /\ db (snd (detached_after j (Fulfilled landed) env w)) = db w
  /\ provider_calls (trace (snd (detached_after j (Fulfilled landed) env w)))
     = provider_calls (trace w) ++
       [EvGenerate (promptData_of (j_room j) (j_customPrompt j))
          (options_of (j_room j) (j_aiProvider j))].
Proof.
  intros Hrow.
  destruct (from_row_missing j landed env w Hrow)
    as (o & w1 & Hfrom & [-> | ->] & Hdb & Hcalls).
  - unfold detached_after.
    erewrite try_catch_rejected by exact Hfrom.
    rewrite onGenerationRejected_missing;
      [| rewrite Hdb; exact Hrow | discriminate].
    cbn [fst snd db emit trace].
    split; [discriminate |]. split; [exact Hdb |].
    rewrite <- !app_assoc, provider_calls_app, Hcalls. cbn.
    now rewrite app_nil_r.
  - unfold detached_after.
    erewrite try_catch_unsettled by exact Hfrom.
    cbn [fst snd]. split; [discriminate |]. split; [exact Hdb | exact Hcalls].
Qed.

(** X9. A design deleted by its owner while its generation is under way is
    not brought back.  The PROCESSING write of the task, dispatched before
    [generateDesign] returned, has reached the store when the deletion
    arrives; the rest of the task then calls the provider once, finds no
    row for any of its writes, and only logs: its promise does not reject,
    and the store is as the deletion left it. *)
Theorem deleted_design_is_not_resurrected env w userId designData r p :
  spawned w = [] ->
  rooms (db w) !! dto_roomId designData = Some r ->
  projects (db w) !! r_projectId r = Some p ->
  p_userId p = userId ->
  designs (db w) !! cuid env (minted w) = None ->
  text_ok (js_or (dto_customPrompt designData) "") = true ->
  text_ok (default "replicate" (dto_aiProvider designData)) = true ->
  exists created w1 job landed w1' w2,
    generateDesign userId designData env w = (Fulfilled created, w1)
    /\ spawned w1 = [job]
    /\ processing_write job env (no_spawned w1) = (Fulfilled landed, w1')
    /\ d_status landed = PROCESSING
    /\ detached job env (no_spawned w1)
       = detached_after job (Fulfilled landed) env w1'
    /\ deleteDesign (res_id created) userId env w1' = (Fulfilled tt, w2)
    /\ (forall e,
          fst (detached_after job (Fulfilled landed) env w2) <> Rejected e)
    /\ db (snd (detached_after job (Fulfilled landed) env w2)) = db w2
    /\ designs (db w2) !! res_id created = None
    /\ designs (db w2) = designs (db w)
    /\ provider_calls
         (trace (snd (detached_after job (Fulfilled landed) env w2)))
       = provider_calls (trace w) ++
         [EvGenerate
            {| pd_roomType := r_type r; pd_style := p_style p;
               pd_length := r_length r; pd_width := r_width r;
               pd_height := r_height r; pd_materials := r_materials r;
               pd_ambientColor := r_ambientColor r;
               pd_customPrompt := dto_customPrompt designData |}
            {| ao_provider := default "replicate" (dto_aiProvider designData);
               ao_inputImageUrl := r_originalImageUrl r |}].
Proof.
  intros Hq Hr Hp Hown Hfresh Hpr Hpv.
  set (room := {| rp_room := r; rp_project := p |}).
  set (job := initial_job env w designData room).
  set (w1 := world_initiated env w designData room).
  assert (Hrow1 : designs (db (no_spawned w1)) !! j_designId job
                  = Some (initial_row env w designData)).
  { cbn. apply lookup_insert_eq. }
  pose proof (resume_first_write env job (no_spawned w1) _ Hrow1) as Hland.
  destruct (processing_write job env (no_spawned w1)) as [first w1'] eqn:E.
  injection Hland as -> ->.
  match type of E with _ = (Fulfilled ?d, ?x) =>
    set (landed := d) in *; set (w1' := x) in * end.
  assert (Hdel : exists w2,
            deleteDesign (cuid env (minted w)) userId env w1'
            = (Fulfilled tt, w2)
            /\ designs (db w2) = delete (cuid env (minted w)) (designs (db w1'))
            /\ trace w2 = trace w1' ++
                 [EvDeleteDesign (cuid env (minted w));
                  EvLog Info "Design deleted successfully"]).
  { eexists. split.
    { eapply deleteDesign_owner.
      - cbn. apply lookup_insert_eq.
      - cbn. exact Hr.
      - cbn. exact Hp.
      - exact Hown. }
    split; [reflexivity |]. cbn. now rewrite <- !app_assoc. }
  destruct Hdel as (w2 & Hdel & Hdb2 & Htr2).
  assert (Hgone : designs (db w2) !! j_designId job = None).
  { rewrite Hdb2. apply lookup_delete_eq. }
  destruct (detached_after_row_missing job landed env w2 Hgone)
    as (Hnorej & Hsame & Hcalls).
  exists (formatDesignResponse (initial_row env w designData) None false).
  exists w1, job, landed, w1', w2.
  split; [apply (generateDesign_authorized env w userId designData r p);
          assumption |].
  split; [cbn; now rewrite Hq |].
  split; [exact E |].
  split; [reflexivity |].
  split; [rewrite detached_in_two_steps, E; reflexivity |].
  split; [exact Hdel |].
  split; [exact Hnorej |].
  split; [exact Hsame |].
  split; [exact Hgone |].
  split.
  { rewrite Hdb2. cbn.
    rewrite !insert_insert_eq, delete_insert_eq.
    now apply delete_id. }
  rewrite Hcalls, Htr2. cbn [w1' wrote no_spawned w1 world_initiated trace].
  rewrite !provider_calls_app. cbn. now rewrite !app_nil_r.
Qed.

Lemma deleted_design_is_not_resurrected_witness :
  exists created w1 job landed w1' w2,
    generateDesign "alice" ex_dto ex_env ex_world = (Fulfilled created, w1)
    /\ processing_write job ex_env (no_spawned w1) = (Fulfilled landed, w1')
    /\ deleteDesign (res_id created) "alice" ex_env w1' = (Fulfilled tt, w2)
    /\ designs (db (snd (detached_after job (Fulfilled landed) ex_env w2)))
       = designs (db ex_world)
    /\ length (provider_calls
                 (trace (snd (detached_after job (Fulfilled landed) ex_env
                                w2)))) = 1%nat.
Proof.
  destruct (deleted_design_is_not_resurrected ex_env ex_world "alice" ex_dto
              ex_room ex_project)
    as (created & w1 & job & landed & w1' & w2 & H1 & _ & H3 & _ & _ & H6 & _
        & H8 & _ & H10 & H11).
  - reflexivity.
  - vm_compute. reflexivity.
  - vm_compute. reflexivity.
  - reflexivity.
  - vm_compute. reflexivity.
  - reflexivity.
  - reflexivity.
  - exists created, w1, job, landed, w1', w2.
    split; [exact H1 |]. split; [exact H3 |]. split; [exact H6 |].
    split; [rewrite H8; exact H10 |].
    rewrite H11. reflexivity.
Defined.

(** X10. Regenerating a completed design without overrides hands the prompt
    the provider resolved the first time back to the provider as the custom
    prompt of the second generation, with the provider selector and the
    room of the first; the new row starts out with that prompt.  (The store
    accepts both new rows and the terminal write of the first task.) *)
Theorem regeneration_reuses_the_resolved_prompt
  env w userId designData r p result :
  spawned w = [] ->
  rooms (db w) !! dto_roomId designData = Some r ->
  projects (db w) !! r_projectId r = Some p ->
  p_userId p = userId ->
  designs (db w) !! cuid env (minted w) = None ->
  designs (db w) !! cuid env (S (minted w)) = None ->
  cuid env (S (minted w)) <> cuid env (minted w) ->
  text_ok (js_or (dto_customPrompt designData) "") = true ->
  text_ok (default "replicate" (dto_aiProvider designData)) = true ->
  provider env
    {| pd_roomType := r_type r; pd_style := p_style p;
       pd_length := r_length r; pd_width := r_width r;
       pd_height := r_height r; pd_materials := r_materials r;
       pd_ambientColor := r_ambientColor r;
       pd_customPrompt := dto_customPrompt designData |}
    {| ao_provider := default "replicate" (dto_aiProvider designData);
       ao_inputImageUrl := r_originalImageUrl r |}
    = Fulfilled result ->
  -2147483648 <= clock env (S (S (S (ticks w)))) - clock env (S (ticks w))
    <= 2147483647 ->
  text_ok (ai_prompt result) = true ->
  forallb text_ok (ai_imageUrls result) = true ->
  jsonb_ok (JObj (ai_metadata result)) = true ->
  exists first w1 second w2 events,
    serve (generateDesign userId designData) env w = (Fulfilled first, w1)
    /\ serve (regenerateDesign (res_id first) userId None) env w1 =
         (Fulfilled second, w2)
    /\ res_prompt second = ai_prompt result
    /\ res_aiProvider second = default "replicate" (dto_aiProvider designData)
    /\ trace w2 = trace w1 ++ events
    /\ provider_calls events =
         [EvGenerate
            {| pd_roomType := r_type r; pd_style := p_style p;
               pd_length := r_length r; pd_width := r_width r;
               pd_height := r_height r; pd_materials := r_materials r;
               pd_ambientColor := r_ambientColor r;
               pd_customPrompt := Some (ai_prompt result) |}
            {| ao_provider := default "replicate" (dto_aiProvider designData);
               ao_inputImageUrl := r_originalImageUrl r |}].
Proof.
  intros Hq Hr Hp Hown Hfresh Hfresh2 Hne Hpr Hpv Hprov Hfit Hprompt Hurls
    Hmeta.
  pose proof (serve_generateDesign env w userId designData r p
                Hq Hr Hp Hown Hfresh Hpr Hpv) as Hfirst.
  erewrite detached_resolved in Hfirst;
    [| apply started_row | exact Hprov
     | apply patch_COMPLETED_ok;
       [apply int4_ok_spec; exact Hfit | assumption ..]].
  cbn [snd] in Hfirst.
  match type of Hfirst with _ = (_, ?x) => set (w1 := x) in * end.
  set (original :=
         apply_patch
           (patch_COMPLETED result
              (clock env (S (S (S (ticks w)))) - clock env (S (ticks w))))
           (clock env (S (S (S (S (ticks w))))))
           (apply_patch patch_PROCESSING (clock env (S (S (ticks w))))
              (initial_row env w designData))).
  assert (Horig : designs (db w1) !! cuid env (minted w) = Some original).
  { cbn. apply lookup_insert_eq. }
  assert (Hr1 : rooms (db w1) !! d_roomId original = Some r) by exact Hr.
  assert (Hp1 : projects (db w1) !! r_projectId r = Some p) by exact Hp.
  assert (Hf1 : designs (db w1) !! cuid env (minted w1) = None).
  { cbn. rewrite !lookup_insert_ne by congruence. exact Hfresh2. }
  assert (Hs1 : spawned w1 = []) by reflexivity.
  destruct (detached_summary env _ _ _
              (regenerated_row env w1 None original r p))
    as (o & w2 & tail & Hrun & _ & Htrace & _ & _ & Hcalls & _).
  cbn [initial_job j_designId j_room j_customPrompt j_aiProvider] in Htrace.
  exists (formatDesignResponse (initial_row env w designData) None false), w1.
  exists (formatDesignResponse
            (initial_row env w1 (regeneration_request None original))
            None false), w2.
  exists ([EvCreateDesign
             (initial_row env w1 (regeneration_request None original));
           EvNow (clock env (S (ticks w1)));
           EvLog Info "Design generation initiated";
           EvLog Info "Design regenerated successfully"] ++
          EvUpdateDesign (cuid env (minted w1)) patch_PROCESSING
          :: EvGenerate
               (promptData_of {| rp_room := r; rp_project := p |}
                  (dto_customPrompt (regeneration_request None original)))
               (options_of {| rp_room := r; rp_project := p |}
                  (default "replicate"
                     (dto_aiProvider (regeneration_request None original))))
          :: tail).
  split; [exact Hfirst |].
  split.
  { change (res_id (formatDesignResponse (initial_row env w designData)
                      None false)) with (cuid env (minted w)).
    rewrite (serve_regenerateDesign env w1 (cuid env (minted w)) userId
               None original r p Horig Hr1 Hp1 Hown Hs1 Hf1);
      [rewrite Hrun; reflexivity | exact Hprompt | exact Hpv]. }
  split.
  { change (res_prompt _) with (js_or (Some (ai_prompt result)) "").
    apply js_or_empty_fallback. }
  split; [reflexivity |].
  split.
  { rewrite Htrace. cbn [no_spawned emit world_initiated trace].
    rewrite <- !app_assoc. reflexivity. }
  rewrite provider_calls_app. cbn [provider_calls List.filter is_provider_call].
  fold (provider_calls tail). rewrite Hcalls. reflexivity.
Qed.

Lemma regeneration_reuses_the_resolved_prompt_witness :
  exists first w1 second w2 events,
    serve (generateDesign "alice" ex_dto_custom) ex_env ex_world =
      (Fulfilled first, w1)
    /\ serve (regenerateDesign (res_id first) "alice" None) ex_env w1 =
         (Fulfilled second, w2)
    /\ res_prompt first = "warm and cozy"
    /\ res_prompt second = "p"
    /\ trace w2 = trace w1 ++ events
    /\ length (provider_calls events) = 1%nat.
Proof.
  destruct (regeneration_reuses_the_resolved_prompt ex_env ex_world "alice"
              ex_dto_custom ex_room ex_project ex_result)
    as (first & w1 & second & w2 & events & H1 & H2 & H3 & _ & H5 & H6).
  - reflexivity.
  - vm_compute. reflexivity.
  - vm_compute. reflexivity.
  - reflexivity.
  - vm_compute. reflexivity.
  - vm_compute. reflexivity.
  - cbn. discriminate.
  - reflexivity.
  - reflexivity.
  - reflexivity.
  - vm_compute. split; discriminate.
  - reflexivity.
  - reflexivity.
  - reflexivity.
  - exists first, w1, second, w2, events.
    split; [exact H1 |]. split; [exact H2 |].
    split.
    { assert (E : fst (serve (generateDesign "alice" ex_dto_custom) ex_env
                         ex_world) = Fulfilled first) by now rewrite H1.
      vm_compute in E. injection E as <-. reflexivity. }
    split; [exact H3 |]. split; [exact H5 |].
    rewrite H6. reflexivity.
Defined.

(* ===================================================================== *)
(** ** Uploads                                                            *)
(* ===================================================================== *)

Lemma prisma_upload_findUnique_orphan env w uploadId u :
  uploads (db w) !! uploadId = Some u ->
  u_roomId u = None ->
  prisma_upload_findUnique uploadId env w =
    (Fulfilled (Some {| ur_upload := u; ur_room := None |}), w).
Proof.
  intros Hu Hroom. unfold prisma_upload_findUnique.
  rewrite Hu, Hroom. reflexivity.
Qed.

(** X11. An upload that belongs to no room can be deleted by nobody through
    [deleteUpload]: whoever asks is refused with 403 ACCESS_DENIED, and the
    store and the image host are left alone. *)
Theorem orphan_upload_cannot_be_deleted env w uploadId u userId :
  uploads (db w) !! uploadId = Some u ->
  u_roomId u = None ->
  deleteUpload uploadId userId env w =
    (Rejected (AppError "Access denied. You can only delete your own uploads."
                 403 "ACCESS_DENIED"),
     emit (EvLog Error "Delete upload failed:") w).
Proof.
  intros Hu Hroom. unfold deleteUpload.
  etrans.
  { apply try_catch_rejected.
    erewrite bind_fulfilled
      by (eapply prisma_upload_findUnique_orphan; eassumption).
    reflexivity. }
  reflexivity.
Qed.

Lemma orphan_upload_cannot_be_deleted_witness :
  fst (deleteUpload "up3" "alice" ex_env ex2_world) =
    Rejected (AppError "Access denied. You can only delete your own uploads."
                403 "ACCESS_DENIED")
  /\ fst (deleteUpload "up3" "bob" ex_env ex2_world) =
       Rejected (AppError "Access denied. You can only delete your own uploads."
                   403 "ACCESS_DENIED").
Proof.
  split.
  - rewrite (orphan_upload_cannot_be_deleted ex_env ex2_world "up3"
               ex2_upload_orphan "alice");
      [reflexivity | vm_compute; reflexivity | reflexivity].
  - rewrite (orphan_upload_cannot_be_deleted ex_env ex2_world "up3"
               ex2_upload_orphan "bob");
      [reflexivity | vm_compute; reflexivity | reflexivity].
Defined.

(** X12. The owner's [deleteUpload] removes the upload row whether or not the
    image host accepts the deletion of the stored image: a refusal of the
    host is logged as a warning and the row is deleted all the same.  Only
    a call to the host that never returns holds the deletion back. *)
Theorem deleteUpload_outlives_the_image_host
  env w uploadId userId u roomId r p :
  uploads (db w) !! uploadId = Some u ->
  u_roomId u = Some roomId ->
  rooms (db w) !! roomId = Some r ->
  projects (db w) !! r_projectId r = Some p ->
  p_userId p = userId ->
  (forall cid, u_cloudinaryId u = Some cid ->
               cloudinary_destroy env cid <> Unsettled) ->
  exists w',
    deleteUpload uploadId userId env w = (Fulfilled tt, w')
    /\ uploads (db w') = delete uploadId (uploads (db w))
    /\ designs (db w') = designs (db w)
    /\ rooms (db w') = rooms (db w)
    /\ projects (db w') = projects (db w)
    /\ (forall cid e, u_cloudinaryId u = Some cid -> cid <> "" ->
          cloudinary_destroy env cid = Rejected e ->
          In (EvLog Warn "Failed to delete image from Cloudinary:") (trace w')).
Proof.
  intros Hu Hroom Hr Hp Hown Hsettles.
  unfold deleteUpload.
  assert (Hdel : forall w0, uploads (db w0) = uploads (db w) ->
            (prisma_upload_delete uploadId;;
             logger Info "Upload deleted successfully") env w0 =
            (Fulfilled tt,
             emit (EvLog Info "Upload deleted successfully")
               (emit (EvDeleteUpload uploadId)
                  (with_db (with_uploads (delete uploadId)) w0)))).
  { intros w0 E. unfold prisma_upload_delete, bind, get_db.
    rewrite E, Hu. reflexivity. }
  destruct (u_cloudinaryId u) as [cid |] eqn:Hcid.
  - destruct (String.eqb_spec cid "") as [-> | Hne].
    + eexists. split.
      { apply try_catch_fulfilled.
        erewrite bind_fulfilled
          by (eapply prisma_upload_findUnique_found; eassumption).
        cbn [ur_room ur_upload upload_owner_differs rp_project].
        rewrite Hown, String.eqb_refl, Hcid. cbn [negb String.eqb].
        erewrite bind_fulfilled by reflexivity.
        apply Hdel. reflexivity. }
      repeat (split; [reflexivity |]). intros cid e [= <-]. congruence.
    + destruct (cloudinary_destroy env cid) as [[] | e |] eqn:Hhost.
      * eexists. split.
        { apply try_catch_fulfilled.
          erewrite bind_fulfilled
            by (eapply prisma_upload_findUnique_found; eassumption).
          cbn [ur_room ur_upload upload_owner_differs rp_project].
          rewrite Hown, String.eqb_refl, Hcid. cbn [negb].
          destruct (String.eqb_spec cid ""); [contradiction |].
          erewrite bind_fulfilled
            by (apply try_catch_fulfilled; unfold CloudinaryUtil_deleteImage;
                rewrite Hhost; reflexivity).
          apply Hdel. reflexivity. }
        repeat (split; [reflexivity |]).
        intros cid' e [= <-] _. congruence.
      * eexists. split.
        { apply try_catch_fulfilled.
          erewrite bind_fulfilled
            by (eapply prisma_upload_findUnique_found; eassumption).
          cbn [ur_room ur_upload upload_owner_differs rp_project].
          rewrite Hown, String.eqb_refl, Hcid. cbn [negb].
          destruct (String.eqb_spec cid ""); [contradiction |].
          erewrite bind_fulfilled
            by (etrans;
                [ apply try_catch_rejected; unfold CloudinaryUtil_deleteImage;
                  rewrite Hhost; reflexivity
                | reflexivity ]).
          apply Hdel. reflexivity. }
        repeat (split; [reflexivity |]).
        intros cid' e' _ _ _. cbn. rewrite !in_app_iff. cbn. tauto.
      * exfalso. now apply (Hsettles cid).
  - eexists. split.
    { apply try_catch_fulfilled.
      erewrite bind_fulfilled
        by (eapply prisma_upload_findUnique_found; eassumption).
      cbn [ur_room ur_upload upload_owner_differs rp_project].
      rewrite Hown, String.eqb_refl, Hcid. cbn [negb].
      erewrite bind_fulfilled by reflexivity.
      apply Hdel. reflexivity. }
    repeat (split; [reflexivity |]). intros cid e [=].
Qed.

Lemma deleteUpload_outlives_the_image_host_witness :
  exists w',
    deleteUpload "up1" "alice" ex_env_cloud_down ex2_world = (Fulfilled tt, w')
    /\ uploads (db w') !! "up1" = None
    /\ In (EvLog Warn "Failed to delete image from Cloudinary:") (trace w').
Proof.
  destruct (deleteUpload_outlives_the_image_host ex_env_cloud_down ex2_world
              "up1" "alice" ex_upload "r1" ex_room ex_project)
    as (w' & Hrun & Hup & _ & _ & _ & Hwarn).
  - vm_compute. reflexivity.
  - reflexivity.
  - vm_compute. reflexivity.
  - vm_compute. reflexivity.
  - reflexivity.
  - intros cid _. cbn. discriminate.
  - exists w'. split; [exact Hrun |].
    split; [rewrite Hup; apply lookup_delete_eq |].
    eapply Hwarn; [reflexivity | discriminate | reflexivity].
Defined.

Lemma upload_read_fulfilled_inv env w uploadId found w' :
  prisma_upload_findUnique uploadId env w = (Fulfilled (Some found), w') ->
  w' = w
  /\ uploads (db w) !! uploadId = Some (ur_upload found)
  /\ match ur_room found with
     | Some rp =>
         exists rid,
           u_roomId (ur_upload found) = Some rid
           /\ rooms (db w) !! rid = Some (rp_room rp)
           /\ projects (db w) !! r_projectId (rp_room rp) = Some (rp_project rp)
     | None =>
         forall rid, u_roomId (ur_upload found) = Some rid ->
                     rooms (db w) !! rid = None
     end.
Proof.
  unfold prisma_upload_findUnique, join_project.
  destruct (uploads (db w) !! uploadId) as [u |] eqn:Hu; [| discriminate].
  destruct (u_roomId u) as [rid |] eqn:Hrid; cbn [mbind option_bind].
  - destruct (rooms (db w) !! rid) as [r |] eqn:Hr.
    + destruct (projects (db w) !! r_projectId r) as [p |] eqn:Hp;
        [| discriminate].
      intros [= <- <-]. cbn. split; [reflexivity |]. split; [reflexivity |].
      exists rid. auto.
    + intros [= <- <-]. cbn. split; [reflexivity |]. split; [reflexivity |].
      intros rid' E. assert (rid' = rid) by congruence. subst rid'. exact Hr.
  - intros [= <- <-]. cbn. split; [reflexivity |]. split; [reflexivity |].
    intros rid' E. congruence.
Qed.

Lemma room_read_fulfilled_inv env w roomId found w' :
  prisma_room_findUnique roomId env w = (Fulfilled (Some found), w') ->
  w' = w
  /\ rooms (db w) !! roomId = Some (rp_room found)
  /\ projects (db w) !! r_projectId (rp_room found) = Some (rp_project found).
Proof.
  unfold prisma_room_findUnique, join_project.
  destruct (rooms (db w) !! roomId) as [r |] eqn:Hr; [| discriminate].
  destruct (projects (db w) !! r_projectId r) as [p |] eqn:Hp;
    [| discriminate].
  intros [= <- <-]. cbn. auto.
Qed.

(** X13. When [updateUploadRoom] succeeds, the target room belongs to a project
    of the requesting user, and so does the room the upload was in, if it
    was in one; the upload row now points to the target room and nothing
    else in the store has changed.  The response repeats the creation time
    as its updatedAt. *)
Theorem updateUploadRoom_stays_within_own_rooms
  env w uploadId roomId userId resp w' :
  updateUploadRoom uploadId roomId userId env w = (Fulfilled resp, w') ->
  exists u r p,
    uploads (db w) !! uploadId = Some u
    /\ rooms (db w) !! roomId = Some r
    /\ projects (db w) !! r_projectId r = Some p
    /\ p_userId p = userId
    /\ (forall rid r0 p0,
          u_roomId u = Some rid -> rooms (db w) !! rid = Some r0 ->
          projects (db w) !! r_projectId r0 = Some p0 -> p_userId p0 = userId)
    /\ uploads (db w') = <[uploadId := move_upload roomId u]> (uploads (db w))
    /\ designs (db w') = designs (db w)
    /\ rooms (db w') = rooms (db w)
    /\ projects (db w') = projects (db w)
    /\ uu_roomId resp = Some roomId
    /\ uu_url resp = u_url u
    /\ uu_updatedAt resp = uu_createdAt resp.
Proof.
  intros H. unfold updateUploadRoom, try_catch in H.
  unfold bind at 1 in H.
  destruct (prisma_upload_findUnique uploadId env w)
    as [[[found |] | e |] w1] eqn:Hread;
    [| discriminate H | now apply rethrow_not_fulfilled in H | discriminate H].
  apply upload_read_fulfilled_inv in Hread.
  destruct Hread as (-> & Hu & Hsrc).
  destruct (upload_in_foreign_room (ur_room found) userId) eqn:Hforeign;
    [discriminate H |].
  unfold bind at 1 in H.
  destruct (prisma_room_findUnique roomId env w)
    as [[[target |] | e |] w1] eqn:Htarget;
    [| discriminate H | now apply rethrow_not_fulfilled in H | discriminate H].
  apply room_read_fulfilled_inv in Htarget.
  destruct Htarget as (-> & Hr & Hp).
  destruct (String.eqb_spec (p_userId (rp_project target)) userId)
    as [Hown | _]; [| discriminate H].
  cbn [negb] in H.
  unfold prisma_upload_update_roomId, bind, get_db in H.
  rewrite Hu, Hr in H. cbn in H. injection H as <- <-.
  exists (ur_upload found), (rp_room target), (rp_project target).
  repeat (split; [first [assumption | reflexivity] |]).
  split; [| repeat split; reflexivity].
  intros rid r0 p0 Hrid Hr0 Hp0.
  destruct (ur_room found) as [rp |].
  - destruct Hsrc as (rid' & Hrid' & Hr' & Hp').
    cbn in Hforeign.
    destruct (String.eqb_spec (p_userId (rp_project rp)) userId) as [Heq |];
      [| discriminate].
    assert (rid' = rid) by congruence. subst rid'.
    assert (r0 = rp_room rp) by congruence. subst r0.
    assert (p0 = rp_project rp) by congruence. congruence.
  - rewrite (Hsrc rid Hrid) in Hr0. discriminate.
Qed.

Lemma updateUploadRoom_stays_within_own_rooms_witness :
  exists resp w',
    updateUploadRoom "up1" "r2" "alice" ex_env ex2_world = (Fulfilled resp, w')
    /\ uu_roomId resp = Some "r2"
    /\ designs (db w') = designs (db ex2_world).
Proof.
  destruct (updateUploadRoom "up1" "r2" "alice" ex_env ex2_world)
    as [o w'] eqn:E.
  assert (Ho : o = Fulfilled
                     {| uu_id := "up1"; uu_filename := "room_1.jpg";
                        uu_originalName := "room.jpg";
                        uu_mimeType := "image/jpeg"; uu_size := 204800;
                        uu_url := "https://img.example/room.jpg";
                        uu_cloudinaryId :=
                          Some "interior-design/room-images/room_1";
                        uu_roomId := Some "r2"; uu_metadata := None;
                        uu_createdAt := ISO 50; uu_updatedAt := ISO 50 |}).
  { assert (E' : fst (updateUploadRoom "up1" "r2" "alice" ex_env ex2_world) = o)
      by now rewrite E.
    rewrite <- E'. vm_compute. reflexivity. }
  subst o.
  destruct (updateUploadRoom_stays_within_own_rooms _ _ _ _ _ _ _ E)
    as (u & r & p & _ & _ & _ & _ & _ & _ & Hd & _ & _ & Hroom & _).
  eexists. exists w'. split; [reflexivity |]. split; [exact Hroom | exact Hd].
Defined.

(** X14. Any user can take over an upload that has no room by attaching it to a
    room of their own: who uploaded it, which the upload's metadata may
    record, is not looked at.  From then on every other user is refused its
    deletion. *)
Theorem orphan_upload_goes_to_whoever_claims_it
  env w uploadId roomId userId u r p :
  uploads (db w) !! uploadId = Some u ->
  u_roomId u = None ->
  rooms (db w) !! roomId = Some r ->
  projects (db w) !! r_projectId r = Some p ->
  p_userId p = userId ->
  exists resp w',
    updateUploadRoom uploadId roomId userId env w = (Fulfilled resp, w')
    /\ uploads (db w') !! uploadId = Some (move_upload roomId u)
    /\ u_metadata (move_upload roomId u) = u_metadata u
    /\ forall other,
         other <> userId ->
         fst (deleteUpload uploadId other env w') =
           Rejected (AppError
                       "Access denied. You can only delete your own uploads."
                       403 "ACCESS_DENIED").
Proof.
  intros Hu Hroom Hr Hp Hown.
  eexists. eexists. split.
  { unfold updateUploadRoom. apply try_catch_fulfilled.
    erewrite bind_fulfilled
      by (eapply prisma_upload_findUnique_orphan; eassumption).
    cbn [ur_room upload_in_foreign_room].
    erewrite bind_fulfilled
      by (eapply prisma_room_findUnique_found; eassumption).
    cbn [rp_project]. rewrite Hown, String.eqb_refl. cbn [negb].
    unfold prisma_upload_update_roomId, bind, get_db. rewrite Hu, Hr.
    reflexivity. }
  split; [cbn; apply lookup_insert_eq |].
  split; [reflexivity |].
  intros other Hother.
  erewrite deleteUpload_gate; [reflexivity | | | | | ].
  - cbn. apply lookup_insert_eq.
  - reflexivity.
  - cbn. exact Hr.
  - cbn. exact Hp.
  - congruence.
Qed.

Lemma orphan_upload_goes_to_whoever_claims_it_witness :
  exists resp w',
    updateUploadRoom "up3" "r3" "bob" ex_env ex2_world = (Fulfilled resp, w')
    /\ (u_roomId <$> uploads (db w') !! "up3") = Some (Some "r3")
    /\ fst (deleteUpload "up3" "alice" ex_env w') =
         Rejected (AppError
                     "Access denied. You can only delete your own uploads."
                     403 "ACCESS_DENIED").
Proof.
  destruct (orphan_upload_goes_to_whoever_claims_it ex_env ex2_world "up3"
              "r3" "bob" ex2_upload_orphan ex2_room3 ex2_project_bob)
    as (resp & w' & Hrun & Hup & _ & Hdel).
  - vm_compute. reflexivity.
  - reflexivity.
  - vm_compute. reflexivity.
  - vm_compute. reflexivity.
  - reflexivity.
  - exists resp, w'. split; [exact Hrun |].
    split; [rewrite Hup; reflexivity |].
    apply Hdel. discriminate.
Defined.

(* ===================================================================== *)
(** ** Deleting a room                                                    *)
(* ===================================================================== *)

Lemma deleteRoom_owner env w roomId userId r p :
  rooms (db w) !! roomId = Some r ->
  projects (db w) !! r_projectId r = Some p ->
  p_userId p = userId ->
  deleteRoom roomId userId env w =
    (Fulfilled tt,
     emit (EvLog Info "Room deleted successfully")
       (with_db (without_room roomId) w)).
Proof.
  intros Hr Hp Hown. unfold deleteRoom. apply try_catch_fulfilled.
  erewrite bind_fulfilled
    by (eapply prisma_room_findUnique_found; eassumption).
  cbn [rp_project]. rewrite Hown, String.eqb_refl. cbn [negb].
  unfold prisma_room_delete, bind, get_db. rewrite Hr. reflexivity.
Qed.

(** X15. When the owner deletes a room, the room's designs are deleted with it
    and every other design stays; the room's uploads are not deleted: they
    stay in the store, unchanged but for their room, which they lose.
    Another user's attempt is refused and changes nothing. *)
Theorem deleteRoom_deletes_designs_and_orphans_uploads
  env w roomId userId r p :
  rooms (db w) !! roomId = Some r ->
  projects (db w) !! r_projectId r = Some p ->
  p_userId p = userId ->
  exists w',
    deleteRoom roomId userId env w = (Fulfilled tt, w')
    /\ rooms (db w') = delete roomId (rooms (db w))
    /\ projects (db w') = projects (db w)
    /\ (forall k d, designs (db w') !! k = Some d <->
                    designs (db w) !! k = Some d /\ d_roomId d <> roomId)
    /\ (forall k u, uploads (db w) !! k = Some u -> u_roomId u = Some roomId ->
          exists u', uploads (db w') !! k = Some u'
                     /\ u_roomId u' = None
                     /\ u_url u' = u_url u
                     /\ u_cloudinaryId u' = u_cloudinaryId u)
    /\ (forall k u, uploads (db w) !! k = Some u -> u_roomId u <> Some roomId ->
          uploads (db w') !! k = Some u)
    /\ (forall k, uploads (db w) !! k = None -> uploads (db w') !! k = None)
    /\ (forall other, other <> userId ->
          deleteRoom roomId other env w =
            (Rejected (AppError
                         "Access denied. You can only delete your own rooms."
                         403 "ACCESS_DENIED"),
             emit (EvLog Error "Room deletion failed:") w)).
Proof.
  intros Hr Hp Hown. eexists.
  split; [eapply deleteRoom_owner; eassumption |].
  split; [reflexivity |]. split; [reflexivity |].
  split.
  { intros k d. cbn. rewrite map_lookup_filter_Some. cbn. reflexivity. }
  split.
  { intros k u Hu Hroom. cbn. rewrite lookup_fmap, Hu. cbn.
    eexists. split; [reflexivity |].
    unfold detach_upload. rewrite Hroom, String.eqb_refl. cbn. auto. }
  split.
  { intros k u Hu Hroom. cbn. rewrite lookup_fmap, Hu. cbn. f_equal.
    unfold detach_upload. destruct (u_roomId u) as [rid |]; [| reflexivity].
    destruct (String.eqb_spec rid roomId); [congruence | reflexivity]. }
  split.
  { intros k Hu. cbn. now rewrite lookup_fmap, Hu. }
  intros other Hother. unfold deleteRoom.
  etrans.
  { apply try_catch_rejected.
    erewrite bind_fulfilled
      by (eapply prisma_room_findUnique_found; eassumption).
    cbn [rp_project].
    destruct (String.eqb_spec (p_userId p) other); [congruence |].
    reflexivity. }
  reflexivity.
Qed.

Lemma deleteRoom_witness :
  exists w',
    deleteRoom "r1" "alice" ex_env ex2_world = (Fulfilled tt, w')
    /\ designs (db w') !! "d0" = None
    /\ designs (db w') !! "db" = Some ex2_design_b
    /\ (u_roomId <$> uploads (db w') !! "up1") = Some None.
Proof.
  destruct (deleteRoom_deletes_designs_and_orphans_uploads ex_env ex2_world
              "r1" "alice" ex_room ex_project)
    as (w' & Hrun & _ & _ & Hdes & Hup & _).
  - vm_compute. reflexivity.
  - vm_compute. reflexivity.
  - reflexivity.
  - exists w'. split; [exact Hrun |].
    split.
    { destruct (designs (db w') !! "d0") as [d |] eqn:E; [| reflexivity].
      apply Hdes in E. destruct E as [E Hne]. vm_compute in E.
      injection E as <-. now contradiction Hne. }
    split.
    { apply Hdes. split; [vm_compute; reflexivity | cbn; discriminate]. }
    destruct (Hup "up1" ex_upload) as (u' & -> & Hnone & _);
      [vm_compute; reflexivity | reflexivity |].
    cbn. now rewrite Hnone.
Defined.

(** X16. Once a room is deleted, the uploads it held are out of their owner's
    reach: the owner's [deleteUpload] is refused with 403 ACCESS_DENIED,
    as is anybody's, while [getUploadById] goes on returning the upload,
    now without a room. *)
Theorem uploads_of_a_deleted_room_are_stranded
  env w roomId userId r p uploadId u :
  rooms (db w) !! roomId = Some r ->
  projects (db w) !! r_projectId r = Some p ->
  p_userId p = userId ->
  uploads (db w) !! uploadId = Some u ->
  u_roomId u = Some roomId ->
  exists w' resp,
    deleteRoom roomId userId env w = (Fulfilled tt, w')
    /\ (forall anyone,
          fst (deleteUpload uploadId anyone env w') =
            Rejected (AppError
                        "Access denied. You can only delete your own uploads."
                        403 "ACCESS_DENIED"))
    /\ getUploadById uploadId env w' = (Fulfilled resp, w')
    /\ ures_url resp = u_url u
    /\ ures_room resp = None.
Proof.
  intros Hr Hp Hown Hu Hroom.
  assert (Hread : forall env',
            prisma_upload_findUnique uploadId env'
              (emit (EvLog Info "Room deleted successfully")
                 (with_db (without_room roomId) w)) =
            (Fulfilled (Some {| ur_upload := detach_upload roomId u;
                                ur_room := None |}),
             emit (EvLog Info "Room deleted successfully")
               (with_db (without_room roomId) w))).
  { intros env'. apply prisma_upload_findUnique_orphan.
    - cbn. now rewrite lookup_fmap, Hu.
    - unfold detach_upload. now rewrite Hroom, String.eqb_refl. }
  eexists. eexists.
  split; [eapply deleteRoom_owner; eassumption |].
  split.
  { intros anyone. unfold deleteUpload.
    erewrite try_catch_rejected
      by (erewrite bind_fulfilled by apply Hread; reflexivity).
    reflexivity. }
  split.
  { unfold getUploadById. apply try_catch_fulfilled.
    erewrite bind_fulfilled by apply Hread. reflexivity. }
  split; [| reflexivity].
  cbn. unfold detach_upload. rewrite Hroom, String.eqb_refl. reflexivity.
Qed.

Lemma uploads_of_a_deleted_room_witness :
  exists w' resp,
    deleteRoom "r1" "alice" ex_env ex2_world = (Fulfilled tt, w')
    /\ fst (deleteUpload "up1" "alice" ex_env w') =
         Rejected (AppError
                     "Access denied. You can only delete your own uploads."
                     403 "ACCESS_DENIED")
    /\ getUploadById "up1" ex_env w' = (Fulfilled resp, w')
    /\ ures_url resp = "https://img.example/room.jpg".
Proof.
  destruct (uploads_of_a_deleted_room_are_stranded ex_env ex2_world "r1"
              "alice" ex_room ex_project "up1" ex_upload)
    as (w' & resp & Hrun & Hdel & Hget & Hurl & _).
  - vm_compute. reflexivity.
  - vm_compute. reflexivity.
  - reflexivity.
  - vm_compute. reflexivity.
  - reflexivity.
  - exists w', resp. split; [exact Hrun |]. split; [apply Hdel |].
    split; [exact Hget | exact Hurl].
Defined.

(* ===================================================================== *)
(** ** The HTTP edge                                                      *)
(* ===================================================================== *)

Lemma errorHandler_total (A : Type) isDevelopment message statusCode code env w :
  exists resp : ApiResponse A,
    fst (errorHandler isDevelopment message statusCode code env w) =
      Fulfilled resp.
Proof.
  unfold errorHandler, bind, logger.
  destruct (statusCode =? 404), isDevelopment; eexists; reflexivity.
Qed.

(** X17. The error middleware keeps the status code of an [AppError] (500 when
    it is 0) but never its code: the body's [error] is "NOT_FOUND" for any
    404 and "INTERNAL_ERROR" for everything else, so codes such as
    ACCESS_DENIED or ROOM_NOT_FOUND do not reach the client.  Every 404 is
    reported as "Route not found", and outside development every other
    message is replaced by "Something went wrong". *)
Theorem errorHandler_drops_the_error_code
  (A : Type) isDevelopment message statusCode code env w :
  exists resp : ApiResponse A,
    errorHandler isDevelopment message statusCode code env w =
      (Fulfilled resp, emit (EvLog Error "Error caught by global handler:") w)
    /\ api_success resp = false
    /\ api_data resp = None
    /\ (statusCode = 404 ->
        api_status resp = 404 /\ api_message resp = "Route not found"
        /\ api_error resp = Some "NOT_FOUND")
    /\ (statusCode <> 404 ->
        api_status resp = (if statusCode =? 0 then 500 else statusCode)
        /\ api_error resp = Some "INTERNAL_ERROR"
        /\ api_message resp =
             (if isDevelopment then message else "Something went wrong")).
Proof.
  unfold errorHandler, bind, logger.
  destruct (Z.eqb_spec statusCode 404) as [-> | Hne].
  - destruct isDevelopment; eexists; (split; [reflexivity |]); cbn;
      repeat split; congruence.
  - destruct isDevelopment; eexists; (split; [reflexivity |]); cbn;
      repeat split; congruence.
Qed.

Lemma errorHandler_drops_the_error_code_witness :
  exists resp : ApiResponse DesignResponse,
    fst (errorHandler false
           "Access denied. You can only view your own designs." 403
           "ACCESS_DENIED" ex_env ex_world) = Fulfilled resp
    /\ api_status resp = 403
    /\ api_error resp = Some "INTERNAL_ERROR"
    /\ api_message resp = "Something went wrong".
Proof.
  destruct (errorHandler_drops_the_error_code DesignResponse false
              "Access denied. You can only view your own designs." 403
              "ACCESS_DENIED" ex_env ex_world)
    as (resp & Hrun & _ & _ & _ & Hother).
  destruct (Hother ltac:(discriminate)) as (H1 & H2 & H3).
  exists resp. rewrite Hrun. repeat split; assumption.
Defined.

(** *** Which computations settle *)

Section Settled.
Context {A B : Type}.

Lemma settled_ret (a : A) : settled (ret a).
Proof. intros env w. discriminate. Qed.

Lemma settled_throw e : settled (@throw A e).
Proof. intros env w. discriminate. Qed.

Lemma settled_bind (m : M A) (k : A -> M B) :
  settled m -> (forall a, settled (k a)) -> settled (bind m k).
Proof.
  intros Hm Hk env w. unfold bind. specialize (Hm env w).
  destruct (m env w) as [[a | e |] w1]; cbn in *;
    [apply Hk | discriminate | congruence].
Qed.

Lemma settled_try_catch (m : M A) h :
  settled m -> (forall e, settled (h e)) -> settled (try_catch m h).
Proof.
  intros Hm Hh env w. unfold try_catch. specialize (Hm env w).
  destruct (m env w) as [[a | e |] w1]; cbn in *;
    [discriminate | apply Hh | congruence].
Qed.
End Settled.

Lemma settled_logger l msg : settled (logger l msg).
Proof. intros env w. discriminate. Qed.

Lemma settled_spawn j : settled (spawn j).
Proof. intros env w. discriminate. Qed.

Lemma settled_rethrow {A} l m c e : settled (@rethrow A l m c e).
Proof.
  intros env w. destruct (@rethrow_rejects A l m c e env w) as (e' & -> & _).
  discriminate.
Qed.

Lemma settled_room_read id : settled (prisma_room_findUnique id).
Proof.
  intros env w. unfold prisma_room_findUnique, join_project.
  repeat case_match; discriminate.
Qed.

Lemma settled_design_read id : settled (prisma_design_findUnique id).
Proof.
  intros env w. unfold prisma_design_findUnique, join_project.
  repeat case_match; discriminate.
Qed.

Lemma settled_upload_read id : settled (prisma_upload_findUnique id).
Proof.
  intros env w. unfold prisma_upload_findUnique, join_project.
  repeat case_match; discriminate.
Qed.

Lemma settled_design_create data : settled (prisma_design_create data).
Proof.
  intros env w. unfold prisma_design_create, bind, draw_cuid, get_db.
  cbn [db]. repeat case_match; discriminate.
Qed.

Lemma settled_design_delete id : settled (prisma_design_delete id).
Proof.
  intros env w. unfold prisma_design_delete, bind, get_db.
  repeat case_match; discriminate.
Qed.

Lemma settled_upload_move id roomId :
  settled (prisma_upload_update_roomId id roomId).
Proof.
  intros env w. unfold prisma_upload_update_roomId, bind, get_db.
  repeat case_match; discriminate.
Qed.

Lemma settled_room_delete id : settled (prisma_room_delete id).
Proof.
  intros env w. unfold prisma_room_delete, bind, get_db.
  repeat case_match; discriminate.
Qed.

Lemma settled_processDesignGeneration id room cp prov :
  settled (processDesignGeneration id room cp prov).
Proof. intros env w. discriminate. Qed.

Lemma settled_designs_of_room roomId :
  settled (prisma_design_findMany_of_room roomId).
Proof. intros env w. discriminate. Qed.

Lemma settled_design_count f : settled (prisma_design_count f).
Proof. intros env w. discriminate. Qed.

Lemma settled_design_findMany f skip take :
  settled (prisma_design_findMany f skip take).
Proof.
  intros env w. unfold prisma_design_findMany, skip_take.
  repeat case_match; discriminate.
Qed.

Create HintDb settled discriminated.
#[local] Hint Resolve settled_ret settled_throw settled_logger settled_spawn
  settled_rethrow settled_room_read settled_design_read settled_upload_read
  settled_design_create settled_design_delete settled_upload_move
  settled_room_delete settled_processDesignGeneration settled_designs_of_room
  settled_design_count settled_design_findMany : settled.

Ltac settle :=
  cbv zeta;
  repeat first
    [ solve [auto with settled]
    | apply settled_try_catch; [| intros ?]
    | apply settled_bind; [| intros ?]
    | case_match ].

Lemma settled_generateDesign userId designData :
  settled (generateDesign userId designData).
Proof. unfold generateDesign. settle. Qed.

Lemma settled_getDesignById designId userId :
  settled (getDesignById designId userId).
Proof. unfold getDesignById. settle. Qed.

Lemma settled_deleteDesign designId userId :
  settled (deleteDesign designId userId).
Proof. unfold deleteDesign. settle. Qed.

Lemma settled_regenerateDesign designId userId options :
  settled (regenerateDesign designId userId options).
Proof.
  unfold regenerateDesign.
  pose proof settled_generateDesign. settle.
Qed.

Lemma settled_getRoomDesigns roomId userId :
  settled (getRoomDesigns roomId userId).
Proof. unfold getRoomDesigns. settle. Qed.

Lemma settled_getDesigns userId query : settled (getDesigns userId query).
Proof. unfold getDesigns. settle. Qed.

Lemma settled_getUploadById uploadId : settled (getUploadById uploadId).
Proof. unfold getUploadById. settle. Qed.

Lemma settled_updateUploadRoom uploadId roomId userId :
  settled (updateUploadRoom uploadId roomId userId).
Proof. unfold updateUploadRoom. settle. Qed.

Lemma settled_deleteRoom roomId userId : settled (deleteRoom roomId userId).
Proof. unfold deleteRoom. settle. Qed.

Lemma answers_try_catch {A} (m : M A) h env w :
  settled m ->
  (forall e env' w', answers (fst (h e env' w'))) ->
  answers (fst (try_catch m h env w)).
Proof.
  intros Hm Hh. unfold try_catch. specialize (Hm env w).
  destruct (m env w) as [[a | e |] w1]; cbn in *;
    [exact I | apply Hh | congruence].
Qed.

Lemma answers_rethrow_any {A} l m c e env w :
  answers (fst (@rethrow A l m c e env w)).
Proof.
  destruct (@rethrow_rejects A l m c e env w) as (e' & -> & He' & _).
  exact He'.
Qed.

Lemma rejection_of_rethrow {A} (m : M A) l msg c env w e :
  fst (try_catch m (rethrow l msg c) env w) = Rejected e ->
  instanceof_AppError e = true.
Proof.
  unfold try_catch. destruct (m env w) as [[a | e0 |] w1].
  - discriminate.
  - destruct (@rethrow_rejects A l msg c e0 env w1) as (e' & -> & He' & _).
    cbn. now intros [= <-].
  - discriminate.
Qed.

Lemma generateDesign_answers userId designData env w :
  answers (fst (generateDesign userId designData env w)).
Proof.
  unfold generateDesign.
  apply answers_try_catch; [settle | intros; apply answers_rethrow_any].
Qed.

Lemma regenerateDesign_answers designId userId options env w :
  answers (fst (regenerateDesign designId userId options env w)).
Proof.
  unfold regenerateDesign.
  apply answers_try_catch; [| intros; apply answers_rethrow_any].
  pose proof settled_generateDesign. settle.
Qed.

Lemma getDesignById_answers designId userId env w :
  answers (fst (getDesignById designId userId env w)).
Proof.
  unfold getDesignById.
  apply answers_try_catch; [settle | intros; apply answers_rethrow_any].
Qed.

Lemma deleteDesign_answers designId userId env w :
  answers (fst (deleteDesign designId userId env w)).
Proof.
  unfold deleteDesign.
  apply answers_try_catch; [settle | intros; apply answers_rethrow_any].
Qed.

Lemma getRoomDesigns_answers roomId userId env w :
  answers (fst (getRoomDesigns roomId userId env w)).
Proof.
  unfold getRoomDesigns.
  apply answers_try_catch; [settle | intros; apply answers_rethrow_any].
Qed.

Lemma getDesigns_answers userId query env w :
  answers (fst (getDesigns userId query env w)).
Proof.
  unfold getDesigns.
  apply answers_try_catch; [settle | intros; reflexivity].
Qed.

Lemma getUploadById_answers uploadId env w :
  answers (fst (getUploadById uploadId env w)).
Proof.
  unfold getUploadById.
  apply answers_try_catch; [settle | intros; apply answers_rethrow_any].
Qed.

(** X18. Every service method rejects only with an [AppError]: anything else a
    store operation throws is turned into the method's own 500.  Except
    for [deleteUpload], which waits for the image host, each method also
    settles in every world, whatever the generation provider does. *)
Theorem services_reject_only_with_AppErrors env w :
  (forall userId designData,
     answers (fst (generateDesign userId designData env w)))
  /\ (forall designId userId options,
        answers (fst (regenerateDesign designId userId options env w)))
  /\ (forall designId userId,
        answers (fst (getDesignById designId userId env w)))
  /\ (forall designId userId,
        answers (fst (deleteDesign designId userId env w)))
  /\ (forall roomId userId,
        answers (fst (getRoomDesigns roomId userId env w)))
  /\ (forall userId query, answers (fst (getDesigns userId query env w)))
  /\ (forall uploadId, answers (fst (getUploadById uploadId env w)))
  /\ (forall uploadId roomId userId,
        answers (fst (updateUploadRoom uploadId roomId userId env w)))
  /\ (forall roomId userId, answers (fst (deleteRoom roomId userId env w)))
  /\ (forall uploadId userId e,
        fst (deleteUpload uploadId userId env w) = Rejected e ->
        instanceof_AppError e = true).
Proof.
  repeat split; intros.
  - apply generateDesign_answers.
  - apply regenerateDesign_answers.
  - apply getDesignById_answers.
  - apply deleteDesign_answers.
  - apply getRoomDesigns_answers.
  - apply getDesigns_answers.
  - apply getUploadById_answers.
  - unfold updateUploadRoom.
    apply answers_try_catch; [settle | intros; apply answers_rethrow_any].
  - unfold deleteRoom.
    apply answers_try_catch; [settle | intros; apply answers_rethrow_any].
  - unfold deleteUpload in *. eapply rejection_of_rethrow. eassumption.
Qed.

Lemma services_reject_only_with_AppErrors_witness :
  fst (getDesignById "dc" "alice" ex_env ex2_world) =
    Rejected (AppError "Access denied. You can only view your own designs."
                403 "ACCESS_DENIED")
  /\ answers (fst (getDesignById "dc" "alice" ex_env ex2_world))
  /\ instanceof_AppError
       (AppError "Access denied. You can only delete your own uploads."
          403 "ACCESS_DENIED") = true.
Proof.
  destruct (services_reject_only_with_AppErrors ex_env ex2_world)
    as (_ & _ & Hget & _ & _ & _ & _ & _ & _ & Hdel).
  split; [vm_compute; reflexivity |].
  split; [apply Hget |].
  apply (Hdel "up3" "alice"). vm_compute. reflexivity.
Defined.

(** *** Controllers *)

Lemma asyncHandler_responds {A} isDevelopment (fn : M (ApiResponse A)) env w :
  answers (fst (fn env w)) ->
  exists resp, fst (asyncHandler isDevelopment fn env w) = Fulfilled resp.
Proof.
  unfold asyncHandler, try_catch.
  destruct (fn env w) as [[resp | e |] w1]; cbn [fst answers].
  - intros _. eauto.
  - intros He.
    destruct e as [m sc c | | |]; [| discriminate | discriminate | discriminate].
    destruct (errorHandler_total A isDevelopment m sc c env w1)
      as (resp & Hrun). rewrite Hrun. eauto.
  - contradiction.
Qed.

Lemma answers_then {A B} (m : M A) (k : A -> M B) env w :
  answers (fst (m env w)) ->
  (forall a env' w', exists b, fst (k a env' w') = Fulfilled b) ->
  answers (fst (bind m k env w)).
Proof.
  intros Hm Hk. unfold bind.
  destruct (m env w) as [[a | e |] w1]; cbn [fst answers] in *.
  - destruct (Hk a env w1) as [b Hb]. rewrite Hb. exact I.
  - exact Hm.
  - contradiction.
Qed.

(** X19. Every request to the design controller, and the upload read, gets a
    response in every world: the controller's promise never rejects and
    never stays pending, whatever the store holds and whatever the
    generation provider does. *)
Theorem controllers_always_respond isDevelopment env w :
  (forall userId designData,
     exists resp,
       fst (DesignController_generateDesign isDevelopment userId designData
              env w) = Fulfilled resp)
  /\ (forall userId id aiProvider customPrompt,
        exists resp,
          fst (DesignController_regenerateDesign isDevelopment userId id
                 aiProvider customPrompt env w) = Fulfilled resp)
  /\ (forall userId query,
        exists resp,
          fst (DesignController_getDesigns isDevelopment userId query env w)
            = Fulfilled resp)
  /\ (forall userId id,
        exists resp,
          fst (DesignController_getDesign isDevelopment userId id env w)
            = Fulfilled resp)
  /\ (forall userId id,
        exists resp,
          fst (DesignController_deleteDesign isDevelopment userId id env w)
            = Fulfilled resp)
  /\ (forall userId roomId,
        exists resp,
          fst (DesignController_getRoomDesigns isDevelopment userId roomId
                 env w) = Fulfilled resp)
  /\ (forall id,
        exists resp,
          fst (UploadController_getUpload isDevelopment id env w)
            = Fulfilled resp).
Proof.
  repeat split; intros; apply asyncHandler_responds; apply answers_then;
    first [ apply generateDesign_answers | apply regenerateDesign_answers
          | apply getDesigns_answers | apply getDesignById_answers
          | apply deleteDesign_answers | apply getRoomDesigns_answers
          | apply getUploadById_answers
          | intros; eexists; reflexivity ].
Qed.

(** X20. Reading a design over HTTP never changes the store, and the
    response is decided by the store alone.  The owner gets status 200 and
    the design with its room.  A missing design gives 404, with the message
    "Route not found" and the code "NOT_FOUND".  Anybody else than the
    owner gets status 403, but the body does not name the reason: it
    carries the code "INTERNAL_ERROR" and, outside development, the message
    "Something went wrong".  A design whose room or project is missing
    gives 500.  No response but the owner's carries data. *)
Theorem getDesign_over_HTTP isDevelopment env w userId id :
  exists resp w',
    DesignController_getDesign isDevelopment userId id env w =
      (Fulfilled resp, w')
    /\ db w' = db w
    /\ (designs (db w) !! id = None ->
        api_status resp = 404
        /\ api_success resp = false
        /\ api_data resp = None
        /\ api_error resp = Some "NOT_FOUND"
        /\ api_message resp = "Route not found")
    /\ (forall d r p,
          designs (db w) !! id = Some d ->
          rooms (db w) !! d_roomId d = Some r ->
          projects (db w) !! r_projectId r = Some p ->
          (p_userId p = userId ->
           api_status resp = 200
           /\ api_success resp = true
           /\ api_data resp =
                Some (formatDesignResponse d
                        (Some {| rp_room := r; rp_project := p |}) true))
          /\ (p_userId p <> userId ->
              api_status resp = 403
              /\ api_success resp = false
              /\ api_data resp = None
              /\ api_error resp = Some "INTERNAL_ERROR"
              /\ api_message resp =
                   (if isDevelopment
                    then "Access denied. You can only view your own designs."
                    else "Something went wrong")))
    /\ (forall d,
          designs (db w) !! id = Some d ->
          (rooms (db w) !! d_roomId d = None
           \/ exists r, rooms (db w) !! d_roomId d = Some r
                        /\ projects (db w) !! r_projectId r = None) ->
          api_status resp = 500
          /\ api_success resp = false
          /\ api_data resp = None
          /\ api_error resp = Some "INTERNAL_ERROR").
Proof.
  unfold DesignController_getDesign, asyncHandler.
  destruct (designs (db w) !! id) as [d |] eqn:Hd.
  - destruct (rooms (db w) !! d_roomId d) as [r |] eqn:Hr.
    + destruct (projects (db w) !! r_projectId r) as [p |] eqn:Hp.
      * destruct (String.eqb_spec (p_userId p) userId) as [Hown | Hown].
        -- eexists. eexists. split.
           { apply try_catch_fulfilled.
             erewrite bind_fulfilled
               by (eapply getDesignById_owner; eassumption).
             reflexivity. }
           split; [reflexivity |].
           split; [discriminate |].
           split.
           { intros d' r' p' [= <-] Hr' Hp'.
             rewrite Hr in Hr'. injection Hr' as <-.
             rewrite Hp in Hp'. injection Hp' as <-.
             split; [intros _; repeat split; reflexivity | contradiction]. }
           intros d' [= <-] [Hn | (r' & Hr' & Hn)]; congruence.
        -- destruct isDevelopment; eexists; eexists; (split;
             [ erewrite try_catch_rejected
                 by (apply bind_rejected;
                     apply (getDesignById_gate env w id userId d r p);
                     assumption);
               reflexivity |]);
             (split; [reflexivity |]);
             (split; [discriminate |]);
             (split;
              [ intros d' r' p' [= <-] Hr' Hp';
                rewrite Hr in Hr'; injection Hr' as <-;
                rewrite Hp in Hp'; injection Hp' as <-;
                split; [contradiction | intros _; repeat split; reflexivity]
              | intros d' [= <-] [Hn | (r' & Hr' & Hn)]; congruence ]).
      * destruct isDevelopment; eexists; eexists; (split;
          [ unfold getDesignById, try_catch, bind, prisma_design_findUnique,
              join_project; rewrite Hd, Hr, Hp; reflexivity |]);
          (split; [reflexivity |]);
          (split; [discriminate |]);
          (split;
           [ intros d' r' p' [= <-] Hr' Hp';
             rewrite Hr in Hr'; injection Hr' as <-; congruence
           | intros d' [= <-] _; repeat split; reflexivity ]).
    + destruct isDevelopment; eexists; eexists; (split;
        [ unfold getDesignById, try_catch, bind, prisma_design_findUnique,
            join_project; rewrite Hd, Hr; reflexivity |]);
        (split; [reflexivity |]);
        (split; [discriminate |]);
        (split;
         [ intros d' r' p' [= <-] Hr' Hp'; congruence
         | intros d' [= <-] _; repeat split; reflexivity ]).
  - destruct isDevelopment; eexists; eexists; (split;
      [ erewrite try_catch_rejected
          by (apply bind_rejected; apply getDesignById_missing; exact Hd);
        reflexivity |]);
      (split; [reflexivity |]);
      (split; [intros _; repeat split; reflexivity |]);
      (split; [intros d' r' p' Hd'; discriminate Hd'
              | intros d' Hd'; discriminate Hd']).
Qed.

Lemma getDesign_over_HTTP_witness :
  exists resp w',
    DesignController_getDesign false "bob" "d0" ex_env ex_world =
      (Fulfilled resp, w')
    /\ api_status resp = 403
    /\ api_data resp = None
    /\ api_error resp = Some "INTERNAL_ERROR"
    /\ api_message resp = "Something went wrong".
Proof.
  destruct (getDesign_over_HTTP false ex_env ex_world "bob" "d0")
    as (resp & w' & Hrun & _ & _ & Hfound & _).
  destruct (Hfound ex_design ex_room ex_project) as (_ & Hother).
  - vm_compute. reflexivity.
  - vm_compute. reflexivity.
  - vm_compute. reflexivity.
  - destruct Hother as (H1 & _ & H3 & H4 & H5); [discriminate |].
    exists resp, w'. repeat split; assumption.
Defined.

(* ===================================================================== *)
(** ** Safe file names                                                    *)
(* ===================================================================== *)

Lemma is_safe_underscore : is_safe_char underscore = true.
Proof. reflexivity. Qed.

Lemma replace_unsafe_safe s :
  Forall (fun c => is_safe_char c = true) (replace_unsafe s).
Proof.
  induction s as [| c s IH]; cbn; constructor; [| exact IH].
  destruct (is_safe_char c) eqn:E; [exact E | reflexivity].
Qed.

Lemma collapse_Forall (P : ascii -> Prop) s :
  Forall P s -> Forall P (collapse_underscores s).
Proof.
  induction 1 as [| c s Hc Hs IH]; cbn; [constructor |].
  destruct (is_underscore c).
  - destruct s as [| c' s']; [repeat constructor; exact Hc |].
    destruct (is_underscore c'); [exact IH | constructor; assumption].
  - constructor; assumption.
Qed.

Lemma collapse_head s c r :
  collapse_underscores s = c :: r -> exists r', s = c :: r' \/
    (is_underscore c = true /\ exists pre, s = pre ++ c :: r'
                           /\ Forall (fun x => is_underscore x = true) pre).
Proof.
  revert c r. induction s as [| x s IH]; cbn; intros c r H; [discriminate |].
  destruct (is_underscore x) eqn:Ex.
  - destruct s as [| x' s'].
    + injection H as <- <-. exists []. now left.
    + destruct (is_underscore x') eqn:Ex'.
      * destruct (IH _ _ H) as [r' [E | (Hc & pre & E & Hpre)]].
        -- exists r'. right. injection E as <- <-. split; [exact Ex' |].
           exists [x]. split; [reflexivity |]. now constructor.
        -- exists r'. right. split; [exact Hc |].
           exists (x :: pre). rewrite E. split; [reflexivity |].
           now constructor.
      * injection H as <- <-. eexists. now left.
  - injection H as <- <-. eexists. now left.
Qed.

Lemma no_double_cons c t :
  no_double_underscore (c :: t)
  = match t with
    | c' :: _ => negb (is_underscore c && is_underscore c')
    | [] => true
    end && no_double_underscore t.
Proof. reflexivity. Qed.

Lemma collapse_no_double s :
  no_double_underscore (collapse_underscores s) = true.
Proof.
  induction s as [| c s IH]; [reflexivity |].
  cbn [collapse_underscores].
  destruct (is_underscore c) eqn:Ec.
  - destruct s as [| c' s']; [reflexivity |].
    destruct (is_underscore c') eqn:Ec'; [exact IH |].
    assert (E : collapse_underscores (c' :: s')
                = c' :: collapse_underscores s').
    { cbn [collapse_underscores]. now rewrite Ec'. }
    rewrite E in *. rewrite no_double_cons, IH, Ec, Ec'. reflexivity.
  - rewrite no_double_cons, IH, Ec.
    destruct (collapse_underscores s); reflexivity.
Qed.

Lemma strip_leading_suffix s :
  exists pre, s = pre ++ strip_leading_underscores s
              /\ Forall (fun x => is_underscore x = true) pre.
Proof.
  induction s as [| c s (pre & E & Hpre)]; cbn.
  - exists []. split; [reflexivity | constructor].
  - destruct (is_underscore c) eqn:Ec.
    + exists (c :: pre). split; [cbn [app]; now f_equal | now constructor].
    + exists []. split; [reflexivity | constructor].
Qed.

Lemma strip_leading_head s c r :
  strip_leading_underscores s = c :: r -> is_underscore c = false.
Proof.
  induction s as [| x s IH]; cbn; [discriminate |].
  destruct (is_underscore x) eqn:Ex; [exact IH |].
  now intros [= <- <-].
Qed.

Lemma strip_leading_id s c r :
  s = c :: r -> is_underscore c = false -> strip_leading_underscores s = s.
Proof. intros -> H. cbn. now rewrite H. Qed.

Lemma no_double_app_r s1 s2 :
  no_double_underscore (s1 ++ s2) = true -> no_double_underscore s2 = true.
Proof.
  induction s1 as [| c s1 IH]; cbn [app]; [auto |].
  cbn [no_double_underscore]. intros H. apply andb_prop in H as [_ H]. auto.
Qed.

Lemma no_double_app_l s1 s2 :
  no_double_underscore (s1 ++ s2) = true -> no_double_underscore s1 = true.
Proof.
  induction s1 as [| c s1 IH]; cbn [app]; [reflexivity |].
  cbn [no_double_underscore]. intros H. apply andb_prop in H as [H1 H2].
  rewrite (IH H2), andb_true_r.
  destruct s1 as [| c' s1']; [reflexivity | exact H1].
Qed.

Lemma strip_underscores_middle s :
  exists pre post,
    s = pre ++ strip_underscores s ++ post
    /\ Forall (fun x => is_underscore x = true) pre
    /\ Forall (fun x => is_underscore x = true) post.
Proof.
  unfold strip_underscores.
  destruct (strip_leading_suffix s) as (pre & E & Hpre).
  destruct (strip_leading_suffix (rev (strip_leading_underscores s)))
    as (pre' & E' & Hpre').
  exists pre, (rev pre'). split; [| split].
  - rewrite <- rev_app_distr, <- E', rev_involutive. exact E.
  - exact Hpre.
  - apply List.Forall_rev. exact Hpre'.
Qed.

Lemma strip_underscores_head s c r :
  strip_underscores s = c :: r -> is_underscore c = false.
Proof.
  unfold strip_underscores. intros H.
  destruct (strip_leading_suffix (rev (strip_leading_underscores s)))
    as (pre' & E' & _).
  apply (f_equal (@rev ascii)) in E'.
  rewrite rev_involutive, rev_app_distr, H in E'.
  cbn [app] in E'. exact (strip_leading_head _ _ _ E').
Qed.

Lemma strip_underscores_last s r c :
  strip_underscores s = r ++ [c] -> is_underscore c = false.
Proof.
  unfold strip_underscores. intros H.
  apply (f_equal (@rev ascii)) in H.
  rewrite rev_involutive, rev_app_distr in H. cbn [rev app] in H.
  exact (strip_leading_head _ _ _ H).
Qed.

Lemma Forall_app_middle (P : ascii -> Prop) a b c :
  Forall P (a ++ b ++ c) -> Forall P b.
Proof.
  intros H. apply Forall_app in H as [_ H]. now apply Forall_app in H as [H _].
Qed.

Lemma firstn_prefix (s : list ascii) n : s = firstn n s ++ skipn n s.
Proof. symmetry. apply firstn_skipn. Qed.

Lemma strip_leading_all s :
  Forall (fun x => is_underscore x = true) s ->
  strip_leading_underscores s = [].
Proof. induction 1 as [| c s Hc _ IH]; cbn; [| rewrite Hc]; auto. Qed.

Lemma collapse_all_underscores s :
  Forall (fun x => is_underscore x = true) (collapse_underscores s) ->
  Forall (fun x => is_underscore x = true) s.
Proof.
  induction s as [| c s IH]; [constructor |].
  cbn [collapse_underscores].
  destruct (is_underscore c) eqn:Ec.
  - destruct s as [| c' s']; [auto |].
    destruct (is_underscore c') eqn:Ec'.
    + intros H. constructor; auto.
    + intros H. apply Forall_inv_tail in H. constructor; auto.
  - intros H. apply Forall_inv in H. congruence.
Qed.

Lemma collapse_id s :
  no_double_underscore s = true -> collapse_underscores s = s.
Proof.
  induction s as [| c s IH]; [reflexivity |].
  rewrite no_double_cons. intros H. apply andb_prop in H as [H1 H2].
  cbn [collapse_underscores]. rewrite (IH H2).
  destruct (is_underscore c) eqn:Ec; [| reflexivity].
  destruct s as [| c' s']; [reflexivity |].
  cbn in H1. rewrite ?Ec in H1. cbn in H1.
  destruct (is_underscore c'); [discriminate | reflexivity].
Qed.

Lemma replace_unsafe_id s :
  Forall (fun c => is_safe_char c = true) s -> replace_unsafe s = s.
Proof.
  induction 1 as [| c s Hc _ IH]; cbn; [reflexivity |].
  unfold replace_unsafe in IH. now rewrite Hc, IH.
Qed.

Lemma strip_underscores_id s :
  (forall c r, s = c :: r -> is_underscore c = false) ->
  (forall r c, s = r ++ [c] -> is_underscore c = false) ->
  strip_underscores s = s.
Proof.
  intros Hhead Hlast. unfold strip_underscores.
  destruct s as [| c r]; [reflexivity |].
  rewrite (strip_leading_id (c :: r) c r eq_refl (Hhead _ _ eq_refl)).
  destruct (rev (c :: r)) as [| x t] eqn:E.
  - apply (f_equal (@rev ascii)) in E. rewrite rev_involutive in E.
    discriminate E.
  - assert (Hx : is_underscore x = false).
    { apply (Hlast (rev t)). apply (f_equal (@rev ascii)) in E.
      rewrite rev_involutive in E. exact E. }
    rewrite (strip_leading_id (x :: t) x t eq_refl Hx), <- E.
    apply rev_involutive.
Qed.

Lemma is_underscore_false c : is_underscore c = false <-> c <> underscore.
Proof. apply Ascii.eqb_neq. Qed.

Lemma is_underscore_true c : is_underscore c = true <-> c = underscore.
Proof. apply Ascii.eqb_eq. Qed.

(** X21. The safe name is made of letters, digits, hyphens and underscores only,
    is at most fifty characters long, has no two underscores side by side
    and does not begin with one; unless it was cut at fifty characters it
    does not end with one either. *)
Theorem safeName_is_clean (name : string) :
  let s := list_ascii_of_string (safeName_of name) in
  Forall (fun c => is_safe_char c = true) s
  /\ (List.length s <= 50)%nat
  /\ no_double_underscore s = true
  /\ (forall c r, s = c :: r -> c <> underscore)
  /\ ((List.length s < 50)%nat -> forall r c, s = r ++ [c] -> c <> underscore).
Proof.
  cbv zeta. unfold safeName_of. rewrite list_ascii_of_string_of_list_ascii.
  set (raw := collapse_underscores (replace_unsafe (list_ascii_of_string name))).
  assert (Hsafe : Forall (fun c => is_safe_char c = true) raw).
  { apply collapse_Forall, replace_unsafe_safe. }
  assert (Hnd : no_double_underscore raw = true) by apply collapse_no_double.
  destruct (strip_underscores_middle raw) as (pre & post & E & _ & _).
  set (mid := strip_underscores raw) in *.
  assert (Hmid : Forall (fun c => is_safe_char c = true) mid).
  { rewrite E in Hsafe. exact (Forall_app_middle _ _ _ _ Hsafe). }
  assert (Hndm : no_double_underscore mid = true).
  { rewrite E in Hnd. apply no_double_app_r in Hnd.
    exact (no_double_app_l _ _ Hnd). }
  pose proof (firstn_prefix mid 50) as Ecut.
  repeat split.
  - rewrite Ecut in Hmid. now apply Forall_app in Hmid as [H _].
  - apply firstn_le_length.
  - rewrite Ecut in Hndm. exact (no_double_app_l _ _ Hndm).
  - intros c r Hc. apply is_underscore_false.
    rewrite Hc in Ecut. cbn [app] in Ecut.
    exact (strip_underscores_head raw _ _ Ecut).
  - intros Hlen r c Hc. apply is_underscore_false.
    assert (Hall : firstn 50 mid = mid).
    { apply firstn_all2. rewrite length_firstn in Hlen. lia. }
    rewrite Hall in Hc. exact (strip_underscores_last raw _ _ Hc).
Qed.

(** X22. A base name that is already clean (safe characters only, no doubled,
    leading or trailing underscore, at most fifty characters) is kept as it
    is. *)
Theorem safeName_keeps_a_clean_name (name : string) :
  let s := list_ascii_of_string name in
  Forall (fun c => is_safe_char c = true) s ->
  no_double_underscore s = true ->
  (forall c r, s = c :: r -> c <> underscore) ->
  (forall r c, s = r ++ [c] -> c <> underscore) ->
  (List.length s <= 50)%nat ->
  safeName_of name = name.
Proof.
  cbv zeta. intros Hsafe Hnd Hhead Hlast Hlen. unfold safeName_of.
  rewrite (replace_unsafe_id _ Hsafe), (collapse_id _ Hnd).
  rewrite strip_underscores_id.
  - rewrite firstn_all2 by exact Hlen. apply string_of_list_ascii_of_string.
  - intros c r E. apply is_underscore_false. exact (Hhead c r E).
  - intros r c E. apply is_underscore_false. exact (Hlast r c E).
Qed.

Lemma safeName_keeps_a_clean_name_witness :
  safeName_of "living_room-2" = "living_room-2".
Proof.
  apply (safeName_keeps_a_clean_name "living_room-2").
  - cbv zeta. repeat constructor.
  - vm_compute. reflexivity.
  - intros c r E. injection E as <- _. discriminate.
  - intros r c E.
    apply (f_equal (@rev ascii)) in E. rewrite rev_app_distr in E.
    cbn in E. injection E as <- _. discriminate.
  - cbn. lia.
Defined.

(** X23. The safe name is empty exactly when the base name has no letter,
    digit or hyphen; [createSafeFilename] then gives a name that begins
    with the underscore before the timestamp, followed by the random string
    and the extension. *)
Theorem safeName_is_empty_iff
  extname basename render randomString originalname env w :
  let name := basename originalname (extname originalname) in
  let nothing_safe :=
    Forall (fun c => is_safe_char c = false \/ c = underscore)
           (list_ascii_of_string name) in
  (safeName_of name = "" <-> nothing_safe)
  /\ (nothing_safe ->
      fst (createSafeFilename extname basename render randomString
             originalname env w)
      = Fulfilled
          (String.append "_"
             (String.append (render (clock env (ticks w)))
                (String.append "_"
                   (String.append randomString (extname originalname)))))).
Proof.
  cbv zeta.
  set (name := basename originalname (extname originalname)).
  assert (Hiff : safeName_of name = ""
                 <-> Forall (fun c => is_safe_char c = false \/ c = underscore)
                            (list_ascii_of_string name)).
  { unfold safeName_of.
    set (s := list_ascii_of_string name).
    set (raw := collapse_underscores (replace_unsafe s)).
    split.
    - intros H. apply (f_equal list_ascii_of_string) in H.
      rewrite list_ascii_of_string_of_list_ascii in H. cbn in H.
      assert (Hmid : strip_underscores raw = []).
      { destruct (strip_underscores raw); [reflexivity | discriminate H]. }
      destruct (strip_underscores_middle raw)
        as (pre & post & E & Hpre & Hpost).
      rewrite Hmid in E. cbn [app] in E.
      assert (Hraw : Forall (fun x => is_underscore x = true) raw).
      { rewrite E. apply Forall_app. split; assumption. }
      apply collapse_all_underscores in Hraw.
      unfold replace_unsafe in Hraw. rewrite Forall_map in Hraw.
      revert Hraw. apply List.Forall_impl. intros c Hc.
      destruct (is_safe_char c); [right | now left].
      now apply is_underscore_true.
    - intros H.
      assert (Hraw : Forall (fun x => is_underscore x = true) raw).
      { apply collapse_Forall. unfold replace_unsafe. rewrite Forall_map.
        revert H. apply List.Forall_impl. intros c [Hc | ->].
        - now rewrite Hc.
        - reflexivity. }
      unfold strip_underscores. rewrite (strip_leading_all _ Hraw).
      reflexivity. }
  split; [exact Hiff |].
  intros Hnone. unfold createSafeFilename, bind, Date_now, ret.
  cbn [fst]. fold name. rewrite (proj2 Hiff Hnone). reflexivity.
Qed.

Lemma safeName_is_empty_iff_witness :
  fst (createSafeFilename (fun _ => ".png") (fun _ _ => "$ _ (!)")
         (fun _ => "5000") "abc123" "$ _ (!).png" ex_env ex_world)
  = Fulfilled "_5000_abc123.png".
Proof.
  apply (proj2 (safeName_is_empty_iff (fun _ => ".png") (fun _ _ => "$ _ (!)")
                  (fun _ => "5000") "abc123" "$ _ (!).png" ex_env ex_world)).
  cbn [list_ascii_of_string].
  repeat (apply List.Forall_cons;
          [first [left; reflexivity | right; reflexivity] |]).
  apply List.Forall_nil.
Defined.

(* ===================================================================== *)
(** ** UploadService: cleaning up orphaned uploads                        *)
(* ===================================================================== *)

Lemma prisma_upload_delete_run id env w :
  prisma_upload_delete id env w
  = match uploads (db w) !! id with
    | None => (Rejected (JsError "Record to delete does not exist."), w)
    | Some _ =>
        (Fulfilled tt,
         emit (EvDeleteUpload id) (with_db (with_uploads (delete id)) w))
    end.
Proof.
  unfold prisma_upload_delete, bind, get_db.
  destruct (uploads (db w) !! id); reflexivity.
Qed.

Ltac one_turn :=
  repeat split; try reflexivity;
  first
    [ solve [right; repeat split; eauto]
    | solve [left; repeat split; auto;
             try (left; congruence); try (right; assumption)] ].

(** What one turn of the loop does to the store and to the count. *)
Lemma cleanup_one_spec u n env w :
  let r := cleanup_one u n env w in
  projects (db (snd r)) = projects (db w)
  /\ rooms (db (snd r)) = rooms (db w)
  /\ designs (db (snd r)) = designs (db w)
  /\ ((uploads (db (snd r)) = uploads (db w)
       /\ (fst r = Fulfilled n \/ fst r = Unsettled)
       /\ (~ image_goes env u \/ uploads (db w) !! u_id u = None))
      \/ (is_Some (uploads (db w) !! u_id u)
          /\ uploads (db (snd r)) = delete (u_id u) (uploads (db w))
          /\ fst r = Fulfilled (n + 1)
          /\ image_goes env u)).
Proof.
  cbv zeta. unfold cleanup_one, image_goes, try_catch, bind.
  destruct (u_cloudinaryId u) as [cid |];
    [destruct (String.eqb cid "") |].
  2: { unfold CloudinaryUtil_deleteImage.
       destruct (cloudinary_destroy env cid) as [[] | e |] eqn:Ec.
       - rewrite prisma_upload_delete_run. cbn [db emit].
         destruct (uploads (db w) !! u_id u) eqn:El; cbn; one_turn.
       - cbn. one_turn.
       - cbn. one_turn. }
  all: cbn [ret]; rewrite prisma_upload_delete_run;
    destruct (uploads (db w) !! u_id u) eqn:El; cbn; one_turn.
Qed.

Lemma cleanup_one_goes u n env w :
  image_goes env u ->
  let r := cleanup_one u n env w in
  (exists n', fst r = Fulfilled n')
  /\ uploads (db (snd r)) = delete (u_id u) (uploads (db w)).
Proof.
  intros Hgo. cbv zeta.
  destruct (cleanup_one_spec u n env w)
    as (_ & _ & _ & [(Hup & Hout & Hwhy) | (_ & Hup & Hout & _)]).
  - destruct Hwhy as [Hno | Habs]; [contradiction |].
    rewrite Hup, (delete_id _ _ Habs). split; [| reflexivity].
    unfold cleanup_one, image_goes, try_catch, bind in *.
    destruct (u_cloudinaryId u) as [cid |];
      [destruct (String.eqb cid "") |].
    2: { unfold CloudinaryUtil_deleteImage. rewrite Hgo.
         rewrite prisma_upload_delete_run. cbn [db emit]. rewrite Habs.
         cbn. eauto. }
    all: cbn [ret]; rewrite prisma_upload_delete_run, Habs; cbn; eauto.
  - split; [eauto | exact Hup].
Qed.

Lemma cleanup_one_no_reject u n env w e :
  fst (cleanup_one u n env w) <> Rejected e.
Proof.
  destruct (cleanup_one_spec u n env w)
    as (_ & _ & _ & [(_ & [H | H] & _) | (_ & _ & H & _)]);
    rewrite H; discriminate.
Qed.

Lemma cleanup_loop_cons u l n env w :
  cleanup_loop (u :: l) n env w
  = match cleanup_one u n env w with
    | (Fulfilled n', w') => cleanup_loop l n' env w'
    | (Rejected e, w') => (Rejected e, w')
    | (Unsettled, w') => (Unsettled, w')
    end.
Proof. reflexivity. Qed.

(** The loop leaves the other tables alone, never adds a row, and leaves
    alone every key none of whose rows in the list loses its image. *)
Lemma cleanup_loop_frame l :
  forall n env w,
    let r := cleanup_loop l n env w in
    projects (db (snd r)) = projects (db w)
    /\ rooms (db (snd r)) = rooms (db w)
    /\ designs (db (snd r)) = designs (db w)
    /\ (forall k, uploads (db w) !! k = None ->
                  uploads (db (snd r)) !! k = None)
    /\ (forall k,
          (forall u, In u l -> u_id u = k -> ~ image_goes env u) ->
          uploads (db (snd r)) !! k = uploads (db w) !! k).
Proof.
  induction l as [| u l IH]; intros n env w; cbv zeta.
  - cbn. auto.
  - rewrite cleanup_loop_cons.
    pose proof (cleanup_one_spec u n env w) as Hone. cbv zeta in Hone.
    destruct (cleanup_one u n env w) as [[n' | e |] w1] eqn:E1;
      cbn [fst snd] in Hone.
    + specialize (IH n' env w1). cbv zeta in IH.
      destruct IH as (Ip & Ir & Id & Inone & Ikeep).
      destruct Hone as (Hp & Hr & Hd & Hone).
      split; [congruence |]. split; [congruence |]. split; [congruence |].
      split.
      * intros k Hk. apply Inone.
        destruct Hone as [(Hup & _) | (_ & Hup & _)]; rewrite Hup.
        -- exact Hk.
        -- apply lookup_delete_None. now right.
      * intros k Hk. rewrite Ikeep.
        2: { intros u' Hin. apply Hk. now right. }
        destruct Hone as [(Hup & _) | (_ & Hup & _ & Hgo)]; rewrite Hup.
        -- reflexivity.
        -- apply lookup_delete_ne. intros Heq.
           exact (Hk u (or_introl eq_refl) Heq Hgo).
    + destruct Hone as (Hp & Hr & Hd & Hone). cbn [fst snd].
      repeat split; try assumption.
      * intros k Hk.
        destruct Hone as [(Hup & _) | (_ & _ & Hout & _)];
          [rewrite Hup; exact Hk | discriminate Hout].
      * intros k _.
        destruct Hone as [(Hup & _) | (_ & _ & Hout & _)];
          [rewrite Hup; reflexivity | discriminate Hout].
    + destruct Hone as (Hp & Hr & Hd & Hone). cbn [fst snd].
      repeat split; try assumption.
      * intros k Hk.
        destruct Hone as [(Hup & _) | (_ & _ & Hout & _)];
          [rewrite Hup; exact Hk | discriminate Hout].
      * intros k _.
        destruct Hone as [(Hup & _) | (_ & _ & Hout & _)];
          [rewrite Hup; reflexivity | discriminate Hout].
Qed.

Lemma cleanup_loop_no_reject l :
  forall n env w e, fst (cleanup_loop l n env w) <> Rejected e.
Proof.
  induction l as [| u l IH]; intros n env w e; [discriminate |].
  rewrite cleanup_loop_cons.
  pose proof (cleanup_one_no_reject u n env w) as Hone.
  destruct (cleanup_one u n env w) as [[n' | e' |] w1]; cbn [fst] in *.
  - apply IH.
  - exfalso. exact (Hone e' eq_refl).
  - discriminate.
Qed.

(** The count grows by one for each row that goes. *)
Lemma cleanup_loop_count l :
  forall n env w n',
    fst (cleanup_loop l n env w) = Fulfilled n' ->
    Z.of_nat (size (uploads (db (snd (cleanup_loop l n env w))))) + n'
    = Z.of_nat (size (uploads (db w))) + n
    /\ n <= n'.
Proof.
  induction l as [| u l IH]; intros n env w n'.
  - cbn. intros [= <-]. lia.
  - rewrite cleanup_loop_cons.
    pose proof (cleanup_one_spec u n env w) as Hone. cbv zeta in Hone.
    destruct (cleanup_one u n env w) as [[n1 | e |] w1] eqn:E1;
      cbn [fst snd] in Hone; [| discriminate | discriminate].
    intros Hout. destruct (IH n1 env w1 n' Hout) as (Hsize & Hle).
    destruct Hone as (_ & _ & _ & [(Hup & Hn & _) | (Hsome & Hup & Hn & _)]).
    + destruct Hn as [[= ->] | Hn]; [| discriminate Hn].
      rewrite Hup in Hsize. lia.
    + injection Hn as ->. rewrite Hup in Hsize.
      rewrite (map_size_delete_Some _ _ Hsome) in Hsize.
      destruct Hsome as [x Hx].
      assert (size (uploads (db w)) <> 0)%nat.
      { intros H0. apply map_size_empty_inv in H0. rewrite H0 in Hx.
        rewrite lookup_empty in Hx. discriminate Hx. }
      lia.
Qed.

(** When the call to the image host resolves for every row of the list,
    the loop is fulfilled and no row of the list is left. *)
Lemma cleanup_loop_does l :
  forall n env w,
    (forall u, In u l -> image_goes env u) ->
    (exists n', fst (cleanup_loop l n env w) = Fulfilled n')
    /\ forall u, In u l ->
         uploads (db (snd (cleanup_loop l n env w))) !! u_id u = None.
Proof.
  induction l as [| u l IH]; intros n env w Hgo.
  - cbn. split; [eauto | intros u []].
  - rewrite cleanup_loop_cons.
    destruct (cleanup_one_goes u n env w (Hgo u (or_introl eq_refl)))
      as ([n1 Hn1] & Hup).
    destruct (cleanup_one u n env w) as [o w1] eqn:E1. cbn [fst snd] in *.
    subst o.
    destruct (IH n1 env w1 (fun u' H => Hgo u' (or_intror H)))
      as (Hout & Hnone).
    split; [exact Hout |].
    intros u' [<- | Hin]; [| now apply Hnone].
    destruct (cleanup_loop_frame l n1 env w1) as (_ & _ & _ & Hmono & _).
    apply Hmono. rewrite Hup. apply lookup_delete_eq.
Qed.

(** The run of [cleanupOrphanedUploads]: one reading of the clock, the
    query on the store as it is, and the loop; its handler is never
    entered. *)
Lemma cleanupOrphanedUploads_run daysBefore days env w :
  let cutoff := daysBefore (clock env (ticks w)) days in
  let l := List.filter (is_orphaned_before cutoff) (rows (uploads (db w))) in
  let r := cleanup_loop l 0 env (emit (EvNow (clock env (ticks w))) (tick w)) in
  fst (cleanupOrphanedUploads daysBefore days env w) = fst r
  /\ db (snd (cleanupOrphanedUploads daysBefore days env w)) = db (snd r).
Proof.
  cbv zeta. unfold cleanupOrphanedUploads, try_catch, bind, Date_now,
    prisma_upload_findMany_orphaned.
  cbn [db emit tick].
  pose proof (cleanup_loop_no_reject
    (List.filter
       (is_orphaned_before (daysBefore (clock env (ticks w)) days))
       (rows (uploads (db w)))) 0 env
    (emit (EvNow (clock env (ticks w))) (tick w))) as Hno.
  destruct (cleanup_loop _ 0 env _) as [[n | e |] w1]; cbn [fst snd] in *.
  - split; reflexivity.
  - exfalso. exact (Hno e eq_refl).
  - split; reflexivity.
Qed.

Lemma orphaned_in_list (t : gmap string Upload) cutoff u :
  In u (List.filter (is_orphaned_before cutoff) (rows t))
  <-> (exists k, t !! k = Some u) /\ is_orphaned_before cutoff u = true.
Proof. rewrite filter_In, In_rows. reflexivity. Qed.

Lemma cleanup_tables daysBefore days env w :
  let w' := snd (cleanupOrphanedUploads daysBefore days env w) in
  projects (db w') = projects (db w)
  /\ rooms (db w') = rooms (db w)
  /\ designs (db w') = designs (db w)
  /\ (forall k, uploads (db w) !! k = None -> uploads (db w') !! k = None).
Proof.
  cbv zeta.
  destruct (cleanupOrphanedUploads_run daysBefore days env w) as (_ & ->).
  match goal with
  | |- context [cleanup_loop ?l ?n ?e ?w0] =>
      destruct (cleanup_loop_frame l n e w0) as (Hp & Hr & Hd & Hnone & _)
  end.
  auto.
Qed.

Lemma cleanup_spares_key daysBefore days env w k u :
  keyed_by_id (uploads (db w)) ->
  uploads (db w) !! k = Some u ->
  (is_orphaned_before (daysBefore (clock env (ticks w)) days) u = true ->
   ~ image_goes env u) ->
  uploads (db (snd (cleanupOrphanedUploads daysBefore days env w))) !! k
  = Some u.
Proof.
  intros Hkey Hk Hwhy.
  destruct (cleanupOrphanedUploads_run daysBefore days env w) as (_ & ->).
  match goal with
  | |- context [cleanup_loop ?l ?n ?e ?w0] =>
      destruct (cleanup_loop_frame l n e w0) as (_ & _ & _ & _ & Hkeep)
  end.
  rewrite Hkeep; [exact Hk |].
  intros u' Hin Hid. apply orphaned_in_list in Hin as ([k' Hk'] & Hold).
  pose proof (Hkey _ _ Hk') as Hid'.
  assert (k' = k) by congruence. subst k'.
  assert (u' = u) by congruence. subst u'.
  exact (Hwhy Hold).
Qed.

Lemma ex2_uploads_keyed : keyed_by_id (uploads (db ex2_world)).
Proof.
  intros k u H. cbn in H.
  apply lookup_insert_Some in H as [[<- <-] | [_ H]]; [reflexivity |].
  apply lookup_insert_Some in H as [[<- <-] | [_ H]]; [reflexivity |].
  apply lookup_singleton_Some in H as [<- <-]. reflexivity.
Qed.

(** X24. The cleanup only deletes uploads that have no room and are older than
    the cutoff: every other upload is still there afterwards, and so is
    every project, room and design, however the run ends. *)
Theorem cleanup_spares_attached_and_recent daysBefore days env w k u :
  keyed_by_id (uploads (db w)) ->
  uploads (db w) !! k = Some u ->
  is_orphaned_before (daysBefore (clock env (ticks w)) days) u = false ->
  let w' := snd (cleanupOrphanedUploads daysBefore days env w) in
  uploads (db w') !! k = Some u
  /\ projects (db w') = projects (db w)
  /\ rooms (db w') = rooms (db w)
  /\ designs (db w') = designs (db w).
Proof.
  intros Hkey Hk Hnew. cbv zeta. split.
  - apply cleanup_spares_key; [exact Hkey | exact Hk |].
    intros Hold. congruence.
  - destruct (cleanup_tables daysBefore days env w) as (Hp & Hr & Hd & _).
    auto.
Qed.

Lemma cleanup_spares_attached_and_recent_witness :
  let w' := snd (cleanupOrphanedUploads ex_daysBefore 0 ex_env ex2_world) in
  uploads (db w') !! "up1" = Some ex_upload
  /\ rooms (db w') = rooms ex2_db.
Proof.
  destruct (cleanup_spares_attached_and_recent ex_daysBefore 0 ex_env
              ex2_world "up1" ex_upload)
    as (Hup & _ & Hr & _).
  - exact ex2_uploads_keyed.
  - vm_compute. reflexivity.
  - reflexivity.
  - split; [exact Hup | exact Hr].
Defined.

(** X25. An orphaned upload for which the call to the image host does not
    resolve keeps its row (unlike in [deleteUpload]), and the failure is
    not reported: the run never rejects. *)
Theorem cleanup_keeps_a_row_whose_image_stays daysBefore days env w k u :
  keyed_by_id (uploads (db w)) ->
  uploads (db w) !! k = Some u ->
  ~ image_goes env u ->
  let r := cleanupOrphanedUploads daysBefore days env w in
  uploads (db (snd r)) !! k = Some u
  /\ forall e, fst r <> Rejected e.
Proof.
  intros Hkey Hk Hstay. cbv zeta. split.
  - apply cleanup_spares_key; auto.
  - intros e.
    destruct (cleanupOrphanedUploads_run daysBefore days env w) as (-> & _).
    apply cleanup_loop_no_reject.
Qed.

Lemma cleanup_keeps_a_row_whose_image_stays_witness :
  let r := cleanupOrphanedUploads ex_daysBefore 0 ex_env_cloud_down ex2_world in
  uploads (db (snd r)) !! "up3" = Some ex2_upload_orphan
  /\ forall e, fst r <> Rejected e.
Proof.
  apply (cleanup_keeps_a_row_whose_image_stays ex_daysBefore 0
           ex_env_cloud_down ex2_world "up3" ex2_upload_orphan).
  - exact ex2_uploads_keyed.
  - vm_compute. reflexivity.
  - cbn. discriminate.
Defined.

(** X26. The count the cleanup returns is the number of rows that left the
    uploads table. *)
Theorem cleanup_count_is_the_number_of_rows_gone daysBefore days env w n :
  fst (cleanupOrphanedUploads daysBefore days env w) = Fulfilled n ->
  let w' := snd (cleanupOrphanedUploads daysBefore days env w) in
  Z.of_nat (size (uploads (db w')))
  = Z.of_nat (size (uploads (db w))) - n
  /\ 0 <= n.
Proof.
  intros Hout. cbv zeta.
  destruct (cleanupOrphanedUploads_run daysBefore days env w) as (Ef & Ed).
  rewrite Ef in Hout. rewrite Ed.
  apply cleanup_loop_count in Hout as (Hsize & Hle).
  cbn [db emit tick] in Hsize. split; lia.
Qed.

Lemma cleanup_count_is_the_number_of_rows_gone_witness :
  let w' := snd (cleanupOrphanedUploads ex_daysBefore 0 ex_env ex2_world) in
  Z.of_nat (size (uploads (db w'))) = Z.of_nat (size (uploads ex2_db)) - 1.
Proof.
  destruct (cleanup_count_is_the_number_of_rows_gone ex_daysBefore 0 ex_env
              ex2_world 1) as (H & _).
  - vm_compute. reflexivity.
  - exact H.
Defined.

(** X27. When the call to the image host resolves for every old orphan, the
    cleanup is fulfilled and the uploads table afterwards is the one before
    without the orphans older than the cutoff. *)
Theorem cleanup_removes_every_old_orphan daysBefore days env w :
  let cutoff := daysBefore (clock env (ticks w)) days in
  let r := cleanupOrphanedUploads daysBefore days env w in
  keyed_by_id (uploads (db w)) ->
  (forall k u, uploads (db w) !! k = Some u ->
               is_orphaned_before cutoff u = true -> image_goes env u) ->
  (exists n, fst r = Fulfilled n)
  /\ forall k,
       uploads (db (snd r)) !! k
       = match uploads (db w) !! k with
         | Some u => if is_orphaned_before cutoff u then None else Some u
         | None => None
         end.
Proof.
  cbv zeta. intros Hkey Hgo.
  destruct (cleanupOrphanedUploads_run daysBefore days env w) as (Ef & Ed).
  set (cutoff := daysBefore (clock env (ticks w)) days) in *.
  set (l := List.filter (is_orphaned_before cutoff) (rows (uploads (db w))))
    in *.
  destruct (cleanup_loop_does l 0 env
              (emit (EvNow (clock env (ticks w))) (tick w)))
    as (Hout & Hnone).
  { intros u Hin. apply orphaned_in_list in Hin as ([k Hk] & Hold).
    exact (Hgo k u Hk Hold). }
  split; [rewrite Ef; exact Hout |].
  intros k. destruct (uploads (db w) !! k) as [u |] eqn:Hk.
  - destruct (is_orphaned_before cutoff u) eqn:Hold.
    + rewrite Ed, <- (Hkey _ _ Hk). apply Hnone.
      apply orphaned_in_list. split; [eauto | exact Hold].
    + apply cleanup_spares_key; [exact Hkey | exact Hk |].
      fold cutoff. congruence.
  - destruct (cleanup_tables daysBefore days env w) as (_ & _ & _ & Hmono).
    apply Hmono. exact Hk.
Qed.

Lemma cleanup_removes_every_old_orphan_witness :
  let r := cleanupOrphanedUploads ex_daysBefore 0 ex_env ex2_world in
  (exists n, fst r = Fulfilled n)
  /\ uploads (db (snd r)) !! "up3" = None
  /\ uploads (db (snd r)) !! "up2" = Some ex2_upload_bob.
Proof.
  destruct (cleanup_removes_every_old_orphan ex_daysBefore 0 ex_env ex2_world)
    as (Hout & Hrows).
  - exact ex2_uploads_keyed.
  - intros k u _ _. unfold image_goes.
    destruct (u_cloudinaryId u) as [cid |]; [| exact I].
    destruct (String.eqb cid ""); [exact I | reflexivity].
  - split; [exact Hout |]. split; rewrite Hrows; vm_compute; reflexivity.
Defined.
